(** * The AI-news crawler of poc/feishu_news: a shallow embedding

    The development follows [poc/feishu_news/news_crawler.py] and
    [poc/feishu_news/pipeline.py].  Python values are modelled as follows.

    - [str] is a sequence of Unicode code points (scalar values), so that
      [len], slicing and [in] count characters as Python does, not bytes.
    - Python [int]s are [Z]; list positions and lengths are [nat].
    - A [set] of strings is a [gset str].
    - A function that may raise returns an [outcome].
    - A function that mutates an article returns the article it leaves.
    - The functions of the standard library ([str.lower], [str.strip], the
      patterns of [re], [datetime.fromisoformat] and [isoformat]) are
      modelled as CPython 3.11 has them, with the character tables of
      Unicode 14.0; [urlparse] on the URLs it accepts.
    - A parsed page is a tree of tags and strings ([Soup.node]); [find],
      [find_all] and [find_next_sibling] are functions on it.  [urljoin],
      [unquote] and the CSS selector engine are parameters ([Library]), and
      so is what the network answers ([Network], [Web]). *)

From Stdlib Require Import ZArith NArith List String Ascii Bool Lia.
From stdpp Require Import base list gmap sets pretty.

(** ** The Unicode case tables

    The tables of the Unicode Character Database, version 14.0, as CPython
    3.11 has them.  For [str.lower]: the simple lower-case mapping, the one
    code point whose lower case has two code points, and the properties
    Cased and Case_Ignorable, which decide the lower case of U+03A3.  For
    [\d] and [int]: the decimal digits. *)

Module Unicode.

Local Open Scope N_scope.

Definition in_ranges (c : N) (ranges : list (N * N)) : bool :=
  existsb (fun r => (fst r <=? c) && (c <=? snd r)) ranges.

(** The code points with the property Cased, as closed ranges. *)
Definition cased_ranges : list (N * N) :=
  [
    (0x41, 0x5A); (0x61, 0x7A); (0xAA, 0xAA); (0xB5, 0xB5); (0xBA, 0xBA);
    (0xC0, 0xD6); (0xD8, 0xF6); (0xF8, 0x1BA); (0x1BC, 0x1BF);
    (0x1C4, 0x293); (0x295, 0x2B8); (0x2C0, 0x2C1); (0x2E0, 0x2E4);
    (0x345, 0x345); (0x370, 0x373); (0x376, 0x377); (0x37A, 0x37D);
    (0x37F, 0x37F); (0x386, 0x386); (0x388, 0x38A); (0x38C, 0x38C);
    (0x38E, 0x3A1); (0x3A3, 0x3F5); (0x3F7, 0x481); (0x48A, 0x52F);
    (0x531, 0x556); (0x560, 0x588); (0x10A0, 0x10C5); (0x10C7, 0x10C7);
    (0x10CD, 0x10CD); (0x10D0, 0x10FA); (0x10FD, 0x10FF); (0x13A0, 0x13F5);
    (0x13F8, 0x13FD); (0x1C80, 0x1C88); (0x1C90, 0x1CBA); (0x1CBD, 0x1CBF);
    (0x1D00, 0x1DBF); (0x1E00, 0x1F15); (0x1F18, 0x1F1D); (0x1F20, 0x1F45);
    (0x1F48, 0x1F4D); (0x1F50, 0x1F57); (0x1F59, 0x1F59); (0x1F5B, 0x1F5B);
    (0x1F5D, 0x1F5D); (0x1F5F, 0x1F7D); (0x1F80, 0x1FB4); (0x1FB6, 0x1FBC);
    (0x1FBE, 0x1FBE); (0x1FC2, 0x1FC4); (0x1FC6, 0x1FCC); (0x1FD0, 0x1FD3);
    (0x1FD6, 0x1FDB); (0x1FE0, 0x1FEC); (0x1FF2, 0x1FF4); (0x1FF6, 0x1FFC);
    (0x2071, 0x2071); (0x207F, 0x207F); (0x2090, 0x209C); (0x2102, 0x2102);
    (0x2107, 0x2107); (0x210A, 0x2113); (0x2115, 0x2115); (0x2119, 0x211D);
    (0x2124, 0x2124); (0x2126, 0x2126); (0x2128, 0x2128); (0x212A, 0x212D);
    (0x212F, 0x2134); (0x2139, 0x2139); (0x213C, 0x213F); (0x2145, 0x2149);
    (0x214E, 0x214E); (0x2160, 0x217F); (0x2183, 0x2184); (0x24B6, 0x24E9);
    (0x2C00, 0x2CE4); (0x2CEB, 0x2CEE); (0x2CF2, 0x2CF3); (0x2D00, 0x2D25);
    (0x2D27, 0x2D27); (0x2D2D, 0x2D2D); (0xA640, 0xA66D); (0xA680, 0xA69D);
    (0xA722, 0xA787); (0xA78B, 0xA78E); (0xA790, 0xA7CA); (0xA7D0, 0xA7D1);
    (0xA7D3, 0xA7D3); (0xA7D5, 0xA7D9); (0xA7F5, 0xA7F6); (0xA7F8, 0xA7FA);
    (0xAB30, 0xAB5A); (0xAB5C, 0xAB68); (0xAB70, 0xABBF); (0xFB00, 0xFB06);
    (0xFB13, 0xFB17); (0xFF21, 0xFF3A); (0xFF41, 0xFF5A);
    (0x10400, 0x1044F); (0x104B0, 0x104D3); (0x104D8, 0x104FB);
    (0x10570, 0x1057A); (0x1057C, 0x1058A); (0x1058C, 0x10592);
    (0x10594, 0x10595); (0x10597, 0x105A1); (0x105A3, 0x105B1);
    (0x105B3, 0x105B9); (0x105BB, 0x105BC); (0x10780, 0x10780);
    (0x10783, 0x10785); (0x10787, 0x107B0); (0x107B2, 0x107BA);
    (0x10C80, 0x10CB2); (0x10CC0, 0x10CF2); (0x118A0, 0x118DF);
    (0x16E40, 0x16E7F); (0x1D400, 0x1D454); (0x1D456, 0x1D49C);
    (0x1D49E, 0x1D49F); (0x1D4A2, 0x1D4A2); (0x1D4A5, 0x1D4A6);
    (0x1D4A9, 0x1D4AC); (0x1D4AE, 0x1D4B9); (0x1D4BB, 0x1D4BB);
    (0x1D4BD, 0x1D4C3); (0x1D4C5, 0x1D505); (0x1D507, 0x1D50A);
    (0x1D50D, 0x1D514); (0x1D516, 0x1D51C); (0x1D51E, 0x1D539);
    (0x1D53B, 0x1D53E); (0x1D540, 0x1D544); (0x1D546, 0x1D546);
    (0x1D54A, 0x1D550); (0x1D552, 0x1D6A5); (0x1D6A8, 0x1D6C0);
    (0x1D6C2, 0x1D6DA); (0x1D6DC, 0x1D6FA); (0x1D6FC, 0x1D714);
    (0x1D716, 0x1D734); (0x1D736, 0x1D74E); (0x1D750, 0x1D76E);
    (0x1D770, 0x1D788); (0x1D78A, 0x1D7A8); (0x1D7AA, 0x1D7C2);
    (0x1D7C4, 0x1D7CB); (0x1DF00, 0x1DF09); (0x1DF0B, 0x1DF1E);
    (0x1E900, 0x1E943); (0x1F130, 0x1F149); (0x1F150, 0x1F169);
    (0x1F170, 0x1F189)
  ].

(** The code points with the property Case_Ignorable, as closed ranges. *)
Definition case_ignorable_ranges : list (N * N) :=
  [
    (0x27, 0x27); (0x2E, 0x2E); (0x3A, 0x3A); (0x5E, 0x5E); (0x60, 0x60);
    (0xA8, 0xA8); (0xAD, 0xAD); (0xAF, 0xAF); (0xB4, 0xB4); (0xB7, 0xB8);
    (0x2B0, 0x36F); (0x374, 0x375); (0x37A, 0x37A); (0x384, 0x385);
    (0x387, 0x387); (0x483, 0x489); (0x559, 0x559); (0x55F, 0x55F);
    (0x591, 0x5BD); (0x5BF, 0x5BF); (0x5C1, 0x5C2); (0x5C4, 0x5C5);
    (0x5C7, 0x5C7); (0x5F4, 0x5F4); (0x600, 0x605); (0x610, 0x61A);
    (0x61C, 0x61C); (0x640, 0x640); (0x64B, 0x65F); (0x670, 0x670);
    (0x6D6, 0x6DD); (0x6DF, 0x6E8); (0x6EA, 0x6ED); (0x70F, 0x70F);
    (0x711, 0x711); (0x730, 0x74A); (0x7A6, 0x7B0); (0x7EB, 0x7F5);
    (0x7FA, 0x7FA); (0x7FD, 0x7FD); (0x816, 0x82D); (0x859, 0x85B);
    (0x888, 0x888); (0x890, 0x891); (0x898, 0x89F); (0x8C9, 0x902);
    (0x93A, 0x93A); (0x93C, 0x93C); (0x941, 0x948); (0x94D, 0x94D);
    (0x951, 0x957); (0x962, 0x963); (0x971, 0x971); (0x981, 0x981);
    (0x9BC, 0x9BC); (0x9C1, 0x9C4); (0x9CD, 0x9CD); (0x9E2, 0x9E3);
    (0x9FE, 0x9FE); (0xA01, 0xA02); (0xA3C, 0xA3C); (0xA41, 0xA42);
    (0xA47, 0xA48); (0xA4B, 0xA4D); (0xA51, 0xA51); (0xA70, 0xA71);
    (0xA75, 0xA75); (0xA81, 0xA82); (0xABC, 0xABC); (0xAC1, 0xAC5);
    (0xAC7, 0xAC8); (0xACD, 0xACD); (0xAE2, 0xAE3); (0xAFA, 0xAFF);
    (0xB01, 0xB01); (0xB3C, 0xB3C); (0xB3F, 0xB3F); (0xB41, 0xB44);
    (0xB4D, 0xB4D); (0xB55, 0xB56); (0xB62, 0xB63); (0xB82, 0xB82);
    (0xBC0, 0xBC0); (0xBCD, 0xBCD); (0xC00, 0xC00); (0xC04, 0xC04);
    (0xC3C, 0xC3C); (0xC3E, 0xC40); (0xC46, 0xC48); (0xC4A, 0xC4D);
    (0xC55, 0xC56); (0xC62, 0xC63); (0xC81, 0xC81); (0xCBC, 0xCBC);
    (0xCBF, 0xCBF); (0xCC6, 0xCC6); (0xCCC, 0xCCD); (0xCE2, 0xCE3);
    (0xD00, 0xD01); (0xD3B, 0xD3C); (0xD41, 0xD44); (0xD4D, 0xD4D);
    (0xD62, 0xD63); (0xD81, 0xD81); (0xDCA, 0xDCA); (0xDD2, 0xDD4);
    (0xDD6, 0xDD6); (0xE31, 0xE31); (0xE34, 0xE3A); (0xE46, 0xE4E);
    (0xEB1, 0xEB1); (0xEB4, 0xEBC); (0xEC6, 0xEC6); (0xEC8, 0xECD);
    (0xF18, 0xF19); (0xF35, 0xF35); (0xF37, 0xF37); (0xF39, 0xF39);
    (0xF71, 0xF7E); (0xF80, 0xF84); (0xF86, 0xF87); (0xF8D, 0xF97);
    (0xF99, 0xFBC); (0xFC6, 0xFC6); (0x102D, 0x1030); (0x1032, 0x1037);
    (0x1039, 0x103A); (0x103D, 0x103E); (0x1058, 0x1059); (0x105E, 0x1060);
    (0x1071, 0x1074); (0x1082, 0x1082); (0x1085, 0x1086); (0x108D, 0x108D);
    (0x109D, 0x109D); (0x10FC, 0x10FC); (0x135D, 0x135F); (0x1712, 0x1714);
    (0x1732, 0x1733); (0x1752, 0x1753); (0x1772, 0x1773); (0x17B4, 0x17B5);
    (0x17B7, 0x17BD); (0x17C6, 0x17C6); (0x17C9, 0x17D3); (0x17D7, 0x17D7);
    (0x17DD, 0x17DD); (0x180B, 0x180F); (0x1843, 0x1843); (0x1885, 0x1886);
    (0x18A9, 0x18A9); (0x1920, 0x1922); (0x1927, 0x1928); (0x1932, 0x1932);
    (0x1939, 0x193B); (0x1A17, 0x1A18); (0x1A1B, 0x1A1B); (0x1A56, 0x1A56);
    (0x1A58, 0x1A5E); (0x1A60, 0x1A60); (0x1A62, 0x1A62); (0x1A65, 0x1A6C);
    (0x1A73, 0x1A7C); (0x1A7F, 0x1A7F); (0x1AA7, 0x1AA7); (0x1AB0, 0x1ACE);
    (0x1B00, 0x1B03); (0x1B34, 0x1B34); (0x1B36, 0x1B3A); (0x1B3C, 0x1B3C);
    (0x1B42, 0x1B42); (0x1B6B, 0x1B73); (0x1B80, 0x1B81); (0x1BA2, 0x1BA5);
    (0x1BA8, 0x1BA9); (0x1BAB, 0x1BAD); (0x1BE6, 0x1BE6); (0x1BE8, 0x1BE9);
    (0x1BED, 0x1BED); (0x1BEF, 0x1BF1); (0x1C2C, 0x1C33); (0x1C36, 0x1C37);
    (0x1C78, 0x1C7D); (0x1CD0, 0x1CD2); (0x1CD4, 0x1CE0); (0x1CE2, 0x1CE8);
    (0x1CED, 0x1CED); (0x1CF4, 0x1CF4); (0x1CF8, 0x1CF9); (0x1D2C, 0x1D6A);
    (0x1D78, 0x1D78); (0x1D9B, 0x1DFF); (0x1FBD, 0x1FBD); (0x1FBF, 0x1FC1);
    (0x1FCD, 0x1FCF); (0x1FDD, 0x1FDF); (0x1FED, 0x1FEF); (0x1FFD, 0x1FFE);
    (0x200B, 0x200F); (0x2018, 0x2019); (0x2024, 0x2024); (0x2027, 0x2027);
    (0x202A, 0x202E); (0x2060, 0x2064); (0x2066, 0x206F); (0x2071, 0x2071);
    (0x207F, 0x207F); (0x2090, 0x209C); (0x20D0, 0x20F0); (0x2C7C, 0x2C7D);
    (0x2CEF, 0x2CF1); (0x2D6F, 0x2D6F); (0x2D7F, 0x2D7F); (0x2DE0, 0x2DFF);
    (0x2E2F, 0x2E2F); (0x3005, 0x3005); (0x302A, 0x302D); (0x3031, 0x3035);
    (0x303B, 0x303B); (0x3099, 0x309E); (0x30FC, 0x30FE); (0xA015, 0xA015);
    (0xA4F8, 0xA4FD); (0xA60C, 0xA60C); (0xA66F, 0xA672); (0xA674, 0xA67D);
    (0xA67F, 0xA67F); (0xA69C, 0xA69F); (0xA6F0, 0xA6F1); (0xA700, 0xA721);
    (0xA770, 0xA770); (0xA788, 0xA78A); (0xA7F2, 0xA7F4); (0xA7F8, 0xA7F9);
    (0xA802, 0xA802); (0xA806, 0xA806); (0xA80B, 0xA80B); (0xA825, 0xA826);
    (0xA82C, 0xA82C); (0xA8C4, 0xA8C5); (0xA8E0, 0xA8F1); (0xA8FF, 0xA8FF);
    (0xA926, 0xA92D); (0xA947, 0xA951); (0xA980, 0xA982); (0xA9B3, 0xA9B3);
    (0xA9B6, 0xA9B9); (0xA9BC, 0xA9BD); (0xA9CF, 0xA9CF); (0xA9E5, 0xA9E6);
    (0xAA29, 0xAA2E); (0xAA31, 0xAA32); (0xAA35, 0xAA36); (0xAA43, 0xAA43);
    (0xAA4C, 0xAA4C); (0xAA70, 0xAA70); (0xAA7C, 0xAA7C); (0xAAB0, 0xAAB0);
    (0xAAB2, 0xAAB4); (0xAAB7, 0xAAB8); (0xAABE, 0xAABF); (0xAAC1, 0xAAC1);
    (0xAADD, 0xAADD); (0xAAEC, 0xAAED); (0xAAF3, 0xAAF4); (0xAAF6, 0xAAF6);
    (0xAB5B, 0xAB5F); (0xAB69, 0xAB6B); (0xABE5, 0xABE5); (0xABE8, 0xABE8);
    (0xABED, 0xABED); (0xFB1E, 0xFB1E); (0xFBB2, 0xFBC2); (0xFE00, 0xFE0F);
    (0xFE13, 0xFE13); (0xFE20, 0xFE2F); (0xFE52, 0xFE52); (0xFE55, 0xFE55);
    (0xFEFF, 0xFEFF); (0xFF07, 0xFF07); (0xFF0E, 0xFF0E); (0xFF1A, 0xFF1A);
    (0xFF3E, 0xFF3E); (0xFF40, 0xFF40); (0xFF70, 0xFF70); (0xFF9E, 0xFF9F);
    (0xFFE3, 0xFFE3); (0xFFF9, 0xFFFB); (0x101FD, 0x101FD);
    (0x102E0, 0x102E0); (0x10376, 0x1037A); (0x10780, 0x10785);
    (0x10787, 0x107B0); (0x107B2, 0x107BA); (0x10A01, 0x10A03);
    (0x10A05, 0x10A06); (0x10A0C, 0x10A0F); (0x10A38, 0x10A3A);
    (0x10A3F, 0x10A3F); (0x10AE5, 0x10AE6); (0x10D24, 0x10D27);
    (0x10EAB, 0x10EAC); (0x10F46, 0x10F50); (0x10F82, 0x10F85);
    (0x11001, 0x11001); (0x11038, 0x11046); (0x11070, 0x11070);
    (0x11073, 0x11074); (0x1107F, 0x11081); (0x110B3, 0x110B6);
    (0x110B9, 0x110BA); (0x110BD, 0x110BD); (0x110C2, 0x110C2);
    (0x110CD, 0x110CD); (0x11100, 0x11102); (0x11127, 0x1112B);
    (0x1112D, 0x11134); (0x11173, 0x11173); (0x11180, 0x11181);
    (0x111B6, 0x111BE); (0x111C9, 0x111CC); (0x111CF, 0x111CF);
    (0x1122F, 0x11231); (0x11234, 0x11234); (0x11236, 0x11237);
    (0x1123E, 0x1123E); (0x112DF, 0x112DF); (0x112E3, 0x112EA);
    (0x11300, 0x11301); (0x1133B, 0x1133C); (0x11340, 0x11340);
    (0x11366, 0x1136C); (0x11370, 0x11374); (0x11438, 0x1143F);
    (0x11442, 0x11444); (0x11446, 0x11446); (0x1145E, 0x1145E);
    (0x114B3, 0x114B8); (0x114BA, 0x114BA); (0x114BF, 0x114C0);
    (0x114C2, 0x114C3); (0x115B2, 0x115B5); (0x115BC, 0x115BD);
    (0x115BF, 0x115C0); (0x115DC, 0x115DD); (0x11633, 0x1163A);
    (0x1163D, 0x1163D); (0x1163F, 0x11640); (0x116AB, 0x116AB);
    (0x116AD, 0x116AD); (0x116B0, 0x116B5); (0x116B7, 0x116B7);
    (0x1171D, 0x1171F); (0x11722, 0x11725); (0x11727, 0x1172B);
    (0x1182F, 0x11837); (0x11839, 0x1183A); (0x1193B, 0x1193C);
    (0x1193E, 0x1193E); (0x11943, 0x11943); (0x119D4, 0x119D7);
    (0x119DA, 0x119DB); (0x119E0, 0x119E0); (0x11A01, 0x11A0A);
    (0x11A33, 0x11A38); (0x11A3B, 0x11A3E); (0x11A47, 0x11A47);
    (0x11A51, 0x11A56); (0x11A59, 0x11A5B); (0x11A8A, 0x11A96);
    (0x11A98, 0x11A99); (0x11C30, 0x11C36); (0x11C38, 0x11C3D);
    (0x11C3F, 0x11C3F); (0x11C92, 0x11CA7); (0x11CAA, 0x11CB0);
    (0x11CB2, 0x11CB3); (0x11CB5, 0x11CB6); (0x11D31, 0x11D36);
    (0x11D3A, 0x11D3A); (0x11D3C, 0x11D3D); (0x11D3F, 0x11D45);
    (0x11D47, 0x11D47); (0x11D90, 0x11D91); (0x11D95, 0x11D95);
    (0x11D97, 0x11D97); (0x11EF3, 0x11EF4); (0x13430, 0x13438);
    (0x16AF0, 0x16AF4); (0x16B30, 0x16B36); (0x16B40, 0x16B43);
    (0x16F4F, 0x16F4F); (0x16F8F, 0x16F9F); (0x16FE0, 0x16FE1);
    (0x16FE3, 0x16FE4); (0x1AFF0, 0x1AFF3); (0x1AFF5, 0x1AFFB);
    (0x1AFFD, 0x1AFFE); (0x1BC9D, 0x1BC9E); (0x1BCA0, 0x1BCA3);
    (0x1CF00, 0x1CF2D); (0x1CF30, 0x1CF46); (0x1D167, 0x1D169);
    (0x1D173, 0x1D182); (0x1D185, 0x1D18B); (0x1D1AA, 0x1D1AD);
    (0x1D242, 0x1D244); (0x1DA00, 0x1DA36); (0x1DA3B, 0x1DA6C);
    (0x1DA75, 0x1DA75); (0x1DA84, 0x1DA84); (0x1DA9B, 0x1DA9F);
    (0x1DAA1, 0x1DAAF); (0x1E000, 0x1E006); (0x1E008, 0x1E018);
    (0x1E01B, 0x1E021); (0x1E023, 0x1E024); (0x1E026, 0x1E02A);
    (0x1E130, 0x1E13D); (0x1E2AE, 0x1E2AE); (0x1E2EC, 0x1E2EF);
    (0x1E8D0, 0x1E8D6); (0x1E944, 0x1E94B); (0x1F3FB, 0x1F3FF);
    (0xE0001, 0xE0001); (0xE0020, 0xE007F); (0xE0100, 0xE01EF)
  ].

(** The simple lower-case mapping, as runs [(first, last, step, target)]:
    every [step]-th code point [c] from [first] to [last] maps to
    [target + (c - first)]; a code point in no run maps to itself. *)
Definition lower_runs : list (N * N * N * N) :=
  [
    (0x41, 0x5A, 1, 0x61); (0xC0, 0xD6, 1, 0xE0); (0xD8, 0xDE, 1, 0xF8);
    (0x100, 0x12E, 2, 0x101); (0x132, 0x136, 2, 0x133);
    (0x139, 0x147, 2, 0x13A); (0x14A, 0x176, 2, 0x14B);
    (0x178, 0x178, 1, 0xFF); (0x179, 0x17D, 2, 0x17A);
    (0x181, 0x181, 1, 0x253); (0x182, 0x184, 2, 0x183);
    (0x186, 0x186, 1, 0x254); (0x187, 0x187, 1, 0x188);
    (0x189, 0x18A, 1, 0x256); (0x18B, 0x18B, 1, 0x18C);
    (0x18E, 0x18E, 1, 0x1DD); (0x18F, 0x18F, 1, 0x259);
    (0x190, 0x190, 1, 0x25B); (0x191, 0x191, 1, 0x192);
    (0x193, 0x193, 1, 0x260); (0x194, 0x194, 1, 0x263);
    (0x196, 0x196, 1, 0x269); (0x197, 0x197, 1, 0x268);
    (0x198, 0x198, 1, 0x199); (0x19C, 0x19C, 1, 0x26F);
    (0x19D, 0x19D, 1, 0x272); (0x19F, 0x19F, 1, 0x275);
    (0x1A0, 0x1A4, 2, 0x1A1); (0x1A6, 0x1A6, 1, 0x280);
    (0x1A7, 0x1A7, 1, 0x1A8); (0x1A9, 0x1A9, 1, 0x283);
    (0x1AC, 0x1AC, 1, 0x1AD); (0x1AE, 0x1AE, 1, 0x288);
    (0x1AF, 0x1AF, 1, 0x1B0); (0x1B1, 0x1B2, 1, 0x28A);
    (0x1B3, 0x1B5, 2, 0x1B4); (0x1B7, 0x1B7, 1, 0x292);
    (0x1B8, 0x1B8, 1, 0x1B9); (0x1BC, 0x1BC, 1, 0x1BD);
    (0x1C4, 0x1C4, 1, 0x1C6); (0x1C5, 0x1C5, 1, 0x1C6);
    (0x1C7, 0x1C7, 1, 0x1C9); (0x1C8, 0x1C8, 1, 0x1C9);
    (0x1CA, 0x1CA, 1, 0x1CC); (0x1CB, 0x1DB, 2, 0x1CC);
    (0x1DE, 0x1EE, 2, 0x1DF); (0x1F1, 0x1F1, 1, 0x1F3);
    (0x1F2, 0x1F4, 2, 0x1F3); (0x1F6, 0x1F6, 1, 0x195);
    (0x1F7, 0x1F7, 1, 0x1BF); (0x1F8, 0x21E, 2, 0x1F9);
    (0x220, 0x220, 1, 0x19E); (0x222, 0x232, 2, 0x223);
    (0x23A, 0x23A, 1, 0x2C65); (0x23B, 0x23B, 1, 0x23C);
    (0x23D, 0x23D, 1, 0x19A); (0x23E, 0x23E, 1, 0x2C66);
    (0x241, 0x241, 1, 0x242); (0x243, 0x243, 1, 0x180);
    (0x244, 0x244, 1, 0x289); (0x245, 0x245, 1, 0x28C);
    (0x246, 0x24E, 2, 0x247); (0x370, 0x372, 2, 0x371);
    (0x376, 0x376, 1, 0x377); (0x37F, 0x37F, 1, 0x3F3);
    (0x386, 0x386, 1, 0x3AC); (0x388, 0x38A, 1, 0x3AD);
    (0x38C, 0x38C, 1, 0x3CC); (0x38E, 0x38F, 1, 0x3CD);
    (0x391, 0x3A1, 1, 0x3B1); (0x3A3, 0x3AB, 1, 0x3C3);
    (0x3CF, 0x3CF, 1, 0x3D7); (0x3D8, 0x3EE, 2, 0x3D9);
    (0x3F4, 0x3F4, 1, 0x3B8); (0x3F7, 0x3F7, 1, 0x3F8);
    (0x3F9, 0x3F9, 1, 0x3F2); (0x3FA, 0x3FA, 1, 0x3FB);
    (0x3FD, 0x3FF, 1, 0x37B); (0x400, 0x40F, 1, 0x450);
    (0x410, 0x42F, 1, 0x430); (0x460, 0x480, 2, 0x461);
    (0x48A, 0x4BE, 2, 0x48B); (0x4C0, 0x4C0, 1, 0x4CF);
    (0x4C1, 0x4CD, 2, 0x4C2); (0x4D0, 0x52E, 2, 0x4D1);
    (0x531, 0x556, 1, 0x561); (0x10A0, 0x10C5, 1, 0x2D00);
    (0x10C7, 0x10C7, 1, 0x2D27); (0x10CD, 0x10CD, 1, 0x2D2D);
    (0x13A0, 0x13EF, 1, 0xAB70); (0x13F0, 0x13F5, 1, 0x13F8);
    (0x1C90, 0x1CBA, 1, 0x10D0); (0x1CBD, 0x1CBF, 1, 0x10FD);
    (0x1E00, 0x1E94, 2, 0x1E01); (0x1E9E, 0x1E9E, 1, 0xDF);
    (0x1EA0, 0x1EFE, 2, 0x1EA1); (0x1F08, 0x1F0F, 1, 0x1F00);
    (0x1F18, 0x1F1D, 1, 0x1F10); (0x1F28, 0x1F2F, 1, 0x1F20);
    (0x1F38, 0x1F3F, 1, 0x1F30); (0x1F48, 0x1F4D, 1, 0x1F40);
    (0x1F59, 0x1F5F, 2, 0x1F51); (0x1F68, 0x1F6F, 1, 0x1F60);
    (0x1F88, 0x1F8F, 1, 0x1F80); (0x1F98, 0x1F9F, 1, 0x1F90);
    (0x1FA8, 0x1FAF, 1, 0x1FA0); (0x1FB8, 0x1FB9, 1, 0x1FB0);
    (0x1FBA, 0x1FBB, 1, 0x1F70); (0x1FBC, 0x1FBC, 1, 0x1FB3);
    (0x1FC8, 0x1FCB, 1, 0x1F72); (0x1FCC, 0x1FCC, 1, 0x1FC3);
    (0x1FD8, 0x1FD9, 1, 0x1FD0); (0x1FDA, 0x1FDB, 1, 0x1F76);
    (0x1FE8, 0x1FE9, 1, 0x1FE0); (0x1FEA, 0x1FEB, 1, 0x1F7A);
    (0x1FEC, 0x1FEC, 1, 0x1FE5); (0x1FF8, 0x1FF9, 1, 0x1F78);
    (0x1FFA, 0x1FFB, 1, 0x1F7C); (0x1FFC, 0x1FFC, 1, 0x1FF3);
    (0x2126, 0x2126, 1, 0x3C9); (0x212A, 0x212A, 1, 0x6B);
    (0x212B, 0x212B, 1, 0xE5); (0x2132, 0x2132, 1, 0x214E);
    (0x2160, 0x216F, 1, 0x2170); (0x2183, 0x2183, 1, 0x2184);
    (0x24B6, 0x24CF, 1, 0x24D0); (0x2C00, 0x2C2F, 1, 0x2C30);
    (0x2C60, 0x2C60, 1, 0x2C61); (0x2C62, 0x2C62, 1, 0x26B);
    (0x2C63, 0x2C63, 1, 0x1D7D); (0x2C64, 0x2C64, 1, 0x27D);
    (0x2C67, 0x2C6B, 2, 0x2C68); (0x2C6D, 0x2C6D, 1, 0x251);
    (0x2C6E, 0x2C6E, 1, 0x271); (0x2C6F, 0x2C6F, 1, 0x250);
    (0x2C70, 0x2C70, 1, 0x252); (0x2C72, 0x2C72, 1, 0x2C73);
    (0x2C75, 0x2C75, 1, 0x2C76); (0x2C7E, 0x2C7F, 1, 0x23F);
    (0x2C80, 0x2CE2, 2, 0x2C81); (0x2CEB, 0x2CED, 2, 0x2CEC);
    (0x2CF2, 0x2CF2, 1, 0x2CF3); (0xA640, 0xA66C, 2, 0xA641);
    (0xA680, 0xA69A, 2, 0xA681); (0xA722, 0xA72E, 2, 0xA723);
    (0xA732, 0xA76E, 2, 0xA733); (0xA779, 0xA77B, 2, 0xA77A);
    (0xA77D, 0xA77D, 1, 0x1D79); (0xA77E, 0xA786, 2, 0xA77F);
    (0xA78B, 0xA78B, 1, 0xA78C); (0xA78D, 0xA78D, 1, 0x265);
    (0xA790, 0xA792, 2, 0xA791); (0xA796, 0xA7A8, 2, 0xA797);
    (0xA7AA, 0xA7AA, 1, 0x266); (0xA7AB, 0xA7AB, 1, 0x25C);
    (0xA7AC, 0xA7AC, 1, 0x261); (0xA7AD, 0xA7AD, 1, 0x26C);
    (0xA7AE, 0xA7AE, 1, 0x26A); (0xA7B0, 0xA7B0, 1, 0x29E);
    (0xA7B1, 0xA7B1, 1, 0x287); (0xA7B2, 0xA7B2, 1, 0x29D);
    (0xA7B3, 0xA7B3, 1, 0xAB53); (0xA7B4, 0xA7C2, 2, 0xA7B5);
    (0xA7C4, 0xA7C4, 1, 0xA794); (0xA7C5, 0xA7C5, 1, 0x282);
    (0xA7C6, 0xA7C6, 1, 0x1D8E); (0xA7C7, 0xA7C9, 2, 0xA7C8);
    (0xA7D0, 0xA7D0, 1, 0xA7D1); (0xA7D6, 0xA7D8, 2, 0xA7D7);
    (0xA7F5, 0xA7F5, 1, 0xA7F6); (0xFF21, 0xFF3A, 1, 0xFF41);
    (0x10400, 0x10427, 1, 0x10428); (0x104B0, 0x104D3, 1, 0x104D8);
    (0x10570, 0x10594, 2, 0x10597); (0x10571, 0x10579, 2, 0x10598);
    (0x1057D, 0x10589, 2, 0x105A4); (0x1058D, 0x10591, 2, 0x105B4);
    (0x10595, 0x10595, 1, 0x105BC); (0x10C80, 0x10CB2, 1, 0x10CC0);
    (0x118A0, 0x118BF, 1, 0x118C0); (0x16E40, 0x16E5F, 1, 0x16E60);
    (0x1E900, 0x1E921, 1, 0x1E922)
  ].

(** The decimal digits (general category Nd) come in runs of ten, from
    the digit zero to the digit nine of a script; these are the zeros. *)
Definition decimal_zeros : list N :=
  [
    0x30; 0x660; 0x6F0; 0x7C0; 0x966; 0x9E6; 0xA66; 0xAE6; 0xB66; 0xBE6;
    0xC66; 0xCE6; 0xD66; 0xDE6; 0xE50; 0xED0; 0xF20; 0x1040; 0x1090; 0x17E0;
    0x1810; 0x1946; 0x19D0; 0x1A80; 0x1A90; 0x1B50; 0x1BB0; 0x1C40; 0x1C50;
    0xA620; 0xA8D0; 0xA900; 0xA9D0; 0xA9F0; 0xAA50; 0xABF0; 0xFF10; 0x104A0;
    0x10D30; 0x11066; 0x110F0; 0x11136; 0x111D0; 0x112F0; 0x11450; 0x114D0;
    0x11650; 0x116C0; 0x11730; 0x118E0; 0x11950; 0x11C50; 0x11D50; 0x11DA0;
    0x16A60; 0x16AC0; 0x16B50; 0x1D7CE; 0x1D7D8; 0x1D7E2; 0x1D7EC; 0x1D7F6;
    0x1E140; 0x1E2F0; 0x1E950; 0x1FBF0
  ].

(** The value of a decimal digit: what [int] reads it as, and what makes
    it match [\d]. *)
Definition decimal_value (c : N) : option N :=
  match filter (fun zero => bool_decide (zero <= c < zero + 10)) decimal_zeros with
  | zero :: _ => Some (c - zero)
  | [] => None
  end.

Definition is_decimal (c : N) : bool :=
  match decimal_value c with
  | Some _ => true
  | None => false
  end.

Definition is_cased (c : N) : bool := in_ranges c cased_ranges.

Definition is_case_ignorable (c : N) : bool := in_ranges c case_ignorable_ranges.

Fixpoint run_target (c : N) (runs : list (N * N * N * N)) : option N :=
  match runs with
  | [] => None
  | (first, last, step, target) :: rest =>
    if (first <=? c) && (c <=? last) && ((c - first) mod step =? 0)
    then Some (target + (c - first))
    else run_target c rest
  end.

Definition to_lower (c : N) : N :=
  match run_target c lower_runs with
  | Some l => l
  | None => c
  end.

(** The full lower-case mapping: U+0130 becomes U+0069 U+0307. *)
Definition to_lower_full (c : N) : list N :=
  if c =? 0x130 then [0x69; 0x307] else [to_lower c].

End Unicode.

(** ** Python strings *)

Module PyStr.

Abbreviation char := N (only parsing).
Abbreviation str := (list N) (only parsing).

(** A byte of a source literal. *)
Definition byte_of_ascii (a : ascii) : N := N_of_ascii a.

(** Decoding of well-formed UTF-8: how the interpreter reads the literals
    of a source file.  Only used on the literals of this development. *)
Fixpoint utf8_decode (bs : list N) : str :=
  match bs with
  | [] => []
  | b0 :: r0 =>
    if (b0 <? 0x80)%N then b0 :: utf8_decode r0
    else
      match r0 with
      | [] => []
      | b1 :: r1 =>
        if (b0 <? 0xE0)%N then
          N.lor (N.shiftl (N.land b0 0x1F) 6) (N.land b1 0x3F)
            :: utf8_decode r1
        else
          match r1 with
          | [] => []
          | b2 :: r2 =>
            if (b0 <? 0xF0)%N then
              N.lor (N.shiftl (N.land b0 0x0F) 12)
                (N.lor (N.shiftl (N.land b1 0x3F) 6) (N.land b2 0x3F))
                :: utf8_decode r2
            else
              match r2 with
              | [] => []
              | b3 :: r3 =>
                N.lor (N.shiftl (N.land b0 0x07) 18)
                  (N.lor (N.shiftl (N.land b1 0x3F) 12)
                     (N.lor (N.shiftl (N.land b2 0x3F) 6) (N.land b3 0x3F)))
                  :: utf8_decode r3
              end
          end
      end
  end.

(** [py "..."] is the Python string written by that literal. *)
Definition py (s : string) : str :=
  utf8_decode (map byte_of_ascii (list_ascii_of_string s)).

(** [str.encode()], that is UTF-8. *)
Definition utf8_encode_char (c : char) : list N :=
  if (c <? 0x80)%N then [c]
  else if (c <? 0x800)%N then
    [N.lor 0xC0 (N.shiftr c 6); N.lor 0x80 (N.land c 0x3F)]
  else if (c <? 0x10000)%N then
    [N.lor 0xE0 (N.shiftr c 12);
     N.lor 0x80 (N.land (N.shiftr c 6) 0x3F);
     N.lor 0x80 (N.land c 0x3F)]
  else
    [N.lor 0xF0 (N.land (N.shiftr c 18) 0x07);
     N.lor 0x80 (N.land (N.shiftr c 12) 0x3F);
     N.lor 0x80 (N.land (N.shiftr c 6) 0x3F);
     N.lor 0x80 (N.land c 0x3F)].

Definition encode (s : str) : list N := flat_map utf8_encode_char s.

(** [len(s)] *)
Definition len (s : str) : Z := Z.of_nat (length s).

(** [len(l)] of a list *)
Definition len_list {A : Type} (l : list A) : Z := Z.of_nat (length l).

(** [s[:n]] for a Python integer [n]: a negative bound counts from the
    end. *)
Definition slice_to {A : Type} (n : Z) (l : list A) : list A :=
  if (n <? 0)%Z then take (Z.to_nat (Z.of_nat (length l) + n)) l
  else take (Z.to_nat n) l.

(** [str.lower()].  Every code point is replaced by its full lower case,
    except U+03A3, the capital sigma: it becomes U+03C2 where it ends a
    word, that is where a cased code point comes before it and none after
    it, the code points that are Case_Ignorable not counting, and U+03C3
    elsewhere. *)
Fixpoint followed_by_cased (s : str) : bool :=
  match s with
  | [] => false
  | c :: rest =>
    if Unicode.is_case_ignorable c then followed_by_cased rest
    else Unicode.is_cased c
  end.

(** [after_cased] tells whether the last code point read so far that is
    not Case_Ignorable is cased. *)
Fixpoint lower_from (after_cased : bool) (s : str) : str :=
  match s with
  | [] => []
  | c :: rest =>
    (if (c =? 0x3A3)%N
     then [if after_cased && negb (followed_by_cased rest)
           then 0x3C2%N else 0x3C3%N]
     else Unicode.to_lower_full c)
    ++ lower_from (if Unicode.is_case_ignorable c then after_cased
                   else Unicode.is_cased c) rest
  end.

Definition lower (s : str) : str := lower_from false s.

(** [str.isspace()] of one character: the code points Python treats as
    white space. *)
Definition isspace (c : char) : bool :=
  ((0x09 <=? c) && (c <=? 0x0D) || (0x1C <=? c) && (c <=? 0x20)
   || (c =? 0x85) || (c =? 0xA0) || (c =? 0x1680)
   || (0x2000 <=? c) && (c <=? 0x200A)
   || (c =? 0x2028) || (c =? 0x2029) || (c =? 0x202F) || (c =? 0x205F)
   || (c =? 0x3000))%N.

Fixpoint lstrip (s : str) : str :=
  match s with
  | [] => []
  | c :: s' => if isspace c then lstrip s' else s
  end.

Definition rstrip (s : str) : str := rev (lstrip (rev s)).

(** [str.strip()] *)
Definition strip (s : str) : str := rstrip (lstrip s).

(** [s.startswith(p)] *)
Fixpoint startswith (s p : str) : bool :=
  match p, s with
  | [], _ => true
  | _ :: _, [] => false
  | a :: p', b :: s' => (a =? b)%N && startswith s' p'
  end.

(** [s.endswith(p)] *)
Definition endswith (s p : str) : bool := startswith (rev s) (rev p).

(** [p in s] for strings: [p] occurs in [s] as a substring. *)
Fixpoint contains (p s : str) : bool :=
  startswith s p ||
  match s with
  | [] => false
  | _ :: s' => contains p s'
  end.

(** [s.count(c)] for a pattern [c] of one character. *)
Definition count (c : char) (s : str) : Z :=
  Z.of_nat (length (filter (fun x => x = c) s)).

(** [s.replace(c, r)] for a pattern [c] of one character. *)
Definition replace (c : char) (r : str) (s : str) : str :=
  flat_map (fun x => if (x =? c)%N then r else [x]) s.

(** Truth value of a string: [not s] is [true] for the empty string. *)
Definition is_empty (s : str) : bool :=
  match s with [] => true | _ => false end.

End PyStr.

Export PyStr.

(** ** hashlib.md5 (RFC 1321) *)

Module MD5.

Local Open Scope N_scope.

Definition mask32 : N := 0xFFFFFFFF.
Definition add32 (a b : N) : N := (a + b) mod 0x100000000.
Definition not32 (a : N) : N := N.lxor a mask32.
Definition rotl32 (x c : N) : N :=
  N.lor (N.land (N.shiftl x c) mask32) (N.shiftr x (32 - c)).

Definition K : list N :=
  [ 0xd76aa478; 0xe8c7b756; 0x242070db; 0xc1bdceee;
    0xf57c0faf; 0x4787c62a; 0xa8304613; 0xfd469501;
    0x698098d8; 0x8b44f7af; 0xffff5bb1; 0x895cd7be;
    0x6b901122; 0xfd987193; 0xa679438e; 0x49b40821;
    0xf61e2562; 0xc040b340; 0x265e5a51; 0xe9b6c7aa;
    0xd62f105d; 0x02441453; 0xd8a1e681; 0xe7d3fbc8;
    0x21e1cde6; 0xc33707d6; 0xf4d50d87; 0x455a14ed;
    0xa9e3e905; 0xfcefa3f8; 0x676f02d9; 0x8d2a4c8a;
    0xfffa3942; 0x8771f681; 0x6d9d6122; 0xfde5380c;
    0xa4beea44; 0x4bdecfa9; 0xf6bb4b60; 0xbebfbc70;
    0x289b7ec6; 0xeaa127fa; 0xd4ef3085; 0x04881d05;
    0xd9d4d039; 0xe6db99e5; 0x1fa27cf8; 0xc4ac5665;
    0xf4292244; 0x432aff97; 0xab9423a7; 0xfc93a039;
    0x655b59c3; 0x8f0ccc92; 0xffeff47d; 0x85845dd1;
    0x6fa87e4f; 0xfe2ce6e0; 0xa3014314; 0x4e0811a1;
    0xf7537e82; 0xbd3af235; 0x2ad7d2bb; 0xeb86d391 ].

Definition shifts : list N :=
  [ 7; 12; 17; 22; 7; 12; 17; 22; 7; 12; 17; 22; 7; 12; 17; 22;
    5; 9; 14; 20; 5; 9; 14; 20; 5; 9; 14; 20; 5; 9; 14; 20;
    4; 11; 16; 23; 4; 11; 16; 23; 4; 11; 16; 23; 4; 11; 16; 23;
    6; 10; 15; 21; 6; 10; 15; 21; 6; 10; 15; 21; 6; 10; 15; 21 ].

Record state := State { sA : N; sB : N; sC : N; sD : N }.

Definition init : state :=
  State 0x67452301 0xefcdab89 0x98badcfe 0x10325476.

(** One of the 64 operations of a block; [m] holds its 16 words. *)
Definition step (m : list N) (st : state) (i : nat) : state :=
  let '(State a b c d) := st in
  let i' := N.of_nat i in
  let '(f, g) :=
    if i' <? 16 then (N.lor (N.land b c) (N.land (not32 b) d), i')
    else if i' <? 32 then
      (N.lor (N.land d b) (N.land (not32 d) c), (5 * i' + 1) mod 16)
    else if i' <? 48 then (N.lxor b (N.lxor c d), (3 * i' + 5) mod 16)
    else (N.lxor c (N.lor b (not32 d)), (7 * i') mod 16) in
  let f' := add32 (add32 (add32 f a) (nth i K 0)) (nth (N.to_nat g) m 0) in
  State d (add32 b (rotl32 f' (nth i shifts 0))) b c.

(** Little-endian words of a block of bytes. *)
Fixpoint words (bs : list N) : list N :=
  match bs with
  | b0 :: b1 :: b2 :: b3 :: r =>
    (b0 + N.shiftl b1 8 + N.shiftl b2 16 + N.shiftl b3 24) :: words r
  | _ => []
  end.

Definition compress (st : state) (block : list N) : state :=
  let m := words block in
  let '(State a b c d) := fold_left (step m) (seq 0 64) st in
  State (add32 (sA st) a) (add32 (sB st) b)
        (add32 (sC st) c) (add32 (sD st) d).

Definition le_bytes (n : nat) (x : N) : list N :=
  map (fun i => N.land (N.shiftr x (8 * N.of_nat i)) 0xFF) (seq 0 n).

(** The message followed by 0x80, zeros up to 56 modulo 64, and its length
    in bits on 8 bytes. *)
Definition pad (msg : list N) : list N :=
  let l := length msg in
  let zeros := ((64 + 55 - l mod 64) mod 64)%nat in
  msg ++ [0x80] ++ repeat 0 zeros ++ le_bytes 8 (8 * N.of_nat l).

Fixpoint run (n : nat) (st : state) (bs : list N) : state :=
  match n with
  | O => st
  | S n' => run n' (compress st (take 64 bs)) (drop 64 bs)
  end.

Definition digest (msg : list N) : list N :=
  let p := pad msg in
  let '(State a b c d) := run (length p / 64) init p in
  le_bytes 4 a ++ le_bytes 4 b ++ le_bytes 4 c ++ le_bytes 4 d.

Definition hex_digit (n : N) : char :=
  if n <? 10 then 0x30 + n else 0x61 + (n - 10).

Definition hex_byte (b : N) : str :=
  [hex_digit (N.shiftr b 4 mod 16); hex_digit (b mod 16)].

(** [hashlib.md5(msg).hexdigest()] *)
Definition hexdigest (msg : list N) : str := flat_map hex_byte (digest msg).

End MD5.

(** ** Exceptions *)

Inductive exn : Type :=
| ValueError
| RuntimeError
| OverflowError
| OSError.

(** What a call does: it returns a value or raises. *)
Inductive outcome (A : Type) : Type :=
| Returned (a : A)
| Raised (e : exn).

Arguments Returned {A} a.
Arguments Raised {A} e.

#[global] Instance outcome_ret : MRet outcome := fun A a => Returned a.

#[global] Instance outcome_bind : MBind outcome := fun A B k m =>
  match m with
  | Returned a => k a
  | Raised e => Raised e
  end.

(** ** datetime *)

Module Datetime.

Local Open Scope Z_scope.

(** [tzinfo] is [None] for a naive value and the offset from UTC, in
    microseconds, for an aware one. *)
Record datetime : Type := Datetime {
  year : Z; month : Z; day : Z;
  hour : Z; minute : Z; second : Z; microsecond : Z;
  tzinfo : option Z
}.

Definition is_leap (y : Z) : bool :=
  (y mod 4 =? 0) && (negb (y mod 100 =? 0) || (y mod 400 =? 0)).

Definition days_in_month (y m : Z) : Z :=
  if m =? 2 then (if is_leap y then 29 else 28)
  else if (m =? 4) || (m =? 6) || (m =? 9) || (m =? 11) then 30
  else 31.

Definition day_us : Z := 86400000000.

(** The checks of the constructor; it raises [ValueError] when one fails. *)
Definition fields_ok (d : datetime) : bool :=
  (1 <=? year d) && (year d <=? 9999)
  && (1 <=? month d) && (month d <=? 12)
  && (1 <=? day d) && (day d <=? days_in_month (year d) (month d))
  && (0 <=? hour d) && (hour d <=? 23)
  && (0 <=? minute d) && (minute d <=? 59)
  && (0 <=? second d) && (second d <=? 59)
  && (0 <=? microsecond d) && (microsecond d <=? 999999)
  && match tzinfo d with
     | None => true
     | Some off => (- day_us <? off) && (off <? day_us)
     end.

Definition make (d : datetime) : outcome datetime :=
  if fields_ok d then Returned d else Raised ValueError.

(** [datetime(y, m, d)] *)
Definition datetime_ymd (y m d : Z) : outcome datetime :=
  make (Datetime y m d 0 0 0 0 None).

(** *** Decimal numerals

    [fromisoformat] reads the ten digits of Basic Latin only. *)

Definition is_digit (c : char) : bool := ((0x30 <=? c) && (c <=? 0x39))%N.

(** The number a string of these digits writes. *)
Definition int_of_digits (s : str) : Z :=
  fold_left (fun acc c => 10 * acc + (Z.of_N c - 0x30)) s 0.

(** ["%0wd" % n] for [0 <= n < 10^w]. *)
Definition zero_padded (w : nat) (n : Z) : str :=
  map (fun i => Z.to_N (0x30 + (n / 10 ^ Z.of_nat (w - 1 - i)) mod 10))
      (seq 0 w).

(** *** fromisoformat

    [datetime.fromisoformat] as CPython 3.11 implements it
    ([Modules/_datetimemodule.c]): the date as [YYYY-MM-DD], [YYYYMMDD],
    [YYYY-Www[-D]] or [YYYYWww[D]], then any one character, then the time
    as [HH[:MM[:SS]]] or [HH[MM[SS]]] with a fraction after [.] or [,],
    then [Z] or an offset written like a time.  It reads the UTF-8 bytes of
    the string, which end with a zero byte: [byte_at] past the last byte is
    that zero.  [None] stands for its [ValueError]. *)

Definition byte_at (b : list N) (i : nat) : N := nth i b 0%N.

(** [parse_digits]: [n] digits from position [i]. *)
Fixpoint parse_digits (b : list N) (i n : nat) (acc : Z) : option Z :=
  match n with
  | O => Some acc
  | S n' =>
    let c := byte_at b i in
    if is_digit c then parse_digits b (S i) n' (10 * acc + (Z.of_N c - 0x30))
    else None
  end.

(** The number of digits from position [i] on. *)
Fixpoint count_digits (l : list N) : nat :=
  match l with
  | c :: rest => if is_digit c then S (count_digits rest) else O
  | [] => O
  end.

Definition digits_from (b : list N) (i : nat) : nat := count_digits (drop i b).

(** [_find_isoformat_datetime_separator]: where the date ends, for a
    string of 7 bytes or more. *)
Definition find_isoformat_datetime_separator (b : list N) : option nat :=
  let len := length b in
  if (len =? 7)%nat then Some 7%nat
  else if (byte_at b 4 =? 0x2D)%N then
    if (byte_at b 5 =? 0x57)%N then
      if (len <? 8)%nat then None
      else if (8 <? len)%nat && (byte_at b 8 =? 0x2D)%N then
        if (len =? 9)%nat then None
        else if (10 <? len)%nat && is_digit (byte_at b 10) then Some 8%nat
        else Some 10%nat
      else Some 8%nat
    else Some 10%nat
  else if (byte_at b 4 =? 0x57)%N then
    let idx := (7 + digits_from b 7)%nat in
    if (idx <? 9)%nat then Some idx
    else if Nat.even idx then Some 7%nat
    else Some 8%nat
  else Some 8%nat.

(** The proleptic Gregorian ordinal of a day, for a year from 1 on. *)
Definition days_before_year (y : Z) : Z :=
  let y := y - 1 in y * 365 + y / 4 - y / 100 + y / 400.

Definition days_before_month (y m : Z) : Z :=
  fold_left (fun acc k => acc + days_in_month y (Z.of_nat k))
            (seq 1 (Z.to_nat (m - 1))) 0.

Definition ymd_to_ord (y m d : Z) : Z :=
  days_before_year y + days_before_month y m + d.

Definition weekday (y m d : Z) : Z := (ymd_to_ord y m d + 6) mod 7.

Definition iso_week1_monday (y : Z) : Z :=
  let first_day := ymd_to_ord y 1 1 in
  let first_weekday := (first_day + 6) mod 7 in
  let week1_monday := first_day - first_weekday in
  if 3 <? first_weekday then week1_monday + 7 else week1_monday.

(** [ord_to_ymd], for an ordinal from 1 on. *)
Definition ord_to_ymd (ordinal : Z) : Z * Z * Z :=
  let ordinal := ordinal - 1 in
  let n400 := ordinal / 146097 in
  let n := ordinal mod 146097 in
  let n100 := n / 36524 in
  let n := n mod 36524 in
  let n4 := n / 1461 in
  let n := n mod 1461 in
  let n1 := n / 365 in
  let n := n mod 365 in
  let y := n400 * 400 + 1 + n100 * 100 + n4 * 4 + n1 in
  if (n1 =? 4) || (n100 =? 4) then (y - 1, 12, 31)
  else
    let leapyear := (n1 =? 3) && (negb (n4 =? 24) || (n100 =? 3)) in
    let m := Z.shiftr (n + 50) 5 in
    let preceding :=
      days_before_month 1 m + (if (2 <? m) && leapyear then 1 else 0) in
    if n <? preceding then
      (y, m - 1, n - (preceding - days_in_month y (m - 1)) + 1)
    else (y, m, n - preceding + 1).

(** [iso_to_ymd].  A week date of the year 0 never gives a day of the
    calendar. *)
Definition iso_to_ymd (y w d : Z) : option (Z * Z * Z) :=
  if y <? 1 then None
  else
    let in_range :=
      if (w <=? 0) || (53 <=? w) then
        (w =? 53)
        && ((weekday y 1 1 =? 3) || ((weekday y 1 1 =? 2) && is_leap y))
      else true in
    if negb in_range then None
    else if (d <=? 0) || (8 <=? d) then None
    else Some (ord_to_ymd (iso_week1_monday y + (w - 1) * 7 + d - 1)).

(** [parse_isoformat_date]: the date in the first [len] bytes. *)
Definition parse_isoformat_date (b : list N) (len : nat) : option (Z * Z * Z) :=
  match parse_digits b 0 4 0 with
  | None => None
  | Some y =>
    let uses_separator := (byte_at b 4 =? 0x2D)%N in
    let cur := if uses_separator then 5%nat else 4%nat in
    if (byte_at b cur =? 0x57)%N then
      match parse_digits b (cur + 1) 2 0 with
      | None => None
      | Some w =>
        let cur := (cur + 3)%nat in
        if (cur =? len)%nat then iso_to_ymd y w 1
        else if uses_separator && negb (byte_at b cur =? 0x2D)%N then None
        else
          let cur := if uses_separator then S cur else cur in
          match parse_digits b cur 1 0 with
          | None => None
          | Some d => iso_to_ymd y w d
          end
      end
    else
      match parse_digits b cur 2 0 with
      | None => None
      | Some m =>
        let cur := (cur + 2)%nat in
        if uses_separator && negb (byte_at b cur =? 0x2D)%N then None
        else
          let cur := if uses_separator then S cur else cur in
          match parse_digits b cur 2 0 with
          | None => None
          | Some d => Some (y, m, d)
          end
      end
  end.

(** What the loop over hours, minutes and seconds of [parse_hh_mm_ss_ff]
    ends with: the end of the field ([more] tells whether a byte that is
    not zero follows), or a fraction to read from [p]. *)
Inductive hms_loop : Type :=
| HmsEnd (vals : list Z) (more : bool)
| HmsFraction (vals : list Z) (p : nat).

(** [todo] fields are left to read; [has_separator] is set by the first. *)
Fixpoint parse_hms_fields (b : list N) (p p_end : nat) (todo : nat)
    (first has_separator : bool) (vals : list Z) : option hms_loop :=
  match todo with
  | O => Some (HmsFraction vals p)
  | S todo' =>
    match parse_digits b p 2 0 with
    | None => None
    | Some v =>
      let vals := vals ++ [v] in
      let c := byte_at b (p + 2) in
      let p := (p + 3)%nat in
      let has_separator := if first then (c =? 0x3A)%N else has_separator in
      if (p_end <=? p)%nat then Some (HmsEnd vals (negb (c =? 0)%N))
      else if has_separator && (c =? 0x3A)%N then
        parse_hms_fields b p p_end todo' false has_separator vals
      else if (c =? 0x2E)%N || (c =? 0x2C)%N then Some (HmsFraction vals p)
      else if negb has_separator then
        parse_hms_fields b (p - 1) p_end todo' false has_separator vals
      else None
    end
  end.

(** [parse_hh_mm_ss_ff] on the bytes from [p] to [p_end]: hour, minute,
    second and microsecond, and whether something is left over. *)
Definition parse_hh_mm_ss_ff (b : list N) (p p_end : nat)
  : option (Z * Z * Z * Z * bool) :=
  let field (vals : list Z) (i : nat) : Z := nth i vals 0 in
  match parse_hms_fields b p p_end 3 true true [] with
  | None => None
  | Some (HmsEnd vals more) =>
    Some (field vals 0%nat, field vals 1%nat, field vals 2%nat, 0, more)
  | Some (HmsFraction vals p) =>
    let to_parse := Nat.min 6 (p_end - p) in
    match parse_digits b p to_parse 0 with
    | None => None
    | Some us =>
      let us := us * 10 ^ Z.of_nat (6 - to_parse) in
      let p := (p + to_parse)%nat in
      let p := (p + digits_from b p)%nat in
      Some (field vals 0%nat, field vals 1%nat, field vals 2%nat, us,
            negb (byte_at b p =? 0)%N)
    end
  end.

(** Where the zone starts: the first [Z], [+] or [-] from [p] on; the byte
    at [p] is looked at even when [p] is the end. *)
Fixpoint tzinfo_pos (b : list N) (p p_end : nat) (fuel : nat) : nat :=
  let c := byte_at b p in
  if (c =? 0x5A)%N || (c =? 0x2B)%N || (c =? 0x2D)%N then p
  else
    match fuel with
    | O => S p
    | S fuel' => if (S p <? p_end)%nat then tzinfo_pos b (S p) p_end fuel' else S p
    end.

(** [parse_isoformat_time] on the bytes from [p] on: the time, and the
    offset in whole seconds with its microseconds. *)
Definition parse_isoformat_time (b : list N) (p : nat)
  : option (Z * Z * Z * Z * option (Z * Z)) :=
  let p_end := length b in
  let tz := tzinfo_pos b p p_end (length b) in
  match parse_hh_mm_ss_ff b p tz with
  | None => None
  | Some (hh, mm, ss, us, more) =>
    if (p_end <=? tz)%nat then
      if more then None else Some (hh, mm, ss, us, None)
    else if (byte_at b tz =? 0x5A)%N then
      if (byte_at b (S tz) =? 0)%N then Some (hh, mm, ss, us, Some (0, 0))
      else None
    else
      let tzsign := if (byte_at b tz =? 0x2D)%N then -1 else 1 in
      match parse_hh_mm_ss_ff b (S tz) p_end with
      | None => None
      | Some (th, tm, ts, tus, more) =>
        if more then None
        else Some (hh, mm, ss, us,
                   Some (tzsign * (th * 3600 + tm * 60 + ts), tzsign * tus))
      end
  end.

(** [tzinfo_from_isoformat_results]: an offset of no whole second is UTC,
    whatever its microseconds. *)
Definition tzinfo_of (tz : option (Z * Z)) : option Z :=
  match tz with
  | None => None
  | Some (seconds, useconds) =>
    Some (if seconds =? 0 then 0 else seconds * 1000000 + useconds)
  end.

Definition checked (d : datetime) : option datetime :=
  if fields_ok d then Some d else None.

Definition is_surrogate (c : N) : bool := ((0xD800 <=? c) && (c <=? 0xDFFF))%N.

(** [_sanitize_isoformat_str]: a surrogate at the first of the places 7, 8
    and 10 that holds one is read as [T]. *)
Definition sanitize_isoformat_str (s : str) : str :=
  match filter (fun i => match nth_error s i with
                         | Some c => is_surrogate c
                         | None => false
                         end = true) [7; 8; 10]%nat with
  | i :: _ => firstn i s ++ [0x54%N] ++ skipn (S i) s
  | [] => s
  end.

(** The bytes of the UTF-8 character with the lead byte [c]. *)
Definition utf8_width (c : N) : nat :=
  if (N.land c 0x80 =? 0)%N then 1%nat
  else if (N.land c 0xF0 =? 0xE0)%N then 3%nat
  else if (N.land c 0xF0 =? 0xF0)%N then 4%nat
  else 2%nat.

(** The rest of [datetime_fromisoformat], on the bytes of the string. *)
Definition parse_isoformat_datetime (b : list N) : option datetime :=
  match find_isoformat_datetime_separator b with
  | None => None
  | Some separator_location =>
    match parse_isoformat_date b separator_location with
    | None => None
    | Some (y, m, d) =>
      if (separator_location <? length b)%nat then
        let p :=
          (separator_location + utf8_width (byte_at b separator_location))%nat in
        match parse_isoformat_time b p with
        | None => None
        | Some (hh, mm, ss, us, tz) =>
          checked (Datetime y m d hh mm ss us (tzinfo_of tz))
        end
      else checked (Datetime y m d 0 0 0 0 None)
    end
  end.

(** A string of fewer than 7 characters is refused, and so is one that
    cannot be encoded: one with a surrogate left. *)
Definition fromisoformat (s : str) : option datetime :=
  if (length s <? 7)%nat then None
  else
    let s := sanitize_isoformat_str s in
    if existsb is_surrogate s then None
    else parse_isoformat_datetime (encode s).

(** *** isoformat *)

Definition format_offset (tz : option Z) : str :=
  match tz with
  | None => []
  | Some off =>
    let sign : str := if off <? 0 then [0x2D%N] else [0x2B%N] in
    let a := Z.abs off in
    let hh := a / 3600000000 in
    let r := a mod 3600000000 in
    let mm := r / 60000000 in
    let r' := r mod 60000000 in
    let ss := r' / 1000000 in
    let us := r' mod 1000000 in
    sign ++ zero_padded 2 hh ++ [0x3A%N] ++ zero_padded 2 mm
      ++ (if (ss =? 0) && (us =? 0) then []
          else [0x3A%N] ++ zero_padded 2 ss
               ++ (if us =? 0 then [] else [0x2E%N] ++ zero_padded 6 us))
  end.

(** [dt.isoformat()] *)
Definition isoformat (d : datetime) : str :=
  zero_padded 4 (year d) ++ [0x2D%N] ++ zero_padded 2 (month d) ++ [0x2D%N]
    ++ zero_padded 2 (day d) ++ [0x54%N]
    ++ zero_padded 2 (hour d) ++ [0x3A%N] ++ zero_padded 2 (minute d)
    ++ [0x3A%N] ++ zero_padded 2 (second d)
    ++ (if microsecond d =? 0 then []
        else [0x2E%N] ++ zero_padded 6 (microsecond d))
    ++ format_offset (tzinfo d).

(** [dt.date()] *)
Definition date (d : datetime) : Z * Z * Z := (year d, month d, day d).

End Datetime.

Export Datetime.

(** ** urllib.parse *)

Module Urllib.

Definition scheme_char (c : char) : bool :=
  ((0x61 <=? c) && (c <=? 0x7A) || (0x41 <=? c) && (c <=? 0x5A)
   || (0x30 <=? c) && (c <=? 0x39)
   || (c =? 0x2B) || (c =? 0x2D) || (c =? 0x2E))%N.

Definition is_alpha (c : char) : bool :=
  ((0x61 <=? c) && (c <=? 0x7A) || (0x41 <=? c) && (c <=? 0x5A))%N.

(** The part of [s] before the first character satisfying [stop], and the
    rest from that character on. *)
Fixpoint break_at (stop : char -> bool) (s : str) : str * str :=
  match s with
  | [] => ([], [])
  | c :: s' =>
    if stop c then ([], s)
    else let '(a, b) := break_at stop s' in (c :: a, b)
  end.

Definition uses_params : list str :=
  map py [""; "ftp"; "hdl"; "prospero"; "http"; "imap"; "https"; "shttp";
          "rtsp"; "rtspu"; "sip"; "sips"; "mms"; "sftp"; "tel"]%string.

(** The leading C0 control characters and spaces, and every tab and
    newline, are removed before the URL is split. *)
Definition lstrip_c0 (url : str) : str :=
  let fix go (s : str) : str :=
    match s with
    | [] => []
    | c :: s' => if (c <=? 0x20)%N then go s' else s
    end in
  filter (fun c => c <> 0x09%N /\ c <> 0x0A%N /\ c <> 0x0D%N) (go url).

(** [url[:i], url[i+1:]] for the first [";"] after the last ["/"]. *)
Definition splitparams (url : str) : str :=
  let semi (c : char) := (c =? 0x3B)%N in
  let slash (c : char) := (c =? 0x2F)%N in
  let '(last_seg_rev, dirs_rev) := break_at slash (rev url) in
  rev dirs_rev ++ fst (break_at semi (rev last_seg_rev)).

(** [urlparse(url).path] for a URL of the generic syntax
    [scheme://netloc/path;parameters?query#fragment].  [urlparse] raises
    [ValueError] for a host with an unbalanced bracket, and for one that
    compatibility normalisation turns into a delimiter; that is not
    modelled.  The filter is given what [urljoin] returns, and [urljoin]
    parses the host before. *)
Definition urlparse_path (url : str) : str :=
  let url := lstrip_c0 url in
  let '(scheme, url) :=
    let '(head, rest) := break_at (fun c => (c =? 0x3A)%N) url in
    match head, rest with
    | h :: _, _ :: rest' =>
      if is_alpha h && forallb scheme_char head then (lower head, rest')
      else ([], url)
    | _, _ => ([], url)
    end in
  let url :=
    if startswith url (py "//") then
      snd (break_at (fun c => (c =? 0x2F) || (c =? 0x3F) || (c =? 0x23))%N
                    (drop 2 url))
    else url in
  let url := fst (break_at (fun c => (c =? 0x23)%N) url) in
  let url := fst (break_at (fun c => (c =? 0x3F)%N) url) in
  if bool_decide (scheme ∈ uses_params) then splitparams url else url.

End Urllib.

(** ** The parsed page

    The part of a BeautifulSoup tree the date and text code reads: a tag
    with its attributes and the strings below it, in document order. *)

Record Tag : Type := {
  attrs : gmap str str;
  strings : list str
}.

(** [tag.get(key)] *)
Definition get (t : Tag) (key : str) : option str := attrs t !! key.

(** [tag.get_text(strip=True)]: the strings of the tag, each stripped, the
    empty ones left out, joined. *)
Definition get_text_strip (t : Tag) : str :=
  concat (filter (fun s => s <> []) (map strip (strings t))).

(** [soup.find_all("meta")] and [soup.find("time")] of a page. *)
Record BeautifulSoup : Type := {
  find_all_meta : list Tag;
  find_time : option Tag
}.

(** [a or b] for values that are [None] or a string. *)
Definition py_or (a b : option str) : option str :=
  match a with
  | Some (_ :: _) => a
  | _ => b
  end.

(** ** The environment of a run *)

(** [_fetch_page]: the GET request and the parse; [None] when the request
    or the parse fails. *)
Class Network : Type := {
  _fetch_page : str -> option BeautifulSoup
}.

(** One reading of the clock serves the whole run.  [astimezone] is
    [dt.astimezone()] of an aware value: the same instant in the local
    zone of the machine.  It raises [OverflowError] when the instant, in
    UTC or in the local zone, falls outside the years 1 to 9999, and where
    the platform cannot tell the local offset of the instant. *)
Class Clock : Type := {
  now : datetime;
  astimezone : datetime -> outcome datetime
}.

(** The values [config.py] reads from the process environment. *)
Class Config : Type := {
  NEWS_MAX_ARTICLES : Z;
  NEWS_TODAY_ONLY : bool;
  FEISHU_GROUP_CHAT_ID : str;
  FEISHU_GROUP_NAME : str
}.

(** ** news_crawler.py *)

Record NewsArticle : Type := {
  title : str;
  url : str;
  summary : str;
  source : str;
  category : str;
  published_at : option str;
  tags : list str
}.

Definition set_category (c : str) (a : NewsArticle) : NewsArticle :=
  {| title := title a; url := url a; summary := summary a;
     source := source a; category := c; published_at := published_at a;
     tags := tags a |}.

Definition set_published_at (p : option str) (a : NewsArticle) : NewsArticle :=
  {| title := title a; url := url a; summary := summary a;
     source := source a; category := category a; published_at := p;
     tags := tags a |}.

Definition set_url (u : str) (a : NewsArticle) : NewsArticle :=
  {| title := title a; url := u; summary := summary a;
     source := source a; category := category a;
     published_at := published_at a; tags := tags a |}.

(** The [uid] property: computed from [url] at each access. *)
Definition uid (a : NewsArticle) : str :=
  slice_to 12 (MD5.hexdigest (encode (url a))).

Definition ellipsis : str := py "...".

Definition _extract_text (element : option Tag) (max_len : Z) : str :=
  match element with
  | None => []
  | Some el =>
    let text := get_text_strip el in
    if (max_len <? len text)%Z then slice_to max_len text ++ ellipsis
    else text
  end.

(** *** Dates *)

(** A match of [(20\d{2}) s1 (\d{1,2}) s2 (\d{1,2}) fin] at the head of a
    string, with its three groups.  [\d] matches the decimal digits of
    every script. *)
Definition match_ymd_at (s1 s2 : char -> bool) (fin : option char) (s : str)
  : option (str * str * str) :=
  let closes (r : str) : bool :=
    match fin with
    | None => true
    | Some c => match r with x :: _ => (x =? c)%N | [] => false end
    end in
  let day (y m r : str) : option (str * str * str) :=
    match r with
    | d1 :: r1 =>
      if Unicode.is_decimal d1 then
        match r1 with
        | d2 :: r2 =>
          if Unicode.is_decimal d2 && closes r2 then Some (y, m, [d1; d2])
          else if closes r1 then Some (y, m, [d1])
          else None
        | [] => if closes r1 then Some (y, m, [d1]) else None
        end
      else None
    | [] => None
    end in
  match s with
  | c1 :: c2 :: y3 :: y4 :: p1 :: m1 :: r =>
    if (c1 =? 0x32)%N && (c2 =? 0x30)%N && Unicode.is_decimal y3 && Unicode.is_decimal y4
       && s1 p1 && Unicode.is_decimal m1
    then
      let y := [c1; c2; y3; y4] in
      match r with
      | x :: r' =>
        if Unicode.is_decimal x then
          match r' with
          | p2 :: r'' => if s2 p2 then day y [m1; x] r'' else None
          | [] => None
          end
        else if s2 x then day y [m1] r'
        else None
      | [] => None
      end
    else None
  | _ => None
  end.

(** [re.search]: the leftmost match. *)
Fixpoint search_ymd (s1 s2 : char -> bool) (fin : option char) (s : str)
  : option (str * str * str) :=
  match match_ymd_at s1 s2 fin s with
  | Some g => Some g
  | None =>
    match s with
    | [] => None
    | _ :: s' => search_ymd s1 s2 fin s'
    end
  end.

Definition sep_punct (c : char) : bool :=
  ((c =? 0x2E) || (c =? 0x2F) || (c =? 0x2D))%N.

Definition is_char (lit : string) (c : char) : bool :=
  bool_decide (py lit = [c]).

(** [(20\d{2})[./-](\d{1,2})[./-](\d{1,2})] *)
Definition search_numeric : str -> option (str * str * str) :=
  search_ymd sep_punct sep_punct None.

(** [(20\d{2})年(\d{1,2})月(\d{1,2})日] *)
Definition search_chinese : str -> option (str * str * str) :=
  search_ymd (is_char "年") (is_char "月") (head (py "日")).

(** [int(s)] for a string of decimal digits of any script. *)
Definition int_of_decimals (s : str) : Z :=
  fold_left (fun acc c =>
               (10 * acc + Z.of_N (default 0%N (Unicode.decimal_value c)))%Z)
            s 0%Z.

Definition datetime_of_groups (g : str * str * str) : outcome datetime :=
  let '(y, m, d) := g in
  datetime_ymd (int_of_decimals y) (int_of_decimals m) (int_of_decimals d).

Definition _parse_datetime (text : str) : outcome (option datetime) :=
  if is_empty text then mret None
  else
    let raw := strip text in
    if is_empty raw then mret None
    else
      let candidate := replace 0x5A%N (py "+00:00") raw in
      match fromisoformat candidate with
      | Some dt => mret (Some dt)
      | None =>
        match search_numeric raw with
        | Some g => dt ← datetime_of_groups g; mret (Some dt)
        | None =>
          match search_chinese raw with
          | Some g => dt ← datetime_of_groups g; mret (Some dt)
          | None => mret None
          end
        end
      end.

Definition meta_keys : list str :=
  map py [ "article:published_time"; "og:published_time"; "publish_date";
           "pubdate"; "date"; "datePublished"; "article:modified_time" ]%string.

Fixpoint scan_metas (metas : list Tag) : option str :=
  match metas with
  | [] => None
  | meta :: rest =>
    let key := py_or (get meta (py "property")) (get meta (py "name")) in
    let hit :=
      match key with
      | Some k => bool_decide (k ∈ meta_keys)
      | None => false
      end in
    if hit then
      let content := strip (default [] (get meta (py "content"))) in
      if is_empty content then scan_metas rest else Some content
    else scan_metas rest
  end.

Definition _extract_published_from_soup (soup : BeautifulSoup) : str :=
  match scan_metas (find_all_meta soup) with
  | Some content => content
  | None =>
    match find_time soup with
    | Some time_el =>
      let value :=
        py_or (py_or (get time_el (py "datetime")) (get time_el (py "content")))
              (Some (get_text_strip time_el)) in
      match value with
      | Some (c :: v) => c :: v
      | _ => []
      end
    | None => []
    end
  end.

(** Returns [dt] and the article as the call leaves it. *)
Definition _enrich_published_at `{Network} (article : NewsArticle)
  : outcome (NewsArticle * option datetime) :=
  dt ← _parse_datetime (default [] (published_at article));
  dt ← match dt with
       | Some _ => mret dt
       | None =>
         match _fetch_page (url article) with
         | Some soup => _parse_datetime (_extract_published_from_soup soup)
         | None => mret None
         end
       end;
  match dt with
  | Some d => mret (set_published_at (Some (isoformat d)) article, dt)
  | None => mret (article, dt)
  end.

(** [dt.astimezone()] and [datetime.now()] are the clock's. *)
Definition _is_today `{Clock} (dt : datetime) : outcome bool :=
  dt ← (if tzinfo dt is Some _ then astimezone dt else mret dt);
  mret (bool_decide (date dt = date now)).

(** The loop over [articles]; [kept] holds the enriched articles.  Each
    article is enriched and its date tested before the next one is looked
    at. *)
Fixpoint _filter_today_articles `{Network, Clock} (articles : list NewsArticle)
  : outcome (list NewsArticle) :=
  match articles with
  | [] => mret []
  | article :: rest =>
    '(article, dt) ← _enrich_published_at article;
    today ← match dt with
            | Some d => _is_today d
            | None => mret false
            end;
    kept ← _filter_today_articles rest;
    mret (if today : bool then article :: kept else kept)
  end.

(** *** The URL filter *)

Definition skip_patterns : list str :=
  map py [ "/category/"; "/tag/"; "/page/"; "/author/";
           "/search"; "/login"; "/signup"; "/about";
           "/contact"; "/privacy"; "/terms" ]%string.

Definition _is_valid_article_url (url base_url : str) : bool :=
  let path := lower (Urllib.urlparse_path url) in
  if existsb (fun p => contains p path) skip_patterns then false
  else if (count 0x2F%N path <? 2)%Z && negb (endswith path (py "/")) then true
  else (5 <? len path)%Z.

(** *** The categorizer *)

Definition CATEGORY_KEYWORDS : list (str * list str) :=
  [ (py "🔥 重大发布",
     map py [ "launch"; "release"; "announce"; "发布"; "推出"; "上线";
              "GPT"; "Claude"; "Gemini"; "Llama"; "DeepSeek" ]%string);
    (py "🔬 研究突破",
     map py [ "research"; "paper"; "study"; "breakthrough"; "论文";
              "研究"; "突破"; "benchmark"; "SOTA" ]%string);
    (py "💰 产业动态",
     map py [ "funding"; "acquisition"; "invest"; "IPO"; "融资";
              "收购"; "市场"; "估值"; "partnership"; "合作" ]%string);
    (py "🛠️ 工具与应用",
     map py [ "tool"; "framework"; "open source"; "API"; "SDK";
              "开源"; "工具"; "应用"; "plugin"; "agent" ]%string);
    (py "🌍 政策与伦理",
     map py [ "regulation"; "policy"; "safety"; "ethic"; "监管";
              "政策"; "安全"; "伦理"; "法规" ]%string) ].

Definition default_category : str := py "📰 综合资讯".

(** [sum(1 for kw in keywords if kw.lower() in text)] *)
Definition match_count (text : str) (keywords : list str) : Z :=
  Z.of_nat (length (filter (fun kw => contains (lower kw) text = true) keywords)).

(** [max(xs, key=key)] of a non-empty sequence [x :: xs]: the first of the
    greatest elements. *)
Definition max_by {A : Type} (key : A -> Z) (x : A) (xs : list A) : A :=
  fold_left (fun best y => if (key best <? key y)%Z then y else best) xs x.

Definition article_text (article : NewsArticle) : str :=
  lower (title article ++ py " " ++ summary article).

Definition scores (article : NewsArticle) : list (str * Z) :=
  map (fun '(cat, keywords) => (cat, match_count (article_text article) keywords))
      CATEGORY_KEYWORDS.

(** [max] raises on an empty dictionary; the table has five entries, so the
    first case is never taken. *)
Definition _categorize (article : NewsArticle) : str :=
  match scores article with
  | [] => default_category
  | s :: rest =>
    let best := max_by snd s rest in
    if (0 <? snd best)%Z then fst best else default_category
  end.

(** *** The deduplicator *)

Definition title_key (a : NewsArticle) : str :=
  strip (lower (slice_to 20 (title a))).

(** The state of the loop: [seen_uids], [seen_titles] and [unique]. *)
Record dedup_state : Type := {
  seen_uids : gset str;
  seen_titles : gset str;
  unique : list NewsArticle
}.

Definition dedup_step (st : dedup_state) (a : NewsArticle) : dedup_state :=
  if decide (uid a ∈ seen_uids st) then st
  else if decide (title_key a ∈ seen_titles st) then st
  else {| seen_uids := {[ uid a ]} ∪ seen_uids st;
          seen_titles := {[ title_key a ]} ∪ seen_titles st;
          unique := unique st ++ [a] |}.

(** [seen_uids = set()], [seen_titles = set()], [unique = []] *)
Definition dedup_start : dedup_state :=
  {| seen_uids := ∅; seen_titles := ∅; unique := [] |}.

Definition _deduplicate (articles : list NewsArticle) : list NewsArticle :=
  unique (fold_left dedup_step articles dedup_start).

(** *** The entry point

    [all_articles] is the list steps 1) and 2) gather from the sources and
    the search queries. *)
Definition crawl_ai_news `{Network, Clock, Config}
    (all_articles : list NewsArticle) (max_articles : Z)
  : outcome (list NewsArticle) :=
  let max_articles :=
    if (max_articles =? 0)%Z then NEWS_MAX_ARTICLES else max_articles in
  let unique_articles := _deduplicate all_articles in
  unique_articles ←
    (if NEWS_TODAY_ONLY then _filter_today_articles unique_articles
     else mret unique_articles);
  let unique_articles :=
    map (fun article => set_category (_categorize article) article)
        unique_articles in
  mret (slice_to max_articles unique_articles).

(** ** pipeline.py *)

(** The blocks the static methods of [FeishuClient] build. *)
Inductive block : Type :=
| heading_block (text : str) (level : Z)
| text_block (text : str)
| link_block (text url : str)
| divider_block
| bullet_block (text : str).

(** The requests a run sends to the Feishu service. *)
Inductive call : Type :=
| CreateDocument (title : str)
| WriteBlocks (document_id block_id : str) (children : list block)
| FindChatIdByName (name : str)
| SendGroupMessage (chat_id text : str).

(** What the service answers.  [client_configured] tells whether the
    constructor finds an app id and secret; it raises [ValueError]
    otherwise. *)
Class Feishu : Type := {
  client_configured : bool;
  create_document : str -> outcome (str * str);
  write_blocks : str -> str -> list block -> outcome unit;
  find_chat_id_by_name : str -> outcome (option str);
  send_group_message : str -> str -> outcome unit
}.

(** A computation with the requests it sent, in order. *)
Record io (A : Type) : Type := IO {
  calls : list call;
  result : outcome A
}.

Arguments IO {A} calls result.
Arguments calls {A} _.
Arguments result {A} _.

#[global] Instance io_ret : MRet io := fun A a => IO [] (Returned a).

#[global] Instance io_bind : MBind io := fun A B k m =>
  match result m with
  | Returned a => IO (calls m ++ calls (k a)) (result (k a))
  | Raised e => IO (calls m) (Raised e)
  end.

Definition lift {A : Type} (o : outcome A) : io A := IO [] o.

(** [try: ... except Exception: ...] *)
Definition attempt {A : Type} (m : io A) : io (outcome A) :=
  IO (calls m) (Returned (result m)).

Definition request {A : Type} (c : call) (answer : outcome A) : io A :=
  IO [c] answer.

Inductive group_result : Type :=
| GroupSkipped
| GroupOk (chat_id : str)
| GroupError.

(** The dictionary [run_pipeline] returns. *)
Inductive pipeline_result : Type :=
| ResultEmpty
| ResultDryRun (article_count : Z) (articles : list (str * str * str))
| ResultOk (doc_url document_id : str) (article_count : Z)
           (group : group_result).

Definition status (r : pipeline_result) : str :=
  match r with
  | ResultEmpty => py "empty"
  | ResultDryRun _ _ => py "dry_run"
  | ResultOk _ _ _ _ => py "ok"
  end.

Definition article_count (r : pipeline_result) : Z :=
  match r with
  | ResultEmpty => 0
  | ResultDryRun n _ => n
  | ResultOk _ _ n _ => n
  end.

(** [str(n)] *)
Definition str_of_int (n : Z) : str := py (pretty n).

Definition category_order : list str :=
  map py [ "🔥 重大发布"; "🔬 研究突破"; "💰 产业动态"; "🛠️ 工具与应用";
           "🌍 政策与伦理"; "📰 综合资讯" ]%string.

Definition article_blocks (idx : nat) (article : NewsArticle) : list block :=
  [ heading_block (str_of_int (Z.of_nat idx) ++ py ". " ++ title article) 3;
    link_block (py "🔗 " ++ source article ++ py ": " ++ url article)
               (url article) ]
  ++ (if is_empty (summary article) then []
      else [text_block (py "📝 " ++ summary article)])
  ++ (match published_at article with
      | Some (c :: p) => [text_block (py "📅 发布: " ++ c :: p)]
      | _ => []
      end).

Definition category_blocks (articles : list NewsArticle) (cat : str)
  : list block :=
  let cat_articles := filter (fun a => category a = cat) articles in
  match cat_articles with
  | [] => []
  | _ =>
    [heading_block
       (cat ++ py " (" ++ str_of_int (len_list cat_articles) ++ py "篇)") 2]
    ++ concat (imap (fun i a => article_blocks (S i) a) cat_articles)
    ++ [divider_block]
  end.

Definition _build_feishu_blocks `{Clock} (articles : list NewsArticle)
    (date_str : str) : list block :=
  [ text_block (py "📅 日期: " ++ date_str ++ py "  |  共 "
                ++ str_of_int (len_list articles) ++ py " 篇");
    text_block (py "⏰ 生成时间: "
                ++ zero_padded 4 (year now) ++ py "-"
                ++ zero_padded 2 (month now) ++ py "-"
                ++ zero_padded 2 (day now) ++ py " "
                ++ zero_padded 2 (hour now) ++ py ":"
                ++ zero_padded 2 (minute now) ++ py ":"
                ++ zero_padded 2 (second now));
    divider_block ]
  ++ concat (map (category_blocks articles) category_order)
  ++ [heading_block (py "🎯 今日要点") 2]
  ++ map (fun a => bullet_block (title a ++ py " (" ++ source a ++ py ")"))
         (slice_to 3 articles)
  ++ [ divider_block;
       text_block (py "—— 由 AI 新闻聚合 Pipeline 自动生成 ——") ].

(** ["\n".join(lines)] *)
Fixpoint join_lines (lines : list str) : str :=
  match lines with
  | [] => []
  | [l] => l
  | l :: rest => l ++ py (String "010"%char EmptyString) ++ join_lines rest
  end.

Definition _build_group_text (articles : list NewsArticle)
    (doc_url date_str : str) : str :=
  join_lines
    ([ py "📰 AI 科技日报 " ++ date_str;
       py "共 " ++ str_of_int (len_list articles) ++ py " 篇";
       py "文档链接: " ++ doc_url;
       [];
       py "今日精选：" ]
     ++ imap (fun i a => str_of_int (Z.of_nat (S i)) ++ py ". " ++ title a)
             (slice_to 5 articles)).

(** [blocks[i : i + size]] for [i] in [range(0, len(blocks), size)] *)
Definition batches {A : Type} (size : nat) (l : list A) : list (list A) :=
  map (fun i => take size (drop (i * size) l))
      (seq 0 ((length l + size - 1) / size)).

Fixpoint write_batches `{Feishu} (doc_id root_block_id : str)
    (bs : list (list block)) : io unit :=
  match bs with
  | [] => mret tt
  | batch :: rest =>
    _ ← request (WriteBlocks doc_id root_block_id batch)
                (write_blocks doc_id root_block_id batch);
    write_batches doc_id root_block_id rest
  end.

Definition BATCH_SIZE : nat := 50.

(** [all_articles] is what the crawl of this run gathers; the result comes
    with the requests sent to the service, in order. *)
Definition run_pipeline `{Network, Clock, Config, Feishu}
    (all_articles : list NewsArticle) (dry_run : bool) : io pipeline_result :=
  let date_str :=
    zero_padded 4 (year now) ++ py "年" ++ zero_padded 2 (month now)
      ++ py "月" ++ zero_padded 2 (day now) ++ py "日" in
  articles ← lift (crawl_ai_news all_articles 0);
  match articles with
  | [] => mret ResultEmpty
  | _ =>
    if dry_run then
      mret (ResultDryRun (len_list articles)
              (map (fun a => (title a, url a, category a)) articles))
    else
      _ ← lift (if client_configured then mret tt else Raised ValueError);
      let doc_title := py "📰 AI 科技日报 — " ++ date_str in
      '(doc_id, doc_url) ←
        request (CreateDocument doc_title) (create_document doc_title);
      let blocks := _build_feishu_blocks articles date_str in
      let root_block_id := doc_id in
      _ ← write_batches doc_id root_block_id (batches BATCH_SIZE blocks);
      chat_id ←
        (if is_empty FEISHU_GROUP_CHAT_ID && negb (is_empty FEISHU_GROUP_NAME)
         then
           found ← attempt (request (FindChatIdByName FEISHU_GROUP_NAME)
                              (find_chat_id_by_name FEISHU_GROUP_NAME));
           mret (match found with
                 | Returned c => c
                 | Raised _ => Some FEISHU_GROUP_CHAT_ID
                 end)
         else mret (Some FEISHU_GROUP_CHAT_ID));
      group ←
        match chat_id with
        | Some (c :: cs) =>
          let group_text := _build_group_text articles doc_url date_str in
          sent ← attempt (request (SendGroupMessage (c :: cs) group_text)
                            (send_group_message (c :: cs) group_text));
          mret (match sent with
                | Returned _ => GroupOk (c :: cs)
                | Raised _ => GroupError
                end)
        | _ => mret GroupSkipped
        end;
      mret (ResultOk doc_url doc_id (len_list articles) group)
  end.

(** ** Vocabulary of the statements *)

(** The lower-case hexadecimal digits of [hexdigest]. *)
Definition is_hex_char (c : char) : bool :=
  bool_decide (c ∈ py "0123456789abcdef").

(** The first twelve characters of the MD5 digest of a string. *)
Definition hash12 (u : str) : str :=
  slice_to 12 (MD5.hexdigest (encode u)).

(** The cap step 6) applies. *)
Definition effective_cap `{Config} (max_articles : Z) : Z :=
  if (max_articles =? 0)%Z then NEWS_MAX_ARTICLES else max_articles.

(** The articles that reach step 6): steps 3) to 5) of [crawl_ai_news]. *)
Definition surviving_articles `{Network, Clock, Config}
    (all_articles : list NewsArticle) : outcome (list NewsArticle) :=
  unique_articles ←
    (if NEWS_TODAY_ONLY then _filter_today_articles (_deduplicate all_articles)
     else mret (_deduplicate all_articles));
  mret (map (fun article => set_category (_categorize article) article)
            unique_articles).

(** Two articles the deduplicator takes for the same story. *)
Definition duplicates (a b : NewsArticle) : Prop :=
  uid a = uid b \/ title_key a = title_key b.

#[global] Instance duplicates_dec a b : Decision (duplicates a b).
Proof. unfold duplicates. apply _. Defined.

(** The two sets hold the keys of the articles kept so far. *)
Definition dedup_inv (st : dedup_state) : Prop :=
  (forall k, k ∈ seen_uids st <-> k ∈ uid <$> unique st)
  /\ (forall k, k ∈ seen_titles st <-> k ∈ title_key <$> unique st).

(** No two articles of the list have the same [uid] or the same title key. *)
Definition distinct_keys (l : list NewsArticle) : Prop :=
  NoDup (uid <$> l) /\ NoDup (title_key <$> l).

(** A string with its Basic Latin small letters made capital. *)
Definition ascii_upper_char (c : char) : char :=
  if ((0x61 <=? c) && (c <=? 0x7A))%N then (c - 0x20)%N else c.

Definition ascii_upper (s : str) : str := map ascii_upper_char s.

(** The article with another title and another summary. *)
Definition set_text (t s : str) (a : NewsArticle) : NewsArticle :=
  {| title := t; url := url a; summary := s; source := source a;
     category := category a; published_at := published_at a; tags := tags a |}.

(** What [str.lower] does to a Basic Latin small letter and to its
    capital. *)
Definition folds_to (c : char) : bool :=
  negb (c =? 0x3A3)%N && negb (c - 0x20 =? 0x3A3)%N
  && bool_decide (Unicode.to_lower_full c = [c])
  && bool_decide (Unicode.to_lower_full (c - 0x20) = [c])
  && negb (Unicode.is_case_ignorable c)
  && negb (Unicode.is_case_ignorable (c - 0x20))
  && Unicode.is_cased c && Unicode.is_cased (c - 0x20).

(** Fixtures for the closed examples. *)

Definition headline_tag : Tag :=
  {| attrs := ∅; strings := [py "  Breaking: "; py "   "; py "GPT-5 ships  "] |}.

Definition article (t u : string) (p : option str) : NewsArticle :=
  {| title := py t; url := py u; summary := []; source := py "Web Search";
     category := []; published_at := p; tags := [] |}.

Definition gpt5_first : NewsArticle :=
  article "OpenAI releases GPT-5 with new reasoning" "https://example.com/gpt5" None.

Definition gpt5_same_url : NewsArticle :=
  article "GPT-5 is finally here" "https://example.com/gpt5" None.

Definition gpt5_same_title : NewsArticle :=
  article "OpenAI releases GPT-5 and more" "https://mirror.example.org/gpt5-news" None.

Definition gpt5_claude : NewsArticle :=
  article "Claude passes a new benchmark" "https://example.com/claude" None.

(** Two pairs of articles at different urls whose titles differ in case
    and in the white space around them. *)
Definition launch_shouted : NewsArticle :=
  article "BIG AI LAUNCH" "https://example.com/launch" None.

Definition launch_spaced : NewsArticle :=
  article " Big AI launch  " "https://example.org/big-launch" None.

Definition ecole_capital : NewsArticle :=
  article "ÉCOLE nouvelle" "https://example.com/ecole" None.

Definition ecole_small : NewsArticle :=
  article "école nouvelle" "https://example.org/ecole" None.

(** A second article at the url of [gpt5_same_title], with a title of its
    own. *)
Definition gpt5_mirror_later : NewsArticle :=
  article "What changes with GPT-5" "https://mirror.example.org/gpt5-news" None.

Definition offline : Network := {| _fetch_page := fun _ => None |}.

(** A page that carries its date in a meta tag, and a site that serves it. *)
Definition dated_page : BeautifulSoup :=
  {| find_all_meta :=
       [ {| attrs := {[ py "name" := py "viewport"; py "content" := py "width=1" ]};
            strings := [] |};
         {| attrs := {[ py "property" := py "article:published_time";
                        py "content" := py " 2026/2/7 " ]};
            strings := [] |} ];
     find_time := None |}.

Definition dated_site : Network := {| _fetch_page := fun _ => Some dated_page |}.

Definition fixed_clock : Clock :=
  {| now := Datetime 2026 2 7 9 0 0 0 None; astimezone := fun d => Returned d |}.

Definition config (cap : Z) (today_only : bool) : Config :=
  {| NEWS_MAX_ARTICLES := cap; NEWS_TODAY_ONLY := today_only;
     FEISHU_GROUP_CHAT_ID := []; FEISHU_GROUP_NAME := [] |}.

Definition unreachable_service : Feishu :=
  {| client_configured := true;
     create_document := fun _ => Raised RuntimeError;
     write_blocks := fun _ _ _ => Raised RuntimeError;
     find_chat_id_by_name := fun _ => Raised RuntimeError;
     send_group_message := fun _ _ => Raised RuntimeError |}.

(** ** Vocabulary of the further properties *)

(** The decimal digit of weight [10^i] of [n], as a character. *)
Definition dg (n : Z) (i : nat) : N :=
  Z.to_N (0x30 + (n / 10 ^ Z.of_nat i) mod 10).

(** A timestamp [fromisoformat] can give: its fields pass the checks of the
    constructor, and its offset, if it has one, is zero or a second at
    least. *)
Definition iso_readable (d : datetime) : Prop :=
  fields_ok d = true
  /\ match tzinfo d with
     | Some off => off = 0%Z \/ (1000000 <= Z.abs off)%Z
     | None => True
     end.

(** The characters [isoformat] writes. *)
Definition iso_chars : list N := py "0123456789-:T.+".

(** [a'] is [a] as enrichment leaves it, with a date of today. *)
Definition dated_today `{Network, Clock} (a a' : NewsArticle) : Prop :=
  exists dt,
    _enrich_published_at a = Returned (a', Some dt)
    /\ a' = set_published_at (Some (isoformat dt)) a
    /\ _is_today dt = Returned true.

(** The filter gets past the article: its enrichment returns and, when it
    gives a date, the day test of that date returns. *)
Definition examination_returns `{Network, Clock} (a : NewsArticle) : Prop :=
  exists a' dt,
    _enrich_published_at a = Returned (a', dt)
    /\ match dt with
       | Some d => exists today, _is_today d = Returned today
       | None => True
       end.

(** The filter stops at the article with [e]: its enrichment raises [e],
    or it gives a date and the day test of that date raises [e]. *)
Definition examination_raises `{Network, Clock} (a : NewsArticle) (e : exn) : Prop :=
  _enrich_published_at a = Raised e
  \/ exists a' d,
       _enrich_published_at a = Returned (a', Some d) /\ _is_today d = Raised e.

(** A clock of a machine on UTC: an aware value of the first day of year 1
    in a zone east of it has no local form. *)
Definition edge_clock : Clock :=
  {| now := Datetime 2026 2 7 9 0 0 0 None;
     astimezone := fun d =>
       if ((year d =? 1) && (month d =? 1) && (day d =? 1))%Z
       then Raised OverflowError else Returned d |}.

(** An article dated at the first instant of the calendar, in a zone eight
    hours east of UTC. *)
Definition first_instant : NewsArticle :=
  {| title := py "The first day"; url := py "https://example.com/first";
     summary := []; source := py "Web Search"; category := [];
     published_at := Some (py "0001-01-01T00:00:00+08:00"); tags := [] |}.

(** The urls of the link blocks of a document, in order. *)
Definition link_urls (blocks : list block) : list str :=
  omap (fun b => match b with link_block _ u => Some u | _ => None end) blocks.

(** The requests about the group chat. *)
Definition is_group_call (c : call) : Prop :=
  match c with
  | FindChatIdByName _ | SendGroupMessage _ _ => True
  | _ => False
  end.

Definition is_write_call (c : call) : Prop :=
  match c with
  | WriteBlocks _ _ _ => True
  | _ => False
  end.

(** [date_str] and [doc_title] of a run. *)
Definition run_date_str `{Clock} : str :=
  zero_padded 4 (year now) ++ py "年" ++ zero_padded 2 (month now)
    ++ py "月" ++ zero_padded 2 (day now) ++ py "日".

Definition run_doc_title `{Clock} : str := py "📰 AI 科技日报 — " ++ run_date_str.

(** A service that answers every request; the chat is found by name. *)
Definition helpful_service : Feishu :=
  {| client_configured := true;
     create_document := fun _ => Returned (py "doc123", py "https://feishu.cn/docx/doc123");
     write_blocks := fun _ _ _ => Returned tt;
     find_chat_id_by_name := fun _ => Returned (Some (py "chat42"));
     send_group_message := fun _ _ => Returned tt |}.

(** A service that creates and writes documents but whose chat requests
    fail. *)
Definition mute_service : Feishu :=
  {| client_configured := true;
     create_document := fun _ => Returned (py "doc123", py "https://feishu.cn/docx/doc123");
     write_blocks := fun _ _ _ => Returned tt;
     find_chat_id_by_name := fun _ => Raised RuntimeError;
     send_group_message := fun _ _ => Raised RuntimeError |}.

Definition named_group_config (today_only : bool) : Config :=
  {| NEWS_MAX_ARTICLES := 15; NEWS_TODAY_ONLY := today_only;
     FEISHU_GROUP_CHAT_ID := []; FEISHU_GROUP_NAME := py "AI news" |}.

(** A service that creates documents and refuses every write. *)
Definition readonly_service : Feishu :=
  {| client_configured := true;
     create_document := fun _ => Returned (py "doc123", py "https://feishu.cn/docx/doc123");
     write_blocks := fun _ _ _ => Raised RuntimeError;
     find_chat_id_by_name := fun _ => Returned (Some (py "chat42"));
     send_group_message := fun _ _ => Returned tt |}.

(** ** The page tree and the extractors

    A page as BeautifulSoup holds it: a tree of tags, each with its name,
    its attributes and its children, and of the strings [get_text] reads.
    [soup.find_all], [tag.find] and [find_next_sibling] look through it in
    document order. *)

Module Soup.

#[warnings="-register-all"]
Inductive node : Type :=
| Text (s : str)
| Element (name : str) (attributes : gmap str str) (children : list node).

(** Every node below a node, in document order, each with the siblings
    that follow it. *)
Fixpoint positioned (n : node) : list (node * list node) :=
  match n with
  | Text _ => []
  | Element _ _ children =>
    (fix below (l : list node) : list (node * list node) :=
       match l with
       | [] => []
       | c :: l' => (c, l') :: positioned c ++ below l'
       end) children
  end.

Definition descendants (n : node) : list node := map fst (positioned n).

(** The strings below a node, in document order. *)
Fixpoint node_strings (n : node) : list str :=
  match n with
  | Text s => [s]
  | Element _ _ children =>
    (fix below (l : list node) : list str :=
       match l with
       | [] => []
       | c :: l' => node_strings c ++ below l'
       end) children
  end.

(** [tag.get(key)] on a node of the tree. *)
Definition attr (n : node) (key : str) : option str :=
  match n with
  | Element _ attributes _ => attributes !! key
  | Text _ => None
  end.

(** The tag as the text and date code reads it. *)
Definition tag_of (n : node) : Tag :=
  {| attrs := match n with Element _ attributes _ => attributes | Text _ => ∅ end;
     strings := node_strings n |}.

(** The node is a tag whose name is one of [names]. *)
Definition named (names : list str) (n : node) : bool :=
  match n with
  | Element name _ _ => bool_decide (name ∈ names)
  | Text _ => false
  end.

(** [root.find_all(names, limit=limit)] *)
Definition find_all (names : list str) (limit : nat) (root : node) : list node :=
  take limit (filter (fun n => named names n = true) (descendants root)).

(** [root.find_all(names)], without a limit *)
Definition find_all_unlimited (names : list str) (root : node) : list node :=
  filter (fun n => named names n = true) (descendants root).

(** [root.find(...)]: the first node below [root] that passes the test. *)
Definition find_first (test : node -> bool) (root : node) : option node :=
  head (filter (fun n => test n = true) (descendants root)).

(** [root.find(names)] *)
Definition find (names : list str) (root : node) : option node :=
  find_first (named names) root.

(** [root.find("a", href=True)] *)
Definition find_link (root : node) : option node :=
  find_first (fun n => named [py "a"] n && bool_decide (is_Some (attr n (py "href"))))
             root.

(** The values of a [class] attribute: its runs of characters that are not
    white space. *)
Fixpoint words_from (cur : str) (s : str) : list str :=
  match s with
  | [] => if is_empty cur then [] else [cur]
  | c :: s' =>
    if isspace c then
      (if is_empty cur then words_from [] s' else cur :: words_from [] s')
    else words_from (cur ++ [c]) s'
  end.

Definition class_list (n : node) : list str :=
  match attr n (py "class") with
  | Some v => words_from [] v
  | None => []
  end.

(** The test of [class_=c] for a class name without white space. *)
Definition has_class (c : str) (n : node) : bool :=
  bool_decide (c ∈ class_list n).

End Soup.

(** [a or b] for two strings. *)
Definition str_or (a b : str) : str := if is_empty a then b else a.

(** The functions of [urllib], [requests.utils] and of the selector engine
    the extractors call.  Of [select] only this is used: it returns at most
    [limit] tags. *)
Class Library : Type := {
  urljoin : str -> str -> str;
  unquote : str -> str;
  select : str -> nat -> Soup.node -> list Soup.node;
  select_limit : forall selector limit root,
    length (select selector limit root) <= limit
}.

(** What the network answers: the parsed page of a URL, and the parsed
    result page of a search; [None] when the request or the parse fails. *)
Class Web : Type := {
  fetch_tree : str -> option Soup.node;
  search_tree : str -> option Soup.node
}.

(** What the date code reads of a page. *)
Definition soup_of (root : Soup.node) : BeautifulSoup :=
  {| find_all_meta := map Soup.tag_of (Soup.find_all_unlimited [py "meta"] root);
     find_time := option_map Soup.tag_of (Soup.find [py "time"] root) |}.

(** [_fetch_page] over the pages of the web. *)
Definition web_network `{Web} : Network :=
  {| _fetch_page := fun url => option_map soup_of (fetch_tree url) |}.

(** The state of the loops of [_extract_articles_generic]. *)
Record extraction : Type := {
  articles : list NewsArticle;
  seen_urls : gset str
}.

(** One turn of the loop over the [<article>] tags. *)
Definition generic_article_step `{Library} (base_url source_name : str)
    (st : extraction) (article_el : Soup.node) : extraction :=
  match Soup.find_link article_el with
  | None => st
  | Some link =>
    let href := urljoin base_url (default [] (Soup.attr link (py "href"))) in
    if bool_decide (href ∈ seen_urls st) || negb (_is_valid_article_url href base_url)
    then st
    else
      let seen := {[ href ]} ∪ seen_urls st in
      let title_el := Soup.find (map py ["h1"; "h2"; "h3"; "h4"]%string) article_el in
      let title :=
        str_or (_extract_text (option_map Soup.tag_of title_el) 300)
               (_extract_text (Some (Soup.tag_of link)) 300) in
      if is_empty title || (len title <? 5)%Z
      then {| articles := articles st; seen_urls := seen |}
      else
        let summary_el := Soup.find [py "p"] article_el in
        let summary := _extract_text (option_map Soup.tag_of summary_el) 200 in
        let time_el := Soup.find [py "time"] article_el in
        let pub_time :=
          match time_el with
          | Some t => default [] (Soup.attr t (py "datetime"))
          | None => []
          end in
        {| articles :=
             articles st
             ++ [ {| title := title; url := href; summary := summary;
                     source := source_name; category := [];
                     published_at := Some pub_time; tags := [] |} ];
           seen_urls := seen |}
  end.

(** One turn of the loop over the headings; [following] holds the siblings
    after the heading. *)
Definition generic_heading_step `{Library} (base_url source_name : str)
    (st : extraction) (positioned_heading : Soup.node * list Soup.node) : extraction :=
  let '(heading, following) := positioned_heading in
  match Soup.find_link heading with
  | None => st
  | Some link =>
    let href := urljoin base_url (default [] (Soup.attr link (py "href"))) in
    if bool_decide (href ∈ seen_urls st) || negb (_is_valid_article_url href base_url)
    then st
    else
      let seen := {[ href ]} ∪ seen_urls st in
      let title := _extract_text (Some (Soup.tag_of heading)) 300 in
      if is_empty title || (len title <? 5)%Z
      then {| articles := articles st; seen_urls := seen |}
      else
        let next_p := head (filter (fun n => Soup.named [py "p"] n = true) following) in
        let summary :=
          match next_p with
          | Some p => _extract_text (Some (Soup.tag_of p)) 200
          | None => []
          end in
        {| articles :=
             articles st
             ++ [ {| title := title; url := href; summary := summary;
                     source := source_name; category := [];
                     published_at := None; tags := [] |} ];
           seen_urls := seen |}
  end.

(** [soup.find_all(["h2", "h3"], limit=30)], each heading with the siblings
    after it. *)
Definition positioned_headings (soup : Soup.node) : list (Soup.node * list Soup.node) :=
  take 30 (filter (fun p => Soup.named (map py ["h2"; "h3"]%string) (fst p) = true)
                  (Soup.positioned soup)).

Definition generic_first_pass `{Library} (soup : Soup.node) (base_url source_name : str)
  : extraction :=
  fold_left (generic_article_step base_url source_name)
            (Soup.find_all [py "article"] 20 soup)
            {| articles := []; seen_urls := ∅ |}.

Definition _extract_articles_generic `{Library}
    (soup : Soup.node) (base_url source_name : str) : list NewsArticle :=
  let st := generic_first_pass soup base_url source_name in
  let st :=
    if (len_list (articles st) <? 3)%Z then
      fold_left (generic_heading_step base_url source_name)
                (positioned_headings soup) st
    else st in
  articles st.

(** The body of the loop of the two site extractors: the site, the names
    [Soup.find] looks for as title and as summary, and the label. *)
Definition site_item `{Library} (site : str) (title_names summary_names : list str)
    (label : str) (found : list NewsArticle) (item : Soup.node) : list NewsArticle :=
  match Soup.find_link item with
  | None => found
  | Some link =>
    let href := urljoin site (default [] (Soup.attr link (py "href"))) in
    let title := _extract_text (option_map Soup.tag_of (Soup.find title_names item)) 300 in
    let title :=
      if is_empty title then _extract_text (Some (Soup.tag_of link)) 300 else title in
    let summary :=
      _extract_text (option_map Soup.tag_of (Soup.find summary_names item)) 200 in
    if negb (is_empty title) && (4 <? len title)%Z then
      found ++ [ {| title := title; url := href; summary := summary;
                    source := label; category := [];
                    published_at := None; tags := [] |} ]
    else found
  end.

Definition _extract_jiqizhixin `{Library} (soup : Soup.node) : list NewsArticle :=
  fold_left
    (site_item (py "https://www.jiqizhixin.com")
               (map py ["h2"; "h3"; "h4"; ".title"]%string)
               (map py ["p"; ".summary"; ".desc"]%string)
               (py "机器之心"))
    (select (py ".article-item, .article_item, .list-item") 15 soup) [].

Definition _extract_qbitai `{Library} (soup : Soup.node) : list NewsArticle :=
  fold_left
    (site_item (py "https://www.qbitai.com")
               (map py ["h2"; "h3"; "h4"]%string)
               [py "p"]
               (py "量子位"))
    (select (py "article, .post-item, .news-item") 15 soup) [].

(** The group of the leftmost match of [uddg=([^&]+)]. *)
Fixpoint search_uddg (s : str) : option str :=
  match s with
  | [] => None
  | _ :: s' =>
    if startswith s (py "uddg=") then
      match Urllib.break_at (fun c => (c =? 0x26)%N) (drop 5 s) with
      | ([], _) => search_uddg s'
      | (group, _) => Some group
      end
    else search_uddg s'
  end.

(** The body of the loop of [_search_web_news]. *)
Definition search_result_step `{Library}
    (found : list NewsArticle) (result : Soup.node) : list NewsArticle :=
  let link :=
    match Soup.find_first
            (fun n => Soup.named [py "a"] n && Soup.has_class (py "result__a") n
                      && bool_decide (is_Some (Soup.attr n (py "href")))) result with
    | Some link => Some link
    | None => Soup.find_link result
    end in
  match link with
  | None => found
  | Some link =>
    let href := default [] (Soup.attr link (py "href")) in
    let href :=
      if contains (py "uddg=") href then
        match search_uddg href with
        | Some group => unquote group
        | None => href
        end
      else href in
    let title := _extract_text (Some (Soup.tag_of link)) 300 in
    let snippet_el := Soup.find_first (Soup.has_class (py "result__snippet")) result in
    let summary :=
      match snippet_el with
      | Some el => _extract_text (Some (Soup.tag_of el)) 200
      | None => []
      end in
    if negb (is_empty title) && startswith href (py "http") then
      found ++ [ {| title := title; url := href; summary := summary;
                    source := py "Web Search"; category := [];
                    published_at := None; tags := [] |} ]
    else found
  end.

(** The request and the parse are inside [try]: a failure gives no
    article. *)
Definition _search_web_news `{Library, Web} (query : str) : list NewsArticle :=
  match search_tree query with
  | None => []
  | Some soup =>
    fold_left search_result_step (select (py ".result, .web-result") 10 soup) []
  end.

(** [config.NEWS_SOURCES]: the name and the url of each source. *)
Definition NEWS_SOURCES : list (str * str) :=
  [ (py "VentureBeat AI", py "https://venturebeat.com/category/ai/");
    (py "TechCrunch AI", py "https://techcrunch.com/category/artificial-intelligence/");
    (py "The Verge AI", py "https://www.theverge.com/ai-artificial-intelligence");
    (py "MIT Tech Review",
     py "https://www.technologyreview.com/topic/artificial-intelligence/");
    (py "AI News", py "https://artificialintelligence-news.com/");
    (py "机器之心", py "https://www.jiqizhixin.com/");
    (py "量子位", py "https://www.qbitai.com/") ].

(** [config.SEARCH_QUERIES] *)
Definition SEARCH_QUERIES : list str :=
  map py [ "AI news today 2026"; "artificial intelligence breakthrough latest";
           "大模型 最新进展 2026"; "AI 科技新闻 今日";
           "LLM new model release 2026"; "AI startup funding news" ]%string.

(** The articles one source gives: step 1) of [crawl_ai_news] for it. *)
Definition source_articles `{Library, Web} (source : str * str) : list NewsArticle :=
  let '(name, url) := source in
  match fetch_tree url with
  | None => []
  | Some soup =>
    if contains (py "jiqizhixin") url then _extract_jiqizhixin soup
    else if contains (py "qbitai") url then _extract_qbitai soup
    else _extract_articles_generic soup url name
  end.

(** Steps 1) and 2) of [crawl_ai_news]: [all_articles]. *)
Definition collect_candidates `{Library, Web} : list NewsArticle :=
  flat_map source_articles NEWS_SOURCES
  ++ flat_map _search_web_news (slice_to 3 SEARCH_QUERIES).

(** [crawl_ai_news], all six steps. *)
Definition crawl_ai_news_web `{Library, Web, Clock, Config} (max_articles : Z)
  : outcome (list NewsArticle) :=
  @crawl_ai_news web_network _ _ collect_candidates max_articles.

(** [run_pipeline] over the web. *)
Definition run_pipeline_web `{Library, Web, Clock, Config, Feishu} (dry_run : bool)
  : io pipeline_result :=
  @run_pipeline web_network _ _ _ collect_candidates dry_run.

(** ** Vocabulary of the extractor properties *)

(** What [_extract_articles_generic] builds an article from. *)
Definition generic_shape (base_url source_name : str) (a : NewsArticle) : Prop :=
  _is_valid_article_url (url a) base_url = true
  /\ (5 <= len (title a) <= 303)%Z
  /\ (len (summary a) <= 203)%Z
  /\ source a = source_name
  /\ category a = [] /\ tags a = [].

(** What the two loops of [_extract_articles_generic] keep true of their
    state. *)
Definition generic_inv (base_url source_name : str) (st : extraction) : Prop :=
  NoDup (url <$> articles st)
  /\ (forall a, a ∈ articles st -> url a ∈ seen_urls st)
  /\ Forall (generic_shape base_url source_name) (articles st).

(** One turn of either loop: it leaves the state as it is, or notes a URL,
    or notes a URL that is new and appends an article with it. *)
Inductive turn (base_url source_name : str) (extra : NewsArticle -> Prop)
    (st st' : extraction) : Prop :=
| turn_skip : st' = st -> turn base_url source_name extra st st'
| turn_seen (u : str) :
    st' = {| articles := articles st; seen_urls := {[ u ]} ∪ seen_urls st |} ->
    turn base_url source_name extra st st'
| turn_add (a : NewsArticle) :
    url a ∉ seen_urls st -> generic_shape base_url source_name a -> extra a ->
    st' = {| articles := articles st ++ [a];
             seen_urls := {[ url a ]} ∪ seen_urls st |} ->
    turn base_url source_name extra st st'.

(** What at most [turns] turns make of a state. *)
Record grown (base_url source_name : str) (extra : NewsArticle -> Prop)
    (st st' : extraction) (turns : nat) : Prop := {
  grown_inv : generic_inv base_url source_name st ->
              generic_inv base_url source_name st';
  grown_more : exists more,
    articles st' = articles st ++ more
    /\ length more <= turns
    /\ Forall (fun a => (url a ∉ seen_urls st) /\ extra a) more
}.

(** The first pass takes the date from a [<time>] tag, the second has
    none. *)
Definition stamped (a : NewsArticle) : Prop := is_Some (published_at a).

Definition unstamped (a : NewsArticle) : Prop := published_at a = None.

(** What the two site extractors build an article from. *)
Definition site_shape `{Library} (site label : str) (a : NewsArticle) : Prop :=
  (exists href, url a = urljoin site href)
  /\ (5 <= len (title a) <= 303)%Z
  /\ (len (summary a) <= 203)%Z
  /\ source a = label
  /\ category a = [] /\ published_at a = None /\ tags a = [].

(** What [_search_web_news] builds an article from. *)
Definition search_shape (a : NewsArticle) : Prop :=
  title a <> []
  /\ (len (title a) <= 303)%Z
  /\ startswith (url a) (py "http") = true
  /\ (len (summary a) <= 203)%Z
  /\ source a = py "Web Search"
  /\ category a = [] /\ published_at a = None /\ tags a = [].

(** What every candidate of a crawl has, whichever extractor found it. *)
Definition candidate_shape (a : NewsArticle) : Prop :=
  title a <> []
  /\ (len (title a) <= 303)%Z
  /\ (len (summary a) <= 203)%Z
  /\ category a = [] /\ tags a = [].

(** The most articles one source gives. *)
Definition source_bound (source : str * str) : nat :=
  if contains (py "jiqizhixin") (snd source) || contains (py "qbitai") (snd source)
  then 15 else 32.

(** A [<meta>] tag [_extract_published_from_soup] takes the date from. *)
Definition usable_meta (meta : Tag) : Prop :=
  (exists k, py_or (get meta (py "property")) (get meta (py "name")) = Some k
             /\ k ∈ meta_keys)
  /\ strip (default [] (get meta (py "content"))) <> [].

(** The library on the pages of the examples: every link is absolute,
    nothing is percent-quoted and no tag has a class, so that of the three
    selectors only the one of [_extract_qbitai] finds tags, the [<article>]
    ones. *)
Definition plain_library : Library :=
  {| urljoin := fun _ href => href;
     unquote := fun s => s;
     select := fun selector limit root =>
       take limit
         (if startswith selector (py "article,")
          then Soup.find_all_unlimited [py "article"] root else []);
     select_limit := fun selector limit root =>
       eq_ind_r (fun k => k <= limit) (Nat.le_min_l limit _) (length_take _ limit) |}.

Definition story (href headline teaser : string) : Soup.node :=
  Soup.Element (py "article") ∅
    [ Soup.Element (py "h2") ∅
        [ Soup.Element (py "a") {[ py "href" := py href ]}
            [ Soup.Text (py headline) ] ];
      Soup.Element (py "p") ∅ [ Soup.Text (py teaser) ] ].

Definition front_page : Soup.node :=
  Soup.Element (py "[document]") ∅
    [ Soup.Element (py "html") ∅
        [ Soup.Element (py "body") ∅
            [ story "https://example.com/news/gpt5"
                    "OpenAI releases GPT-5" "The new model ships today.";
              story "https://example.com/news/claude"
                    "Claude passes a new benchmark" "Scores are up." ] ] ].

(** A web where one source answers. *)
Definition one_site_web : Web :=
  {| fetch_tree := fun u =>
       if bool_decide (u = py "https://venturebeat.com/category/ai/")
       then Some front_page else None;
     search_tree := fun _ => None |}.

(** A web where no request is answered. *)
Definition offline_web : Web :=
  {| fetch_tree := fun _ => None; search_tree := fun _ => None |}.

(** The [<meta>] tags of a page that gives the date of its last change
    before the date of its publication. *)
Definition viewport_meta : Tag :=
  {| attrs := {[ py "name" := py "viewport"; py "content" := py "width=1" ]};
     strings := [] |}.

Definition modified_meta : Tag :=
  {| attrs := {[ py "property" := py "article:modified_time";
                 py "content" := py " 2026-02-09 " ]};
     strings := [] |}.

Definition published_meta : Tag :=
  {| attrs := {[ py "property" := py "article:published_time";
                 py "content" := py "2026-02-07" ]};
     strings := [] |}.

Definition modified_first_page : BeautifulSoup :=
  {| find_all_meta := [viewport_meta; modified_meta; published_meta];
     find_time := None |}.

(** A configuration with the chat id set. *)
Definition chat_id_config : Config :=
  {| NEWS_MAX_ARTICLES := 15; NEWS_TODAY_ONLY := false;
     FEISHU_GROUP_CHAT_ID := py "oc_daily"; FEISHU_GROUP_NAME := py "AI news" |}.

(** * Properties *)

(** Closed decidable facts are settled by evaluation. *)
Ltac by_evaluation :=
  apply (bool_decide_eq_true_1 _); vm_compute; reflexivity.

(** ** hashlib.md5 against the test suite of RFC 1321 *)

Example md5_empty :
  MD5.hexdigest (encode (py "")) = py "d41d8cd98f00b204e9800998ecf8427e".
Proof. vm_compute. reflexivity. Qed.

Example md5_abc :
  MD5.hexdigest (encode (py "abc")) = py "900150983cd24fb0d6963f7d28e17f72".
Proof. vm_compute. reflexivity. Qed.

Example md5_two_blocks :
  MD5.hexdigest (encode (py
    "12345678901234567890123456789012345678901234567890123456789012345678901234567890"))
  = py "57edf4a22be3c955ac49da2e2107b67a".
Proof. vm_compute. reflexivity. Qed.

(** ** The identity key *)

Section Uid.

Local Open Scope N_scope.

Lemma hex_digit_is_hex (n : N) : n < 16 -> is_hex_char (MD5.hex_digit n) = true.
Proof.
  intros Hn.
  assert (Hcases : Forall (fun k => is_hex_char (MD5.hex_digit k) = true)
                          (map N.of_nat (seq 0 16))).
  { repeat constructor. }
  rewrite Forall_forall in Hcases. apply Hcases.
  apply list_elem_of_fmap. exists (N.to_nat n). split; [lia|].
  apply list_elem_of_In, in_seq. lia.
Qed.

Lemma hex_byte_is_hex (b : N) : Forall (fun c => is_hex_char c = true) (MD5.hex_byte b).
Proof.
  unfold MD5.hex_byte.
  repeat constructor; apply hex_digit_is_hex; apply N.mod_lt; lia.
Qed.

Lemma hexdigest_is_hex (msg : list N) :
  Forall (fun c => is_hex_char c = true) (MD5.hexdigest msg).
Proof.
  unfold MD5.hexdigest. induction (MD5.digest msg) as [|b bs IH]; cbn [flat_map].
  - constructor.
  - apply Forall_app_2; [apply hex_byte_is_hex | exact IH].
Qed.

Lemma length_hexdigest (msg : list N) : length (MD5.hexdigest msg) = 32%nat.
Proof.
  unfold MD5.hexdigest, MD5.digest.
  destruct (MD5.run _ _ _) as [a b c d]. reflexivity.
Qed.

Lemma hash12_length (u : str) : length (hash12 u) = 12%nat.
Proof.
  unfold hash12, slice_to. simpl. rewrite length_take, length_hexdigest. reflexivity.
Qed.

Lemma hash12_is_hex (u : str) : Forall (fun c => is_hex_char c = true) (hash12 u).
Proof.
  unfold hash12, slice_to. simpl. apply Forall_take, hexdigest_is_hex.
Qed.

End Uid.

(** C8.  [uid] is a function of [url] alone: two articles with the same
    [url] have the same [uid], whatever their other fields; it is the
    12-character lower-case hexadecimal prefix [hash12 (url a)] of the MD5
    digest; and, not being stored, it follows [url]: after [url] is
    assigned [uid] is the digest of the new value, and assigning another
    field leaves it as it is. *)
Theorem uid_is_hash12_of_url (a b : NewsArticle) :
  url a = url b ->
  uid a = uid b
  /\ uid a = hash12 (url a)
  /\ length (uid a) = 12%nat
  /\ Forall (fun c => is_hex_char c = true) (uid a)
  /\ (forall u, uid (set_url u a) = hash12 u)
  /\ (forall c, uid (set_category c a) = uid a)
  /\ (forall p, uid (set_published_at p a) = uid a).
Proof.
  intros Hurl.
  assert (Huid : forall x, uid x = hash12 (url x)) by reflexivity.
  split; [rewrite !Huid, Hurl; reflexivity|].
  split; [apply Huid|].
  split; [rewrite Huid; apply hash12_length|].
  split; [rewrite Huid; apply hash12_is_hex|].
  split; [intros u; apply Huid|].
  split; intros; rewrite !Huid; reflexivity.
Qed.

Lemma uid_is_hash12_of_url_witness :
  uid (article "GPT-5 is out" "https://example.com/a" None)
  = uid (article "Another headline" "https://example.com/a" (Some (py "2026-02-07")))
  /\ uid (article "GPT-5 is out" "https://example.com/a" None) = py "cd69b81ea00c".
Proof.
  split.
  - exact (proj1 (uid_is_hash12_of_url
             (article "GPT-5 is out" "https://example.com/a" None)
             (article "Another headline" "https://example.com/a"
                      (Some (py "2026-02-07")))
             ltac:(vm_compute; reflexivity))).
  - vm_compute. reflexivity.
Defined.

(** ** Text extraction *)

Lemma slice_to_nonneg {A : Type} (n : Z) (l : list A) :
  (0 <= n)%Z -> slice_to n l = take (Z.to_nat n) l.
Proof. intros Hn. unfold slice_to. destruct (Z.ltb_spec n 0); [lia | reflexivity]. Qed.

Lemma slice_to_all {A : Type} (n : Z) (l : list A) :
  (len_list l <= n)%Z -> slice_to n l = l.
Proof.
  unfold len_list. intros Hn. rewrite slice_to_nonneg by lia.
  apply take_ge. lia.
Qed.

(** C6.  For a maximum length that is not negative, a text longer than the
    maximum is cut to exactly that many characters and followed by "...",
    and a text of at most the maximum length is returned as it is; so a text
    of 310 characters with maximum 300 gives its first 300 characters and
    the ellipsis, and a text of 50 characters is returned unchanged.  The
    text is what [get_text(strip=True)] reads from the element. *)
Theorem extract_text_truncates (element : Tag) (max_len : Z) :
  (0 <= max_len)%Z ->
  let text := get_text_strip element in
  ((max_len < len text)%Z ->
     _extract_text (Some element) max_len
       = take (Z.to_nat max_len) text ++ py "..."
     /\ len (take (Z.to_nat max_len) text) = max_len)
  /\ ((len text <= max_len)%Z -> _extract_text (Some element) max_len = text)
  /\ (len text = 310%Z ->
        _extract_text (Some element) 300 = take 300 text ++ py "..."
        /\ length (take 300 text) = 300%nat
        /\ length (_extract_text (Some element) 300) = 303%nat)
  /\ (len text = 50%Z -> _extract_text (Some element) 300 = text).
Proof.
  intros Hmax text. unfold _extract_text, len. fold text.
  split; [|split; [|split]].
  - intros Hlong. destruct (Z.ltb_spec max_len (Z.of_nat (length text))); [|lia].
    rewrite slice_to_nonneg by lia. split; [reflexivity|].
    rewrite length_take. lia.
  - intros Hshort. destruct (Z.ltb_spec max_len (Z.of_nat (length text))); [lia|].
    reflexivity.
  - intros H310. destruct (Z.ltb_spec 300 (Z.of_nat (length text))); [|lia].
    rewrite slice_to_nonneg by lia. change (Z.to_nat 300) with 300%nat.
    rewrite length_app, length_take.
    split; [reflexivity|]. split; [lia|]. change (length ellipsis) with 3%nat. lia.
  - intros H50. destruct (Z.ltb_spec 300 (Z.of_nat (length text))); [lia|].
    reflexivity.
Qed.

Lemma extract_text_truncates_witness :
  _extract_text (Some headline_tag) 12 = py "Breaking:GPT..."
  /\ _extract_text (Some headline_tag) 300 = py "Breaking:GPT-5 ships".
Proof.
  split.
  - exact (eq_trans
             (proj1 (proj1 (extract_text_truncates headline_tag 12
                              ltac:(vm_compute; discriminate))
                       ltac:(vm_compute; reflexivity)))
             ltac:(vm_compute; reflexivity)).
  - exact (eq_trans
             (proj1 (proj2 (extract_text_truncates headline_tag 300
                              ltac:(vm_compute; discriminate)))
                ltac:(vm_compute; discriminate))
             ltac:(vm_compute; reflexivity)).
Defined.

(** ** The categorizer *)

Section MaxBy.

Context {A : Type} (key : A -> Z).

Lemma max_by_snoc (x : A) (xs : list A) (y : A) :
  max_by key x (xs ++ [y])
  = if (key (max_by key x xs) <? key y)%Z then y else max_by key x xs.
Proof. unfold max_by. rewrite fold_left_app. reflexivity. Qed.

(** [max] returns the first of the greatest elements. *)
Lemma max_by_first_greatest (x : A) (xs : list A) :
  exists i : nat,
    (x :: xs) !! i = Some (max_by key x xs)
    /\ (forall j y, (x :: xs) !! j = Some y -> (key y <= key (max_by key x xs))%Z)
    /\ (forall j y, (j < i)%nat -> (x :: xs) !! j = Some y ->
                    (key y < key (max_by key x xs))%Z).
Proof.
  induction xs as [|y xs IH] using rev_ind.
  - exists 0%nat. split; [reflexivity|]. split.
    + intros [|j] z Hz; simpl in Hz; [|discriminate].
      injection Hz as <-. unfold max_by; simpl. lia.
    + intros j z Hj. lia.
  - destruct IH as (i & Hi & Hle & Hlt).
    assert (Hbound : (i < length (x :: xs))%nat) by (eapply lookup_lt_Some; eauto).
    rewrite max_by_snoc, app_comm_cons.
    destruct (Z.ltb_spec (key (max_by key x xs)) (key y)) as [Hnew|Hold].
    + exists (length (x :: xs)). split; [|split].
      * rewrite lookup_app_r by lia. rewrite Nat.sub_diag. reflexivity.
      * intros j z Hz. apply lookup_app_Some in Hz as [Hz|[_ Hz]].
        -- specialize (Hle _ _ Hz). lia.
        -- destruct (j - length (x :: xs))%nat; simpl in Hz; [|discriminate].
           injection Hz as <-. lia.
      * intros j z Hj Hz. rewrite lookup_app_l in Hz by lia.
        specialize (Hle _ _ Hz). lia.
    + exists i. split; [|split].
      * rewrite lookup_app_l by lia. exact Hi.
      * intros j z Hz. apply lookup_app_Some in Hz as [Hz|[_ Hz]].
        -- exact (Hle _ _ Hz).
        -- destruct (j - length (x :: xs))%nat; simpl in Hz; [|discriminate].
           injection Hz as <-. lia.
      * intros j z Hj Hz. rewrite lookup_app_l in Hz by lia.
        exact (Hlt _ _ Hj Hz).
Qed.

End MaxBy.

Lemma length_scores (a : NewsArticle) : length (scores a) = 5%nat.
Proof. unfold scores. rewrite length_map. reflexivity. Qed.

Lemma scores_categories (a : NewsArticle) :
  map fst (scores a) = map fst CATEGORY_KEYWORDS.
Proof.
  unfold scores. rewrite map_map. apply map_ext. intros [cat kws]. reflexivity.
Qed.

Lemma category_labels :
  Forall (fun c => c ∈ category_order) (map fst CATEGORY_KEYWORDS)
  /\ default_category ∈ category_order
  /\ Forall (fun c : str => c <> []) category_order.
Proof. by_evaluation. Qed.

(** The categorizer answers one of the six labels. *)
Lemma categorize_label (a : NewsArticle) : _categorize a ∈ category_order.
Proof.
  destruct category_labels as (Hcats & Hdefault & _).
  unfold _categorize.
  destruct (scores a) as [|s rest] eqn:Hs; [exact Hdefault|].
  destruct (max_by_first_greatest snd s rest) as (i & Hi & _).
  destruct (0 <? snd (max_by snd s rest))%Z; [|exact Hdefault].
  rewrite Forall_forall in Hcats. apply Hcats.
  rewrite <- (scores_categories a), Hs.
  apply list_elem_of_fmap. eexists. split; [reflexivity|].
  eapply list_elem_of_lookup_2; eauto.
Qed.

Lemma categorize_nonempty (a : NewsArticle) : _categorize a <> [].
Proof.
  destruct category_labels as (_ & _ & Hne).
  rewrite Forall_forall in Hne. apply Hne, categorize_label.
Qed.

Lemma match_count_nonneg (text : str) (kws : list str) : (0 <= match_count text kws)%Z.
Proof. unfold match_count. lia. Qed.

Lemma scores_nonneg (a : NewsArticle) : Forall (fun p => (0 <= snd p)%Z) (scores a).
Proof.
  unfold scores. apply Forall_fmap, Forall_forall. intros [cat kws] _.
  apply match_count_nonneg.
Qed.

(** *** Case folding *)

Lemma small_letters_fold (c : char) :
  (0x61 <= c <= 0x7A)%N -> folds_to c = true.
Proof.
  intros Hc.
  assert (Hcases : forallb folds_to (map N.of_nat (seq 97 26)) = true)
    by (vm_compute; reflexivity).
  rewrite forallb_forall in Hcases. apply Hcases.
  apply in_map_iff. exists (N.to_nat c). split; [lia|]. apply in_seq. lia.
Qed.

Lemma followed_by_cased_ascii_upper (s : str) :
  followed_by_cased (ascii_upper s) = followed_by_cased s.
Proof.
  induction s as [|c s IH]; [reflexivity|].
  cbn [ascii_upper map followed_by_cased]. fold (ascii_upper s).
  unfold ascii_upper_char.
  destruct ((0x61 <=? c) && (c <=? 0x7A))%N eqn:Hsmall; [|by rewrite IH].
  apply andb_true_iff in Hsmall as [Hlo Hhi].
  apply N.leb_le in Hlo, Hhi.
  pose proof (small_letters_fold c (conj Hlo Hhi)) as Hf. unfold folds_to in Hf.
  repeat (apply andb_true_iff in Hf as [Hf ?]).
  repeat match goal with
         | H : negb _ = true |- _ => apply negb_true_iff in H
         end.
  repeat match goal with H : Unicode.is_case_ignorable _ = _ |- _ => rewrite H end.
  repeat match goal with H : Unicode.is_cased _ = _ |- _ => rewrite H end.
  reflexivity.
Qed.

Lemma lower_from_ascii_upper (after_cased : bool) (s : str) :
  lower_from after_cased (ascii_upper s) = lower_from after_cased s.
Proof.
  revert after_cased. induction s as [|c s IH]; intros after_cased; [reflexivity|].
  cbn [ascii_upper map lower_from]. fold (ascii_upper s).
  rewrite followed_by_cased_ascii_upper.
  unfold ascii_upper_char.
  destruct ((0x61 <=? c) && (c <=? 0x7A))%N eqn:Hsmall; [|by rewrite IH].
  apply andb_true_iff in Hsmall as [Hlo Hhi].
  apply N.leb_le in Hlo, Hhi.
  pose proof (small_letters_fold c (conj Hlo Hhi)) as Hf. unfold folds_to in Hf.
  repeat (apply andb_true_iff in Hf as [Hf ?]).
  repeat match goal with
         | H : negb _ = true |- _ => apply negb_true_iff in H
         | H : bool_decide _ = true |- _ => apply bool_decide_eq_true in H
         end.
  repeat match goal with H : (_ =? 0x3A3)%N = _ |- _ => rewrite H end.
  repeat match goal with H : Unicode.to_lower_full _ = _ |- _ => rewrite H end.
  repeat match goal with H : Unicode.is_case_ignorable _ = _ |- _ => rewrite H end.
  repeat match goal with H : Unicode.is_cased _ = _ |- _ => rewrite H end.
  rewrite IH. reflexivity.
Qed.

Lemma lower_ascii_upper (s : str) : lower (ascii_upper s) = lower s.
Proof. apply lower_from_ascii_upper. Qed.

Lemma categorize_by_text (a b : NewsArticle) :
  article_text a = article_text b -> _categorize a = _categorize b.
Proof. unfold _categorize, scores. intros ->. reflexivity. Qed.

Lemma article_text_ascii_upper (a : NewsArticle) :
  article_text (set_text (ascii_upper (title a)) (ascii_upper (summary a)) a)
  = article_text a.
Proof.
  unfold article_text, set_text. cbn [title summary].
  rewrite <- (lower_ascii_upper (title a ++ py " " ++ summary a)).
  unfold ascii_upper. rewrite !map_app. reflexivity.
Qed.

(** C5.  The score of a category is the number of its keywords whose lower
    case occurs in the lower case of [title ++ " " ++ summary].  When some
    score is positive the answer is the category of the greatest score, the
    first such in the order of declaration; when every score is zero it is
    the catch-all label.  The title "OpenAI releases GPT-5 today" with an
    empty summary is given the category whose keywords contain "release",
    and "quarterly report on office supplies" the catch-all label.

    The case of the text does not count: two articles whose texts have the
    same lower case are given the same category, and making the Basic Latin
    letters of a title and a summary capital changes neither the lower case
    of the text nor the category.  So the first title in capitals is given
    the same category; "a new gpt model" is too, by the keyword "GPT"; and
    "APİ news", whose lower case holds "api", is given the category of the
    keyword "API". *)
Theorem categorize_first_highest_count
    (a b : NewsArticle) (u src c : str) (p : option str) (tg : list str) :
  scores a
    = map (fun entry =>
             (fst entry,
              Z.of_nat (length (filter
                (fun kw => contains (lower kw)
                             (lower (title a ++ py " " ++ summary a)) = true)
                (snd entry)))))
          CATEGORY_KEYWORDS
  /\ ((exists (i : nat) (cat : str) (n : Z),
          scores a !! i = Some (cat, n)
          /\ (0 < n)%Z
          /\ _categorize a = cat
          /\ (forall j q, scores a !! j = Some q -> (snd q <= n)%Z)
          /\ (forall j q, (j < i)%nat -> scores a !! j = Some q -> (snd q < n)%Z))
      \/ (_categorize a = default_category
          /\ Forall (fun q => snd q = 0%Z) (scores a)))
  /\ (_categorize {| title := py "OpenAI releases GPT-5 today"; url := u;
                     summary := []; source := src; category := c;
                     published_at := p; tags := tg |} = py "🔥 重大发布"
      /\ exists kws, CATEGORY_KEYWORDS !! 0%nat = Some (py "🔥 重大发布", kws)
                     /\ py "release" ∈ kws)
  /\ _categorize {| title := py "quarterly report on office supplies"; url := u;
                    summary := []; source := src; category := c;
                    published_at := p; tags := tg |} = default_category
  /\ (lower (title a ++ py " " ++ summary a) = lower (title b ++ py " " ++ summary b) ->
      _categorize a = _categorize b)
  /\ lower (ascii_upper (title a ++ py " " ++ summary a))
     = lower (title a ++ py " " ++ summary a)
  /\ _categorize (set_text (ascii_upper (title a)) (ascii_upper (summary a)) a)
     = _categorize a
  /\ _categorize {| title := py "OPENAI RELEASES GPT-5 TODAY"; url := u;
                    summary := []; source := src; category := c;
                    published_at := p; tags := tg |} = py "🔥 重大发布"
  /\ _categorize {| title := py "a new gpt model"; url := u;
                    summary := []; source := src; category := c;
                    published_at := p; tags := tg |} = py "🔥 重大发布"
  /\ (lower (py "APİ news") = py "api̇ news"
      /\ _categorize {| title := py "APİ news"; url := u;
                        summary := []; source := src; category := c;
                        published_at := p; tags := tg |} = py "🛠️ 工具与应用").
Proof.
  split; [|split; [|split; [|split]]].
  - unfold scores. apply map_ext. intros [cat kws]. reflexivity.
  - unfold _categorize.
    destruct (scores a) as [|s rest] eqn:Hs.
    { pose proof (length_scores a) as Hlen. rewrite Hs in Hlen. discriminate. }
    destruct (max_by_first_greatest snd s rest) as (i & Hi & Hle & Hlt).
    pose proof (scores_nonneg a) as Hnn. rewrite Hs, Forall_forall in Hnn.
    destruct (Z.ltb_spec 0 (snd (max_by snd s rest))) as [Hpos|Hzero].
    + left. exists i, (fst (max_by snd s rest)), (snd (max_by snd s rest)).
      rewrite <- surjective_pairing. auto.
    + right. split; [reflexivity|].
      apply Forall_forall. intros q Hq.
      specialize (Hnn q Hq).
      apply list_elem_of_lookup in Hq as [j Hj]. specialize (Hle j q Hj). lia.
  - split; [vm_compute; reflexivity|].
    eexists. split; [reflexivity|]. by_evaluation.
  - vm_compute. reflexivity.
  - split; [apply categorize_by_text|].
    split; [apply lower_ascii_upper|].
    split; [apply categorize_by_text, article_text_ascii_upper|].
    split; [vm_compute; reflexivity|].
    split; [vm_compute; reflexivity|].
    split; vm_compute; reflexivity.
Qed.

(** ** The deduplicator *)

Section Dedup.

Implicit Types (st : dedup_state) (a b : NewsArticle) (l : list NewsArticle).

Lemma dedup_inv_start : dedup_inv dedup_start.
Proof.
  split; intros k; simpl; rewrite elem_of_empty, elem_of_nil; tauto.
Qed.

Lemma dedup_step_inv st a : dedup_inv st -> dedup_inv (dedup_step st a).
Proof.
  intros [Hu Ht]. unfold dedup_step.
  destruct (decide (uid a ∈ seen_uids st)); [split; assumption|].
  destruct (decide (title_key a ∈ seen_titles st)); [split; assumption|].
  split; intros k; simpl;
    rewrite fmap_app, elem_of_union, elem_of_app, elem_of_singleton; simpl;
    rewrite list_elem_of_singleton; [rewrite Hu | rewrite Ht]; tauto.
Qed.

Lemma dedup_run_inv l st : dedup_inv st -> dedup_inv (fold_left dedup_step l st).
Proof.
  revert st. induction l as [|a l IH]; intros st Hst; simpl; [exact Hst|].
  apply IH, dedup_step_inv, Hst.
Qed.

Lemma exists_duplicates_iff st a :
  dedup_inv st ->
  Exists (duplicates a) (unique st)
  <-> uid a ∈ seen_uids st \/ title_key a ∈ seen_titles st.
Proof.
  intros [Hu Ht]. rewrite Hu, Ht, Exists_exists. unfold duplicates.
  rewrite !list_elem_of_fmap. split.
  - intros (b & Hb & [H|H]); [left|right]; exists b; auto.
  - intros [(b & H & Hb)|(b & H & Hb)]; exists b; auto.
Qed.

(** One turn of the loop: the article is appended unless an article kept
    before has its [uid] or its title key. *)
Lemma dedup_step_unique st a :
  dedup_inv st ->
  unique (dedup_step st a)
  = unique st ++ (if decide (Exists (duplicates a) (unique st)) then [] else [a]).
Proof.
  intros Hst. pose proof (exists_duplicates_iff st a Hst) as Hdup.
  unfold dedup_step.
  destruct (decide (uid a ∈ seen_uids st)) as [Hin|Hout].
  { rewrite decide_True by tauto. symmetry. apply app_nil_r. }
  destruct (decide (title_key a ∈ seen_titles st)) as [Hin'|Hout'].
  { rewrite decide_True by tauto. symmetry. apply app_nil_r. }
  rewrite decide_False by tauto. reflexivity.
Qed.

(** The loop only appends, and what it appends is taken in order from the
    list it reads. *)
Lemma dedup_run_appends l st :
  exists kept, unique (fold_left dedup_step l st) = unique st ++ kept
               /\ kept `sublist_of` l.
Proof.
  revert st. induction l as [|a l IH]; intros st; simpl.
  - exists []. split; [symmetry; apply app_nil_r | constructor].
  - destruct (IH (dedup_step st a)) as (kept & Hkept & Hsub).
    rewrite Hkept. unfold dedup_step.
    destruct (decide (uid a ∈ seen_uids st));
      [exists kept; split; [reflexivity | by apply sublist_cons]|].
    destruct (decide (title_key a ∈ seen_titles st));
      [exists kept; split; [reflexivity | by apply sublist_cons]|].
    exists (a :: kept). simpl. rewrite <- app_assoc. split; [reflexivity|].
    by apply sublist_skip.
Qed.

Lemma dedup_step_distinct st a :
  dedup_inv st -> distinct_keys (unique st) ->
  distinct_keys (unique (dedup_step st a)).
Proof.
  intros [Hu Ht] [Hdu Hdt]. unfold dedup_step.
  destruct (decide (uid a ∈ seen_uids st)) as [|Hout]; [split; assumption|].
  destruct (decide (title_key a ∈ seen_titles st)) as [|Hout']; [split; assumption|].
  rewrite Hu in Hout. rewrite Ht in Hout'.
  split; simpl; rewrite fmap_app; apply NoDup_app; simpl;
    (split; [assumption|]); (split; [|apply NoDup_singleton]);
    intros k Hk Hk'; apply list_elem_of_singleton in Hk'; subst k; tauto.
Qed.

Lemma dedup_run_distinct l st :
  dedup_inv st -> distinct_keys (unique st) ->
  distinct_keys (unique (fold_left dedup_step l st)).
Proof.
  revert st. induction l as [|a l IH]; intros st Hst Hd; simpl; [exact Hd|].
  apply IH; [apply dedup_step_inv, Hst | apply dedup_step_distinct; assumption].
Qed.

(** A list whose keys are all distinct passes the loop untouched. *)
Lemma dedup_run_fixed l st :
  dedup_inv st -> distinct_keys (unique st ++ l) ->
  unique (fold_left dedup_step l st) = unique st ++ l.
Proof.
  revert st. induction l as [|a l IH]; intros st Hst Hd; simpl.
  - symmetry. apply app_nil_r.
  - assert (Hfresh : ~ Exists (duplicates a) (unique st)).
    { destruct Hd as [Hdu Hdt]. rewrite fmap_app in Hdu, Hdt.
      apply NoDup_app in Hdu as (_ & Hu & _). apply NoDup_app in Hdt as (_ & Ht & _).
      rewrite Exists_exists. intros (b & Hb & [Hsame|Hsame]).
      - apply (Hu (uid b)); [by apply list_elem_of_fmap_2|].
        rewrite <- Hsame. simpl. left.
      - apply (Ht (title_key b)); [by apply list_elem_of_fmap_2|].
        rewrite <- Hsame. simpl. left. }
    assert (Hstep : unique (dedup_step st a) = unique st ++ [a]).
    { rewrite dedup_step_unique by exact Hst. by rewrite decide_False. }
    rewrite IH; rewrite ?Hstep, <- ?app_assoc; try reflexivity; try exact Hd.
    apply dedup_step_inv, Hst.
Qed.

End Dedup.

Lemma deduplicate_sublist (l : list NewsArticle) : _deduplicate l `sublist_of` l.
Proof.
  destruct (dedup_run_appends l dedup_start) as (kept & Hkept & Hsub).
  unfold _deduplicate. rewrite Hkept. exact Hsub.
Qed.

(** Where the loop stands when it reaches an article, and what it does. *)
Lemma deduplicate_at (before after : list NewsArticle) (a : NewsArticle) :
  exists kept_after,
    kept_after `sublist_of` after
    /\ _deduplicate (before ++ a :: after)
       = _deduplicate before
         ++ (if decide (Exists (duplicates a) (_deduplicate before))
             then [] else [a])
         ++ kept_after.
Proof.
  unfold _deduplicate.
  rewrite fold_left_app. simpl.
  set (st := fold_left dedup_step before dedup_start).
  destruct (dedup_run_appends after (dedup_step st a)) as (kept & Hkept & Hk).
  exists kept. split; [exact Hk|].
  rewrite Hkept, dedup_step_unique, <- app_assoc; [reflexivity|].
  apply dedup_run_inv, dedup_inv_start.
Qed.

Lemma deduplicate_distinct (l : list NewsArticle) : distinct_keys (_deduplicate l).
Proof.
  unfold _deduplicate.
  apply dedup_run_distinct; [apply dedup_inv_start|].
  split; simpl; constructor.
Qed.

(** C4, as amended.  Deduplicating a deduplicated list changes nothing.
    The result is the input with some articles left out, the others in
    their order.  An article is left out exactly when an article kept
    before it has the same [uid] or the same title key.  So an article that
    no earlier article duplicates is kept; an article that comes after a
    kept article and duplicates it is left out; and no two kept articles
    have the same [uid] or the same title key.  The title key is the first
    20 characters of the title in lower case, without the white space
    around them: of two articles at different urls whose titles differ in
    case and outer white space only, the second is left out.  An article
    that is left out leaves no trace: after one left out for its title, a
    later article of the same url can be kept. *)
Theorem deduplicate_idempotent_kept_earlier_wins
    (articles before mid after : list NewsArticle) (a b : NewsArticle) :
  _deduplicate (_deduplicate articles) = _deduplicate articles
  /\ _deduplicate articles `sublist_of` articles
  /\ (exists kept_after,
        kept_after `sublist_of` after
        /\ _deduplicate (before ++ a :: after)
           = _deduplicate before
             ++ (if decide (Exists (duplicates a) (_deduplicate before))
                 then [] else [a])
             ++ kept_after)
  /\ (Forall (fun x => ~ duplicates a x) before ->
      a ∈ _deduplicate (before ++ a :: after))
  /\ (~ Exists (duplicates a) (_deduplicate before) ->
      duplicates b a ->
      exists kept_mid kept_after,
        kept_mid `sublist_of` mid
        /\ kept_after `sublist_of` after
        /\ _deduplicate (before ++ a :: mid ++ b :: after)
           = _deduplicate before ++ [a] ++ kept_mid ++ kept_after)
  /\ NoDup (uid <$> _deduplicate articles)
  /\ NoDup (title_key <$> _deduplicate articles)
  /\ title_key a = strip (lower (slice_to 20 (title a)))
  /\ (url launch_spaced <> url launch_shouted
      /\ _deduplicate [launch_shouted; launch_spaced] = [launch_shouted])
  /\ (url ecole_small <> url ecole_capital
      /\ _deduplicate [ecole_capital; ecole_small] = [ecole_capital])
  /\ (uid gpt5_same_title = uid gpt5_mirror_later
      /\ _deduplicate [gpt5_first; gpt5_same_title; gpt5_mirror_later]
         = [gpt5_first; gpt5_mirror_later]).
Proof.
  split; [|split; [apply deduplicate_sublist | split; [apply deduplicate_at|]]].
  - unfold _deduplicate at 1.
    apply (dedup_run_fixed (_deduplicate articles) dedup_start dedup_inv_start).
    apply deduplicate_distinct.
  - split; [|split; [|split; [apply deduplicate_distinct|]]].
    3: { split; [apply deduplicate_distinct|]. split; [reflexivity|].
         split; [split; [vm_compute; discriminate | vm_compute; reflexivity]|].
         split; [split; [vm_compute; discriminate | vm_compute; reflexivity]|].
         split; vm_compute; reflexivity. }
    + intros Hfirst. destruct (deduplicate_at before after a) as (kept & _ & ->).
      rewrite decide_False.
      * rewrite !elem_of_app. right. left. constructor.
      * rewrite Exists_exists. intros (x & Hx & Hdup).
        rewrite Forall_forall in Hfirst. apply (Hfirst x); [|exact Hdup].
        eapply elem_of_sublist; [exact Hx | apply deduplicate_sublist].
    + intros Hkept Hdup.
      destruct (deduplicate_at before mid a) as (kept_mid & Hmid & Hhead).
      rewrite decide_False in Hhead by exact Hkept.
      destruct (deduplicate_at (before ++ a :: mid) after b)
        as (kept_after & Hafter & Hall).
      rewrite <- app_assoc in Hall. cbn [app] in Hall.
      rewrite Hhead in Hall. rewrite decide_True in Hall.
      * exists kept_mid, kept_after. split; [exact Hmid|]. split; [exact Hafter|].
        rewrite Hall. cbn [app]. rewrite <- !app_assoc. reflexivity.
      * apply Exists_exists. exists a. split; [|exact Hdup].
        rewrite !elem_of_app. right. left. constructor.
Qed.

Lemma deduplicate_idempotent_kept_earlier_wins_witness :
  gpt5_claude
    ∈ _deduplicate ([gpt5_first; gpt5_same_url] ++ gpt5_claude :: [gpt5_same_title]).
Proof.
  exact (proj1 (proj2 (proj2 (proj2
           (deduplicate_idempotent_kept_earlier_wins
              [] [gpt5_first; gpt5_same_url] [] [gpt5_same_title]
              gpt5_claude gpt5_claude))))
           ltac:(by_evaluation)).
Defined.

(** C4, as it is worded, at three articles: the second and the third have
    the same url, so the same [uid], and the second has the title key of
    the first.  The second is left out for its title and leaves no trace,
    so the third is kept: of the two articles of that url, the later one
    is in the result, not the first. *)
Lemma deduplicate_later_of_url_pair_kept :
  url gpt5_same_title = url gpt5_mirror_later
  /\ uid gpt5_same_title = uid gpt5_mirror_later
  /\ title_key gpt5_same_title = title_key gpt5_first
  /\ _deduplicate [gpt5_first; gpt5_same_title; gpt5_mirror_later]
     = [gpt5_first; gpt5_mirror_later]
  /\ (gpt5_same_title ∉ _deduplicate [gpt5_first; gpt5_same_title; gpt5_mirror_later])
  /\ (gpt5_mirror_later ∈ _deduplicate [gpt5_first; gpt5_same_title; gpt5_mirror_later]).
Proof.
  assert (Hrun : _deduplicate [gpt5_first; gpt5_same_title; gpt5_mirror_later]
                 = [gpt5_first; gpt5_mirror_later]) by (vm_compute; reflexivity).
  rewrite Hrun.
  split; [vm_compute; reflexivity|]. split; [vm_compute; reflexivity|].
  split; [vm_compute; reflexivity|]. split; [reflexivity|]. split.
  - rewrite !not_elem_of_cons. split; [|split; [|apply not_elem_of_nil]];
      intros Heq; apply (f_equal title) in Heq; vm_compute in Heq; discriminate Heq.
  - right. left.
Qed.

Lemma deduplicate_nil : _deduplicate [] = [].
Proof. reflexivity. Qed.

Lemma deduplicate_snoc (before : list NewsArticle) (a : NewsArticle) :
  _deduplicate (before ++ [a])
  = _deduplicate before
    ++ (if decide (Exists (duplicates a) (_deduplicate before)) then [] else [a]).
Proof.
  destruct (deduplicate_at before [] a) as (kept & Hsub & ->).
  apply sublist_nil_r in Hsub as ->. by rewrite app_nil_r.
Qed.

(** Two candidates of one url followed by a third: the first is kept, the
    second is not, and the third is kept unless it duplicates the first. *)
Lemma deduplicate_pair_then_third (a b c : NewsArticle) :
  url a = url b ->
  _deduplicate [a; b; c] = if decide (duplicates c a) then [a] else [a; c].
Proof.
  intros Hurl.
  assert (Ha : _deduplicate [a] = [a]).
  { change [a] with ([] ++ [a]) at 1. rewrite deduplicate_snoc, deduplicate_nil.
    rewrite decide_False; [reflexivity|]. rewrite Exists_nil. tauto. }
  assert (Hab : _deduplicate [a; b] = [a]).
  { change [a; b] with ([a] ++ [b]). rewrite deduplicate_snoc, Ha.
    rewrite decide_True; [reflexivity|].
    constructor. left. unfold uid. by rewrite Hurl. }
  change [a; b; c] with ([a; b] ++ [c]). rewrite deduplicate_snoc, Hab.
  destruct (decide (duplicates c a)) as [Hdup|Hfresh].
  - rewrite decide_True; [reflexivity | by constructor].
  - rewrite decide_False; [reflexivity|].
    rewrite Exists_cons, Exists_nil. tauto.
Qed.

(** ** The entry point *)

Section Crawl.

Context {net : Network} {clk : Clock} {cfg : Config}.

(** Step 6) cuts the list steps 3) to 5) leave. *)
Lemma crawl_ai_news_cuts_survivors (all_articles : list NewsArticle) (max_articles : Z) :
  crawl_ai_news all_articles max_articles
  = (survivors ← surviving_articles all_articles;
     mret (slice_to (effective_cap max_articles) survivors)).
Proof.
  unfold crawl_ai_news, surviving_articles, effective_cap.
  destruct NEWS_TODAY_ONLY; [|reflexivity].
  destruct (_filter_today_articles _); reflexivity.
Qed.

Lemma surviving_without_filter (all_articles : list NewsArticle) :
  NEWS_TODAY_ONLY = false ->
  surviving_articles all_articles
  = Returned (map (fun x => set_category (_categorize x) x)
                  (_deduplicate all_articles)).
Proof. intros Hoff. unfold surviving_articles. rewrite Hoff. reflexivity. Qed.

End Crawl.

(** C1, as amended.  Take three candidates [a], [b], [c] where [a] and [b]
    have the same url, a run without the same-day filter and a cap of at
    least two.  The pipeline keeps [a] and drops [b].  When the title of
    [c] starts with the same 20 characters as the title of [a], [c] is
    dropped as well and one article is returned.  When it starts with the
    same 20 characters as the title of [b] and [c] does not duplicate [a],
    [c] is kept and two articles are returned.  Every article of the list
    that is cut has been given a category, which is not empty. *)
Theorem pipeline_pair_then_title_collision
    (net : Network) (clk : Clock) (cfg : Config)
    (a b c : NewsArticle) (max_articles : Z) :
  NEWS_TODAY_ONLY = false ->
  url a = url b ->
  (2 <= effective_cap max_articles)%Z ->
  (slice_to 20 (title c) = slice_to 20 (title a) ->
   crawl_ai_news [a; b; c] max_articles
   = Returned [set_category (_categorize a) a])
  /\ (slice_to 20 (title c) = slice_to 20 (title b) ->
      ~ duplicates c a ->
      crawl_ai_news [a; b; c] max_articles
      = Returned [set_category (_categorize a) a;
                  set_category (_categorize c) c])
  /\ (exists survivors,
        surviving_articles [a; b; c] = Returned survivors
        /\ Forall (fun x => category x <> []) survivors
        /\ crawl_ai_news [a; b; c] max_articles
           = Returned (slice_to (effective_cap max_articles) survivors)).
Proof.
  intros Hoff Hurl Hcap.
  pose proof (crawl_ai_news_cuts_survivors [a; b; c] max_articles) as Hcrawl.
  rewrite (surviving_without_filter _ Hoff) in Hcrawl.
  rewrite deduplicate_pair_then_third in Hcrawl by exact Hurl.
  split; [|split].
  - intros Htitle. rewrite Hcrawl. rewrite decide_True.
    + simpl. rewrite slice_to_all; [reflexivity | unfold len_list; simpl; lia].
    + right. unfold title_key. by rewrite Htitle.
  - intros _ Hfresh. rewrite Hcrawl. rewrite decide_False by exact Hfresh.
    simpl. rewrite slice_to_all; [reflexivity | unfold len_list; simpl; lia].
  - eexists. split; [apply (surviving_without_filter _ Hoff)|].
    split.
    + apply Forall_fmap, Forall_forall. intros x _. simpl.
      apply categorize_nonempty.
    + rewrite Hcrawl, deduplicate_pair_then_third by exact Hurl. reflexivity.
Qed.

Lemma pipeline_pair_then_title_collision_witness :
  @crawl_ai_news offline fixed_clock (config 15 false)
    [gpt5_first; gpt5_same_url; gpt5_same_title] 0
  = Returned [set_category (_categorize gpt5_first) gpt5_first].
Proof.
  exact (proj1 (pipeline_pair_then_title_collision
                  offline fixed_clock (config 15 false)
                  gpt5_first gpt5_same_url gpt5_same_title 0
                  eq_refl ltac:(vm_compute; reflexivity)
                  ltac:(vm_compute; discriminate))
               ltac:(vm_compute; reflexivity)).
Defined.

(** C1, as it is worded, at three candidates of the kind it describes: the
    first two share a url, the third has another url and a title with the
    same first 20 characters as the first.  One article is returned, not
    two. *)
Lemma pipeline_three_candidates_one_survivor :
  url gpt5_first = url gpt5_same_url
  /\ url gpt5_same_title <> url gpt5_first
  /\ slice_to 20 (title gpt5_same_title) = slice_to 20 (title gpt5_first)
  /\ @crawl_ai_news offline fixed_clock (config 15 false)
       [gpt5_first; gpt5_same_url; gpt5_same_title] 0
     = Returned [set_category (py "🔥 重大发布") gpt5_first]
  /\ ~ (exists survivors,
          @crawl_ai_news offline fixed_clock (config 15 false)
            [gpt5_first; gpt5_same_url; gpt5_same_title] 0
          = Returned survivors
          /\ length survivors = 2%nat).
Proof.
  assert (Hrun : @crawl_ai_news offline fixed_clock (config 15 false)
                   [gpt5_first; gpt5_same_url; gpt5_same_title] 0
                 = Returned [set_category (py "🔥 重大发布") gpt5_first])
    by (vm_compute; reflexivity).
  split; [vm_compute; reflexivity|]. split; [vm_compute; discriminate|].
  split; [vm_compute; reflexivity|]. split; [exact Hrun|].
  intros (survivors & Hs & Hlen). rewrite Hrun in Hs.
  injection Hs as <-. discriminate Hlen.
Qed.

(** C10, as amended.  With [max_articles = 0] the cap is
    [NEWS_MAX_ARTICLES]: the call is the call with that value.  For a
    positive [max_articles] the result is the first [max_articles] of the
    surviving articles, in their order.  So, when [NEWS_MAX_ARTICLES] is
    positive, no [max_articles] that is zero or positive empties a list of
    survivors that is not empty.  A negative [max_articles] is taken as a
    slice bound counted from the end. *)
Theorem crawl_cap_falls_back
    (net : Network) (clk : Clock) (cfg : Config)
    (all_articles survivors : list NewsArticle) (max_articles : Z) :
  surviving_articles all_articles = Returned survivors ->
  crawl_ai_news all_articles 0
    = Returned (slice_to NEWS_MAX_ARTICLES survivors)
  /\ crawl_ai_news all_articles 0 = crawl_ai_news all_articles NEWS_MAX_ARTICLES
  /\ ((0 < max_articles)%Z ->
      crawl_ai_news all_articles max_articles
      = Returned (take (Z.to_nat max_articles) survivors))
  /\ ((0 < NEWS_MAX_ARTICLES)%Z -> (0 <= max_articles)%Z -> survivors <> [] ->
      crawl_ai_news all_articles max_articles <> Returned [])
  /\ ((max_articles < 0)%Z ->
      crawl_ai_news all_articles max_articles
      = Returned (take (Z.to_nat (len_list survivors + max_articles)) survivors)).
Proof.
  intros Hs.
  assert (Hcut : forall m, crawl_ai_news all_articles m
                           = Returned (slice_to (effective_cap m) survivors)).
  { intros m. rewrite crawl_ai_news_cuts_survivors, Hs. reflexivity. }
  assert (Hpos : forall m, (0 < m)%Z -> effective_cap m = m).
  { intros m Hm. unfold effective_cap. destruct (Z.eqb_spec m 0); [lia|reflexivity]. }
  split; [rewrite Hcut; reflexivity|].
  split.
  { rewrite !Hcut. unfold effective_cap. simpl.
    destruct (NEWS_MAX_ARTICLES =? 0)%Z; reflexivity. }
  split.
  { intros Hm. rewrite Hcut, (Hpos _ Hm), slice_to_nonneg by lia. reflexivity. }
  split.
  { intros Hconf Hm Hne. rewrite Hcut.
    assert (Hcap : (0 < effective_cap max_articles)%Z).
    { unfold effective_cap. destruct (Z.eqb_spec max_articles 0); lia. }
    rewrite slice_to_nonneg by lia.
    destruct survivors as [|x rest]; [congruence|].
    destruct (Z.to_nat (effective_cap max_articles)) eqn:Hn; [lia|].
    simpl. discriminate. }
  intros Hm. rewrite Hcut. unfold effective_cap, slice_to, len_list.
  destruct (Z.eqb_spec max_articles 0); [lia|].
  destruct (Z.ltb_spec max_articles 0); [reflexivity|lia].
Qed.

Lemma crawl_cap_falls_back_witness :
  @crawl_ai_news offline fixed_clock (config 1 false)
    [gpt5_first; gpt5_claude] 0
  = Returned [set_category (_categorize gpt5_first) gpt5_first]
  /\ @crawl_ai_news offline fixed_clock (config 1 false)
       [gpt5_first; gpt5_claude] 2
     = Returned [set_category (_categorize gpt5_first) gpt5_first;
                 set_category (_categorize gpt5_claude) gpt5_claude].
Proof.
  pose proof (crawl_cap_falls_back offline fixed_clock (config 1 false)
                [gpt5_first; gpt5_claude]
                [set_category (_categorize gpt5_first) gpt5_first;
                 set_category (_categorize gpt5_claude) gpt5_claude]
                2 ltac:(vm_compute; reflexivity)) as (H0 & _ & H2 & _).
  split; [exact H0 | exact (H2 ltac:(vm_compute; reflexivity))].
Defined.

(** C10, as it is worded, at [max_articles = -1]: one article survives and
    the result is empty. *)
Lemma crawl_negative_cap_empties :
  @surviving_articles offline fixed_clock (config 15 false) [gpt5_first]
  = Returned [set_category (py "🔥 重大发布") gpt5_first]
  /\ @crawl_ai_news offline fixed_clock (config 15 false) [gpt5_first] (-1)
     = Returned [].
Proof. split; vm_compute; reflexivity. Qed.

(** ** The URL filter *)

Lemma skip_pattern_found (path : str) :
  existsb (fun p => contains p path) skip_patterns = true
  <-> Exists (fun p => contains p path = true) skip_patterns.
Proof.
  rewrite existsb_exists, Exists_exists. split.
  - intros (p & Hp & Hc). exists p. split; [by apply list_elem_of_In | exact Hc].
  - intros (p & Hp & Hc). exists p. split; [by apply list_elem_of_In | exact Hc].
Qed.

(** C2, as amended.  With [path] the lower-cased path of the URL: the URL
    is rejected when [path] contains one of the substrings "/category/",
    "/tag/", "/page/", "/author/", "/search", "/login", "/signup",
    "/about", "/contact", "/privacy", "/terms".  Otherwise a path that is
    not empty, has fewer than two "/" and does not end in "/" is accepted
    whatever its length, and in every other case of two or more "/" or a
    final "/" the URL is accepted exactly when [path] has more than 5
    characters.  The path "/category/ai/" is rejected and
    "/2026/02/07/some-article-slug" is accepted. *)
Theorem url_filter_by_path (url base_url : str) :
  let path := lower (Urllib.urlparse_path url) in
  let listed := Exists (fun p => contains p path = true) skip_patterns in
  (listed -> _is_valid_article_url url base_url = false)
  /\ (~ listed -> (count 0x2F%N path < 2)%Z -> endswith path (py "/") = false ->
      path <> [] -> _is_valid_article_url url base_url = true)
  /\ (~ listed -> (2 <= count 0x2F%N path)%Z \/ endswith path (py "/") = true ->
      _is_valid_article_url url base_url = (5 <? len path)%Z)
  /\ (path = py "/category/ai/" -> _is_valid_article_url url base_url = false)
  /\ (path = py "/2026/02/07/some-article-slug" ->
      _is_valid_article_url url base_url = true).
Proof.
  intros path listed. unfold _is_valid_article_url. fold path.
  pose proof (skip_pattern_found path) as Hfound. fold listed in Hfound.
  split; [|split; [|split; [|split]]].
  - intros Hl. apply Hfound in Hl. rewrite Hl. reflexivity.
  - intros Hl Hcount Hend _.
    destruct (existsb _ skip_patterns); [tauto|].
    rewrite Hend. destruct (Z.ltb_spec (count 0x2F%N path) 2); [reflexivity|lia].
  - intros Hl Hother.
    destruct (existsb _ skip_patterns); [tauto|].
    destruct Hother as [Hcount|Hend].
    + destruct (Z.ltb_spec (count 0x2F%N path) 2); [lia|reflexivity].
    + rewrite Hend, andb_false_r. reflexivity.
  - intros ->. vm_compute. reflexivity.
  - intros ->. vm_compute. reflexivity.
Qed.

Lemma url_filter_by_path_witness :
  _is_valid_article_url (py "https://example.com/category/ai/")
                        (py "https://example.com/") = false
  /\ _is_valid_article_url (py "https://example.com/2026/02/07/some-article-slug")
                           (py "https://example.com/") = true
  /\ _is_valid_article_url (py "https://example.com/gpt-5")
                           (py "https://example.com/") = true.
Proof.
  split; [|split].
  - exact (proj1 (proj2 (proj2 (proj2
             (url_filter_by_path (py "https://example.com/category/ai/")
                                 (py "https://example.com/")))))
             ltac:(vm_compute; reflexivity)).
  - exact (proj2 (proj2 (proj2 (proj2
             (url_filter_by_path
                (py "https://example.com/2026/02/07/some-article-slug")
                (py "https://example.com/")))))
             ltac:(vm_compute; reflexivity)).
  - refine (proj1 (proj2
             (url_filter_by_path (py "https://example.com/gpt-5")
                                 (py "https://example.com/")))
             _ ltac:(vm_compute; reflexivity) ltac:(vm_compute; reflexivity)
             ltac:(vm_compute; discriminate)).
    apply (bool_decide_eq_true_1 _). vm_compute. reflexivity.
Defined.

(** C2, as it is worded, at the path "/abc": it has fewer than two "/" and
    no final "/", and the URL is accepted; and at the path "/", which has
    fewer than two "/" and ends in "/": the URL is rejected. *)
Lemma url_filter_accepts_without_trailing_slash :
  lower (Urllib.urlparse_path (py "https://example.com/abc")) = py "/abc"
  /\ (count 0x2F%N (py "/abc") < 2)%Z
  /\ endswith (py "/abc") (py "/") = false
  /\ _is_valid_article_url (py "https://example.com/abc")
                           (py "https://example.com/") = true
  /\ lower (Urllib.urlparse_path (py "https://example.com/")) = py "/"
  /\ _is_valid_article_url (py "https://example.com/")
                           (py "https://example.com/") = false.
Proof. repeat split; vm_compute; reflexivity. Qed.

(** ** Dates *)

(** The three dates the specification lists. *)
Lemma parse_datetime_literal_cases :
  _parse_datetime (py "2026-02-07")
    = Returned (Some (Datetime 2026 2 7 0 0 0 0 None))
  /\ _parse_datetime (py "2026年02月07日")
     = Returned (Some (Datetime 2026 2 7 0 0 0 0 None))
  /\ _parse_datetime (py "2026-02-07T10:00:00Z")
     = Returned (Some (Datetime 2026 2 7 10 0 0 0 (Some 0%Z))).
Proof. repeat split; vm_compute; reflexivity. Qed.

(** The order of the three readings. *)
Lemma parse_datetime_order (text : str) :
  strip text <> [] ->
  let raw := strip text in
  (forall dt, fromisoformat (replace 0x5A%N (py "+00:00") raw) = Some dt ->
              _parse_datetime text = Returned (Some dt))
  /\ (fromisoformat (replace 0x5A%N (py "+00:00") raw) = None ->
      (forall g, search_numeric raw = Some g ->
                 _parse_datetime text = (dt ← datetime_of_groups g; mret (Some dt)))
      /\ (search_numeric raw = None ->
          (forall g, search_chinese raw = Some g ->
                     _parse_datetime text
                     = (dt ← datetime_of_groups g; mret (Some dt)))
          /\ (search_chinese raw = None -> _parse_datetime text = Returned None))).
Proof.
  intros Hraw raw. unfold _parse_datetime. fold raw.
  assert (Htext : is_empty text = false).
  { destruct text; [|reflexivity]. exfalso. apply Hraw. reflexivity. }
  assert (Hne : is_empty raw = false).
  { subst raw. destruct (strip text); [congruence|reflexivity]. }
  rewrite Htext, Hne. split.
  - intros dt ->. reflexivity.
  - intros ->. split.
    + intros g ->. reflexivity.
    + intros ->. split.
      * intros g ->. reflexivity.
      * intros ->. reflexivity.
Qed.

(** [_parse_datetime] raises only from the constructor call of one of the
    two patterns, on a date that is not in the calendar. *)
Lemma parse_datetime_raises_only_on_invalid_date (text : str) (e : exn) :
  _parse_datetime text = Raised e ->
  e = ValueError
  /\ fromisoformat (replace 0x5A%N (py "+00:00") (strip text)) = None
  /\ exists y m d,
       (search_numeric (strip text) = Some (y, m, d)
        \/ search_numeric (strip text) = None
           /\ search_chinese (strip text) = Some (y, m, d))
       /\ fields_ok (Datetime (int_of_decimals y) (int_of_decimals m)
                              (int_of_decimals d) 0 0 0 0 None) = false.
Proof.
  unfold _parse_datetime.
  destruct (is_empty text); [discriminate|].
  destruct (is_empty (strip text)); [discriminate|].
  destruct (fromisoformat _); [discriminate|].
  assert (Hctor : forall g,
             (dt ← datetime_of_groups g; mret (Some dt)) = Raised e ->
             e = ValueError
             /\ fields_ok (Datetime (int_of_decimals g.1.1) (int_of_decimals g.1.2)
                                    (int_of_decimals g.2) 0 0 0 0 None) = false).
  { intros [[y m] d]. unfold datetime_of_groups, datetime_ymd, make. simpl.
    destruct (fields_ok _); simpl; [discriminate|]. intros [= <-]. auto. }
  destruct (search_numeric (strip text)) as [[[y m] d]|].
  - intros Hr. destruct (Hctor _ Hr) as [-> Hbad].
    split; [reflexivity|]. split; [reflexivity|]. exists y, m, d. auto.
  - destruct (search_chinese (strip text)) as [[[y m] d]|]; [|discriminate].
    intros Hr. destruct (Hctor _ Hr) as [-> Hbad].
    split; [reflexivity|]. split; [reflexivity|]. exists y, m, d. auto.
Qed.

(** C3 fails on a date that no calendar has: [fromisoformat] refuses it,
    the numeric pattern matches it, and the [ValueError] of the
    [datetime] constructor leaves [_parse_datetime]. *)
Theorem parse_datetime_raises_on_february_30 :
  fromisoformat (replace 0x5A%N (py "+00:00") (strip (py "2026-02-30"))) = None
  /\ search_numeric (strip (py "2026-02-30")) = Some (py "2026", py "02", py "30")
  /\ datetime_ymd 2026 2 30 = Raised ValueError
  /\ _parse_datetime (py "2026-02-30") = Raised ValueError.
Proof. repeat split; vm_compute; reflexivity. Qed.

(** ** Date enrichment *)




(** ** The run *)

(** C9.  When the crawl returns no article, [run_pipeline] returns, it
    does not raise; what it returns has status "empty" and an article count
    of 0; and it has sent no request to the document service: no document
    is created, no block written, no chat looked up, no message sent. *)
Theorem run_pipeline_empty_outcome
    (net : Network) (clk : Clock) (cfg : Config) (service : Feishu)
    (all_articles : list NewsArticle) (dry_run : bool) :
  crawl_ai_news all_articles 0 = Returned [] ->
  exists r,
    run_pipeline all_articles dry_run = {| calls := []; result := Returned r |}
    /\ status r = py "empty"
    /\ article_count r = 0%Z.
Proof.
  intros Hcrawl. exists ResultEmpty. unfold run_pipeline. rewrite Hcrawl.
  repeat split.
Qed.

Lemma run_pipeline_empty_outcome_witness :
  @run_pipeline offline fixed_clock (config 15 true) unreachable_service
    [gpt5_first; gpt5_claude] false
  = {| calls := []; result := Returned ResultEmpty |}.
Proof.
  destruct (run_pipeline_empty_outcome offline fixed_clock (config 15 true)
              unreachable_service [gpt5_first; gpt5_claude] false
              ltac:(vm_compute; reflexivity)) as (r & Hrun & Hstatus & _).
  destruct r; [exact Hrun | |]; vm_compute in Hstatus; discriminate Hstatus.
Defined.

(** For comparison: a run that has an article, is not a dry run and has a
    configured client starts by asking for a document. *)
Lemma run_pipeline_publishes
    (net : Network) (clk : Clock) (cfg : Config) (service : Feishu)
    (all_articles : list NewsArticle) (x : NewsArticle) (rest : list NewsArticle) :
  crawl_ai_news all_articles 0 = Returned (x :: rest) ->
  client_configured = true ->
  exists doc_title later,
    calls (run_pipeline all_articles false) = CreateDocument doc_title :: later.
Proof.
  intros Hcrawl Hconf. unfold run_pipeline. rewrite Hcrawl, Hconf.
  cbn [mbind io_bind lift result calls app request].
  eexists. destruct (create_document _) as [[doc_id doc_url]|e].
  - cbn [result calls app]. eexists. destruct (result _); reflexivity.
  - eexists. reflexivity.
Qed.

(** * Further properties *)

(** ** Dates: reading back what [isoformat] writes *)

Section IsoRoundTrip.

Lemma zero_padded_2 n : zero_padded 2 n = [dg n 1; dg n 0].
Proof. reflexivity. Qed.
Lemma zero_padded_4 n : zero_padded 4 n = [dg n 3; dg n 2; dg n 1; dg n 0].
Proof. reflexivity. Qed.
Lemma zero_padded_6 n : zero_padded 6 n = [dg n 5; dg n 4; dg n 3; dg n 2; dg n 1; dg n 0].
Proof. reflexivity. Qed.

Lemma dg_range n i : (0x30 <= dg n i <= 0x39)%N.
Proof.
  unfold dg. pose proof (Z.mod_pos_bound (n / 10 ^ Z.of_nat i) 10 ltac:(lia)). lia.
Qed.

Lemma is_digit_dg n i : is_digit (dg n i) = true.
Proof.
  pose proof (dg_range n i). unfold is_digit.
  apply andb_true_intro. split; apply N.leb_le; lia.
Qed.

Lemma dg_eqb n i (c : N) : (c < 0x30 \/ 0x39 < c)%N -> (dg n i =? c)%N = false.
Proof. pose proof (dg_range n i). intros Hc. apply N.eqb_neq. lia. Qed.

Lemma dg_val n i : (Z.of_N (dg n i) - 0x30 = (n / 10 ^ Z.of_nat i) mod 10)%Z.
Proof.
  unfold dg. pose proof (Z.mod_pos_bound (n / 10 ^ Z.of_nat i) 10 ltac:(lia)). lia.
Qed.

Lemma int_of_digits_2 n : (0 <= n < 100)%Z -> int_of_digits [dg n 1; dg n 0] = n.
Proof.
  intros Hn. unfold int_of_digits. cbn [fold_left]. rewrite !dg_val.
  change (10 ^ Z.of_nat 1)%Z with 10%Z. change (10 ^ Z.of_nat 0)%Z with 1%Z.
  Z.div_mod_to_equations. lia.
Qed.

Lemma int_of_digits_4 n :
  (0 <= n < 10000)%Z -> int_of_digits [dg n 3; dg n 2; dg n 1; dg n 0] = n.
Proof.
  intros Hn. unfold int_of_digits. cbn [fold_left]. rewrite !dg_val.
  change (10 ^ Z.of_nat 3)%Z with 1000%Z. change (10 ^ Z.of_nat 2)%Z with 100%Z.
  change (10 ^ Z.of_nat 1)%Z with 10%Z. change (10 ^ Z.of_nat 0)%Z with 1%Z.
  Z.div_mod_to_equations. lia.
Qed.

Lemma int_of_digits_6 n :
  (0 <= n < 1000000)%Z ->
  int_of_digits [dg n 5; dg n 4; dg n 3; dg n 2; dg n 1; dg n 0] = n.
Proof.
  intros Hn. unfold int_of_digits. cbn [fold_left]. rewrite !dg_val.
  change (10 ^ Z.of_nat 5)%Z with 100000%Z. change (10 ^ Z.of_nat 4)%Z with 10000%Z.
  change (10 ^ Z.of_nat 3)%Z with 1000%Z. change (10 ^ Z.of_nat 2)%Z with 100%Z.
  change (10 ^ Z.of_nat 1)%Z with 10%Z. change (10 ^ Z.of_nat 0)%Z with 1%Z.
  Z.div_mod_to_equations. lia.
Qed.

(** Reading digits that are there. *)
Lemma drop_cons_nth {A : Type} (b : list A) (i : nat) (x d : A) (t : list A) :
  drop i b = x :: t -> nth i b d = x /\ drop (S i) b = t.
Proof.
  revert i. induction b as [|y b IH]; intros i.
  - rewrite drop_nil. discriminate.
  - destruct i as [|i]; simpl.
    + intros [= -> ->]. split; [reflexivity|]. apply drop_0.
    + apply IH.
Qed.

Lemma parse_digits_acc (b : list N) (l rest : list N) (i : nat) (acc : Z) :
  drop i b = l ++ rest -> forallb is_digit l = true ->
  parse_digits b i (length l) acc
  = Some (fold_left (fun a c => (10 * a + (Z.of_N c - 0x30))%Z) l acc).
Proof.
  revert i acc. induction l as [|x l IH]; intros i acc Hdrop Hdig; [reflexivity|].
  cbn [forallb] in Hdig. apply andb_true_iff in Hdig as [Hx Hl].
  cbn [app] in Hdrop. destruct (drop_cons_nth b i x 0%N _ Hdrop) as [Hnth Hrest].
  cbn [length parse_digits fold_left]. unfold byte_at. rewrite Hnth, Hx.
  apply IH; assumption.
Qed.

Lemma parse_digits_spec (b : list N) (i n : nat) (l rest : list N) :
  drop i b = l ++ rest -> length l = n -> forallb is_digit l = true ->
  parse_digits b i n 0 = Some (int_of_digits l).
Proof. intros Hdrop <- Hdig. apply parse_digits_acc with (rest := rest); assumption. Qed.

Lemma fields_ok_bounds d :
  fields_ok d = true ->
  (1 <= year d <= 9999 /\ 1 <= month d <= 12 /\ 1 <= day d <= 31
   /\ 0 <= hour d <= 23 /\ 0 <= minute d <= 59 /\ 0 <= second d <= 59
   /\ 0 <= microsecond d <= 999999
   /\ match tzinfo d with
      | Some off => - day_us < off < day_us
      | None => True
      end)%Z.
Proof.
  unfold fields_ok. rewrite !andb_true_iff, !Z.leb_le.
  intros ((((((((((((((? & ?) & ?) & ?) & ?) & Hd) & ?) & ?) & ?) & ?) & ?) & ?) & ?) & ?) & Htz).
  assert (days_in_month (year d) (month d) <= 31)%Z.
  { unfold days_in_month. repeat destruct (_ =? _)%Z; simpl; try destruct (is_leap _); lia. }
  repeat split; try lia.
  destruct (tzinfo d); [|exact I].
  apply andb_true_iff in Htz as [? ?]. lia.
Qed.

Lemma digit_in_iso_chars (c : N) : (0x30 <= c <= 0x39)%N -> c ∈ iso_chars.
Proof.
  intros Hc.
  assert (Hcases : Forall (fun k => k ∈ iso_chars) (map N.of_nat (seq 48 10)))
    by by_evaluation.
  rewrite Forall_forall in Hcases. apply Hcases.
  apply list_elem_of_fmap. exists (N.to_nat c). split; [lia|].
  apply list_elem_of_In, in_seq. lia.
Qed.

Lemma zero_padded_iso_chars (w : nat) (n : Z) :
  Forall (fun c => c ∈ iso_chars) (zero_padded w n).
Proof.
  unfold zero_padded. apply Forall_fmap, Forall_forall. intros i _. simpl.
  apply digit_in_iso_chars.
  pose proof (Z.mod_pos_bound (n / 10 ^ Z.of_nat (w - 1 - i)) 10 ltac:(lia)). lia.
Qed.

Lemma isoformat_iso_chars (d : datetime) :
  Forall (fun c => c ∈ iso_chars) (isoformat d).
Proof.
  assert (Hlit : Forall (fun c => c ∈ iso_chars) (py "-:T.+")) by by_evaluation.
  assert (Hone : forall c, c ∈ py "-:T.+" -> Forall (fun c => c ∈ iso_chars) [c]).
  { intros c Hc. constructor; [|constructor].
    rewrite Forall_forall in Hlit. apply Hlit, Hc. }
  unfold isoformat, format_offset.
  repeat first
    [ apply Forall_app_2
    | apply zero_padded_iso_chars
    | apply Hone; by_evaluation
    | apply Forall_nil_2
    | match goal with
      | |- Forall _ (if ?b then _ else _) => destruct b
      | |- Forall _ (match ?t with Some _ => _ | None => _ end) => destruct t
      end ].
Qed.

(** A string of Basic Latin is its own UTF-8 form and has no surrogate. *)
Lemma iso_chars_ascii : Forall (fun c => (c <? 0x80)%N = true) iso_chars.
Proof. by_evaluation. Qed.

Lemma encode_ascii (s : str) :
  Forall (fun c => (c <? 0x80)%N = true) s -> encode s = s.
Proof.
  induction 1 as [|c s Hc _ IH]; [reflexivity|].
  change (encode (c :: s)) with (utf8_encode_char c ++ encode s).
  unfold utf8_encode_char. rewrite Hc, IH. reflexivity.
Qed.

Lemma no_surrogate_ascii (c : N) : (c <? 0x80)%N = true -> is_surrogate c = false.
Proof.
  intros Hc. apply N.ltb_lt in Hc. unfold is_surrogate.
  apply andb_false_iff. left. apply N.leb_gt. lia.
Qed.

Lemma fromisoformat_ascii (s : str) :
  Forall (fun c => (c <? 0x80)%N = true) s -> (length s <? 7)%nat = false ->
  fromisoformat s = parse_isoformat_datetime s.
Proof.
  intros Hs Hlen. unfold fromisoformat. rewrite Hlen.
  assert (Hsan : sanitize_isoformat_str s = s).
  { unfold sanitize_isoformat_str.
    assert (Hnone : forall i, match nth_error s i with
                              | Some c => is_surrogate c
                              | None => false
                              end = false).
    { intros i. destruct (nth_error s i) as [c|] eqn:Hi; [|reflexivity].
      apply no_surrogate_ascii. rewrite Forall_forall in Hs. apply Hs.
      apply list_elem_of_In. eapply nth_error_In, Hi. }
    rewrite !filter_cons_False by (rewrite Hnone; discriminate). reflexivity. }
  rewrite Hsan.
  assert (Hnosur : existsb is_surrogate s = false).
  { clear Hlen Hsan. induction Hs as [|c s Hc _ IH]; [reflexivity|].
    cbn [existsb]. rewrite (no_surrogate_ascii c Hc), IH. reflexivity. }
  rewrite Hnosur, encode_ascii by exact Hs. reflexivity.
Qed.

Lemma fromisoformat_isoformat_bytes (d : datetime) :
  fromisoformat (isoformat d) = parse_isoformat_datetime (isoformat d).
Proof.
  apply fromisoformat_ascii.
  - pose proof iso_chars_ascii as Ha. rewrite Forall_forall in Ha.
    eapply Forall_impl; [apply isoformat_iso_chars|]. intros c Hc. apply Ha, Hc.
  - unfold isoformat. rewrite zero_padded_4, !zero_padded_2. reflexivity.
Qed.

(** Where the zone starts, when the bytes before it are known. *)
Lemma tzinfo_pos_found (b pre : list N) (c : N) (post : list N) (p p_end fuel : nat) :
  drop p b = pre ++ c :: post ->
  Forall (fun x => (x =? 0x5A)%N || (x =? 0x2B)%N || (x =? 0x2D)%N = false) pre ->
  (c =? 0x5A)%N || (c =? 0x2B)%N || (c =? 0x2D)%N = true ->
  (length pre <= fuel)%nat -> (p + length pre < p_end)%nat ->
  tzinfo_pos b p p_end fuel = (p + length pre)%nat.
Proof.
  revert p fuel. induction pre as [|x pre IH]; intros p fuel Hdrop Hpre Hc Hfuel Hend.
  - cbn [app] in Hdrop. destruct (drop_cons_nth b p c 0%N _ Hdrop) as [Hnth _].
    cbn [length]. rewrite Nat.add_0_r.
    destruct fuel; cbn [tzinfo_pos]; unfold byte_at; rewrite Hnth, Hc; reflexivity.
  - cbn [app] in Hdrop. destruct (drop_cons_nth b p x 0%N _ Hdrop) as [Hnth Hrest].
    apply Forall_cons in Hpre as [Hx Hpre]. cbn [length] in *.
    destruct fuel as [|fuel]; [lia|].
    cbn [tzinfo_pos]. unfold byte_at at 1 2 3. rewrite Hnth, Hx.
    destruct (Nat.ltb_spec (S p) p_end) as [_|Hge]; [|lia].
    rewrite (IH (S p) fuel Hrest Hpre Hc) by lia. lia.
Qed.

Lemma tzinfo_pos_absent (b pre : list N) (p p_end fuel : nat) :
  drop p b = pre -> pre <> [] -> p_end = length b ->
  Forall (fun x => (x =? 0x5A)%N || (x =? 0x2B)%N || (x =? 0x2D)%N = false) pre ->
  (length pre <= S fuel)%nat ->
  tzinfo_pos b p p_end fuel = p_end.
Proof.
  intros Hdrop Hne -> Hpre Hfuel. revert Hdrop Hne Hpre Hfuel.
  revert p fuel. induction pre as [|x pre IH]; intros p fuel Hdrop Hne Hpre Hfuel;
    [congruence|].
  destruct (drop_cons_nth b p x 0%N _ Hdrop) as [Hnth Hrest].
  apply Forall_cons in Hpre as [Hx Hpre]. cbn [length] in Hfuel.
  assert (Hlen : length b = (p + S (length pre))%nat).
  { assert (Hl : length (drop p b) = S (length pre)) by (rewrite Hdrop; reflexivity).
    rewrite length_drop in Hl.
    assert (p < length b)%nat; [|lia].
    destruct (Nat.lt_ge_cases p (length b)) as [|Hge]; [assumption|].
    rewrite drop_ge in Hdrop by exact Hge. discriminate. }
  destruct pre as [|y pre].
  - cbn [length] in Hlen.
    destruct fuel; cbn [tzinfo_pos]; unfold byte_at; rewrite Hnth, Hx; [lia|].
    destruct (Nat.ltb_spec (S p) (length b)); lia.
  - destruct fuel as [|fuel]; [cbn [length] in Hfuel; lia|].
    cbn [tzinfo_pos]. unfold byte_at at 1 2 3. rewrite Hnth, Hx.
    destruct (Nat.ltb_spec (S p) (length b)) as [_|Hge]; [|cbn [length] in Hlen; lia].
    apply (IH (S p) fuel Hrest); [discriminate|exact Hpre|cbn [length] in *; lia].
Qed.

Local Opaque dg int_of_digits.

Ltac digits :=
  repeat first
    [ rewrite is_digit_dg
    | rewrite dg_eqb by (vm_compute; auto)
    | match goal with
      | |- context [N.eqb (Npos ?p) (Npos ?q)] =>
        let b := eval vm_compute in (N.eqb (Npos p) (Npos q)) in
        change (N.eqb (Npos p) (Npos q)) with b
      | |- context [N.eqb (Npos ?p) N0] =>
        change (N.eqb (Npos p) N0) with false
      | |- context [N.eqb N0 (Npos ?p)] =>
        change (N.eqb N0 (Npos p)) with false
      | |- context [N.eqb N0 N0] =>
        change (N.eqb N0 N0) with true
      | |- context [is_digit (Npos ?p)] =>
        let b := eval vm_compute in (is_digit (Npos p)) in
        change (is_digit (Npos p)) with b
      | |- context [is_digit N0] =>
        change (is_digit N0) with false
      | |- context [utf8_width (Npos ?p)] =>
        let b := eval vm_compute in (utf8_width (Npos p)) in
        change (utf8_width (Npos p)) with b
      | |- context [parse_digits ?b ?i ?n 0%Z] =>
        let l := eval cbn [firstn skipn take drop] in (take n (drop i b)) in
        let r := eval cbn [skipn drop Nat.add] in (drop (i + n) b) in
        rewrite (parse_digits_spec b i n l r eq_refl eq_refl)
          by (cbn [forallb]; rewrite ?is_digit_dg; reflexivity)
      end
    | progress cbn [andb orb negb fst snd option_map length Nat.eqb Nat.ltb Nat.leb
                    Nat.add Nat.sub Nat.min Nat.even take drop firstn skipn nth app
                    byte_at count_digits digits_from parse_hms_fields
                    tzinfo_of] ].

Ltac read_back :=
  rewrite ?int_of_digits_2, ?int_of_digits_4, ?int_of_digits_6 by lia.

Ltac not_zone :=
  repeat constructor; rewrite ?dg_eqb by (vm_compute; auto); reflexivity.

(** [k] bytes of time come before the zone, or before the end. *)
Ltac find_zone k :=
  cbv zeta; cbn [length];
  match goal with
  | |- context [tzinfo_pos ?b ?p ?e ?f] =>
    let pre := eval cbn [firstn skipn take drop] in (take k (drop p b)) in
    let tl := eval cbn [firstn skipn take drop Nat.add] in (drop (p + k) b) in
    lazymatch tl with
    | ?c :: ?post =>
      rewrite (tzinfo_pos_found b pre c post p e f eq_refl)
        by first [ not_zone | cbn [length]; lia ]
    | [] =>
      rewrite (tzinfo_pos_absent b pre p e f eq_refl)
        by first [ discriminate | reflexivity | not_zone | cbn [length]; lia ]
    end
  end.

Ltac parse_bytes k :=
  unfold parse_isoformat_datetime, find_isoformat_datetime_separator; digits;
  unfold parse_isoformat_date; digits;
  unfold parse_isoformat_time; digits; find_zone k; digits;
  unfold parse_hh_mm_ss_ff; digits.

Lemma fromisoformat_isoformat d :
  iso_readable d -> fromisoformat (isoformat d) = Some d.
Proof.
  intros [Hok Hoff]. rewrite fromisoformat_isoformat_bytes.
  pose proof (fields_ok_bounds d Hok) as (Hy & Hm & Hd & Hh & Hmi & Hs & Hus & Htz).
  destruct d as [y m dd hh mi ss us tz]. cbn [year month day hour minute second microsecond tzinfo] in *.
  unfold isoformat. cbn [year month day hour minute second microsecond tzinfo].
  assert (Hfin : forall us' tz', us' = us -> tz' = tz ->
            checked (Datetime y m dd hh mi ss us' tz') = Some (Datetime y m dd hh mi ss us tz)).
  { intros ? ? -> ->. unfold checked. rewrite Hok. reflexivity. }
  change (10 ^ Z.of_nat 0)%Z with 1%Z in *.
  destruct tz as [off|].
  - unfold format_offset, day_us in *.
    set (a := Z.abs off) in *.
    assert (Ha : (0 <= a < 86400000000)%Z) by lia.
    set (th := (a / 3600000000)%Z). set (r := (a mod 3600000000)%Z).
    set (tm := (r / 60000000)%Z). set (r' := (r mod 60000000)%Z).
    set (ts := (r' / 1000000)%Z). set (tu := (r' mod 1000000)%Z).
    assert (Hparts : (0 <= th < 24 /\ 0 <= tm < 60 /\ 0 <= ts < 60 /\ 0 <= tu < 1000000
                      /\ a = ((th * 60 + tm) * 60 + ts) * 1000000 + tu)%Z).
    { subst th tm ts tu r r'. Z.div_mod_to_equations. lia. }
    destruct Hparts as (Hth & Htm & Hts & Htu & Hsum).
    clearbody th tm ts tu. clear r r'.
    rewrite !zero_padded_2, !zero_padded_4, ?zero_padded_6.
    destruct (us =? 0)%Z eqn:Hus0;
      [ destruct (off <? 0)%Z eqn:Hneg;
        destruct (ts =? 0)%Z eqn:Hts0; destruct (tu =? 0)%Z eqn:Htu0;
        cbn [andb]; rewrite ?zero_padded_2, ?zero_padded_6;
        cbn [app]; parse_bytes 8%nat
      | destruct (off <? 0)%Z eqn:Hneg;
        destruct (ts =? 0)%Z eqn:Hts0; destruct (tu =? 0)%Z eqn:Htu0;
        cbn [andb]; rewrite ?zero_padded_2, ?zero_padded_6;
        cbn [app]; parse_bytes 15%nat ].
    all: read_back.
    all: change (10 ^ Z.of_nat 0)%Z with 1%Z.
    all: apply Z.eqb_eq in Hus0 || apply Z.eqb_neq in Hus0.
    all: apply Z.ltb_lt in Hneg || apply Z.ltb_ge in Hneg.
    all: apply Z.eqb_eq in Hts0 || apply Z.eqb_neq in Hts0.
    all: apply Z.eqb_eq in Htu0 || apply Z.eqb_neq in Htu0.
    all: apply Hfin; [lia|].
    all: f_equal.
    all: match goal with
         | |- (if ?c then _ else _) = _ => destruct c eqn:Hsec
         end.
    all: apply Z.eqb_eq in Hsec || apply Z.eqb_neq in Hsec.
    all: lia.
  - unfold format_offset. rewrite ?app_nil_r.
    destruct (us =? 0)%Z eqn:Hus0;
      rewrite ?zero_padded_2, ?zero_padded_4, ?zero_padded_6;
      cbn [app]; [parse_bytes 8%nat | parse_bytes 15%nat]; read_back.
    all: change (10 ^ Z.of_nat 0)%Z with 1%Z.
    all: apply Z.eqb_eq in Hus0 || apply Z.eqb_neq in Hus0.
    all: apply Hfin; [lia | reflexivity].
Qed.

Lemma lstrip_no_space (s : str) :
  Forall (fun c => isspace c = false) s -> lstrip s = s.
Proof. intros Hs. destruct Hs as [|c s Hc _]; simpl; [reflexivity|]. rewrite Hc. reflexivity. Qed.

Lemma strip_no_space (s : str) :
  Forall (fun c => isspace c = false) s -> strip s = s.
Proof.
  intros Hs. unfold strip, rstrip. rewrite (lstrip_no_space s Hs).
  rewrite lstrip_no_space; [apply rev_involutive|].
  apply Forall_forall. intros c Hc. rewrite Forall_forall in Hs. apply Hs.
  apply list_elem_of_In, in_rev, list_elem_of_In in Hc. exact Hc.
Qed.

Lemma replace_absent (c : N) (r s : str) :
  Forall (fun x => (x =? c)%N = false) s -> replace c r s = s.
Proof.
  unfold replace. induction 1 as [|x s Hx _ IH]; simpl; [reflexivity|].
  rewrite Hx, IH. reflexivity.
Qed.

Lemma iso_chars_plain :
  Forall (fun c => isspace c = false /\ (c =? 0x5A)%N = false) iso_chars.
Proof. by_evaluation. Qed.

Lemma parse_datetime_isoformat (d : datetime) :
  iso_readable d -> _parse_datetime (isoformat d) = Returned (Some d).
Proof.
  intros Hok.
  assert (Hplain : Forall (fun c => isspace c = false /\ (c =? 0x5A)%N = false)
                          (isoformat d)).
  { pose proof iso_chars_plain as Hp. rewrite Forall_forall in Hp.
    eapply Forall_impl; [apply isoformat_iso_chars|]. intros c Hc. apply Hp, Hc. }
  assert (Hstrip : strip (isoformat d) = isoformat d).
  { apply strip_no_space. eapply Forall_impl; [exact Hplain|].
    intros c [Hc _]. exact Hc. }
  assert (Hrepl : replace 0x5A%N (py "+00:00") (isoformat d) = isoformat d).
  { apply replace_absent. eapply Forall_impl; [exact Hplain|].
    intros c [_ Hc]. exact Hc. }
  assert (Hne : is_empty (isoformat d) = false).
  { unfold isoformat. rewrite zero_padded_4. reflexivity. }
  unfold _parse_datetime. rewrite Hstrip, Hne, Hrepl, fromisoformat_isoformat by exact Hok.
  reflexivity.
Qed.

End IsoRoundTrip.

(** *** What [fromisoformat] gives *)

Lemma parse_digits_bounds (b : list N) (n i : nat) (acc v : Z) :
  parse_digits b i n acc = Some v -> (0 <= acc)%Z ->
  (acc * 10 ^ Z.of_nat n <= v < (acc + 1) * 10 ^ Z.of_nat n)%Z.
Proof.
  revert i acc. induction n as [|n IH]; intros i acc.
  - cbn [parse_digits]. intros [= <-] Hacc. change (10 ^ Z.of_nat 0)%Z with 1%Z. lia.
  - cbn [parse_digits].
    destruct (is_digit (byte_at b i)) eqn:Hdig; [|discriminate].
    intros Hv Hacc. unfold is_digit in Hdig.
    apply andb_true_iff in Hdig as [Hlo Hhi]. apply N.leb_le in Hlo, Hhi.
    specialize (IH _ _ Hv ltac:(lia)).
    rewrite Nat2Z.inj_succ, Z.pow_succ_r by lia.
    pose proof (Z.pow_pos_nonneg 10 (Z.of_nat n) ltac:(lia) ltac:(lia)). nia.
Qed.

Lemma parse_hms_fields_nonneg (b : list N) (todo p p_end : nat)
    (first has_separator : bool) (vals : list Z) (r : hms_loop) :
  parse_hms_fields b p p_end todo first has_separator vals = Some r ->
  Forall (fun v => (0 <= v)%Z) vals ->
  Forall (fun v => (0 <= v)%Z)
         (match r with HmsEnd vals' _ => vals' | HmsFraction vals' _ => vals' end).
Proof.
  revert p first has_separator vals.
  induction todo as [|todo IH]; intros p first has_separator vals.
  - cbn [parse_hms_fields]. intros [= <-] Hvals. exact Hvals.
  - cbn [parse_hms_fields].
    destruct (parse_digits b p 2 0) as [v|] eqn:Hv; [|discriminate].
    pose proof (parse_digits_bounds b 2 p 0 v Hv ltac:(lia)) as Hb.
    intros Hr Hvals.
    assert (Hvals' : Forall (fun v => (0 <= v)%Z) (vals ++ [v])).
    { apply Forall_app. split; [exact Hvals|]. constructor; [lia|constructor]. }
    repeat match type of Hr with
           | (if ?c then _ else _) = Some _ => destruct c
           end;
      first [ discriminate Hr
            | injection Hr as <-; exact Hvals'
            | eapply IH; eassumption ].
Qed.

Lemma nth_nonneg (vals : list Z) (i : nat) :
  Forall (fun v => (0 <= v)%Z) vals -> (0 <= nth i vals 0)%Z.
Proof.
  intros Hvals. revert i. induction Hvals as [|v vals Hv _ IH]; intros [|i]; simpl; auto; lia.
Qed.

Lemma parse_hh_mm_ss_ff_bounds (b : list N) (p p_end : nat) (h m s us : Z) (more : bool) :
  parse_hh_mm_ss_ff b p p_end = Some (h, m, s, us, more) ->
  (0 <= h /\ 0 <= m /\ 0 <= s /\ 0 <= us < 1000000)%Z.
Proof.
  unfold parse_hh_mm_ss_ff.
  destruct (parse_hms_fields b p p_end 3 true true []) as [r|] eqn:Hr; [|discriminate].
  pose proof (parse_hms_fields_nonneg _ _ _ _ _ _ _ _ Hr ltac:(constructor)) as Hvals.
  destruct r as [vals more'|vals q]; cbn in Hvals.
  - intros [= <- <- <- <- <-]. repeat split; try (apply nth_nonneg, Hvals); lia.
  - set (to_parse := Nat.min 6 (p_end - q)).
    destruct (parse_digits b q to_parse 0) as [us0|] eqn:Hus; [|discriminate].
    intros [= <- <- <- <- <-].
    pose proof (parse_digits_bounds _ _ _ _ _ Hus ltac:(lia)) as Hb.
    assert (Hle : (to_parse <= 6)%nat) by (subst to_parse; lia).
    assert (Hpow : (10 ^ Z.of_nat to_parse * 10 ^ Z.of_nat (6 - to_parse) = 1000000)%Z).
    { rewrite <- Z.pow_add_r by lia.
      replace (Z.of_nat to_parse + Z.of_nat (6 - to_parse))%Z with 6%Z by lia.
      reflexivity. }
    pose proof (Z.pow_pos_nonneg 10 (Z.of_nat (6 - to_parse)) ltac:(lia) ltac:(lia)).
    repeat split; try (apply nth_nonneg, Hvals); nia.
Qed.

Lemma parse_isoformat_time_offset (b : list N) (p : nat) (hh mm ss us : Z)
    (tz : option (Z * Z)) :
  parse_isoformat_time b p = Some (hh, mm, ss, us, tz) ->
  match tzinfo_of tz with
  | Some off => off = 0%Z \/ (1000000 <= Z.abs off)%Z
  | None => True
  end.
Proof.
  unfold parse_isoformat_time.
  destruct (parse_hh_mm_ss_ff b p _) as [[[[[h m] s] u] more]|]; [|discriminate].
  destruct (_ <=? _)%nat.
  { destruct more; [discriminate|]. intros [= _ _ _ _ <-]. exact I. }
  destruct (byte_at b _ =? 0x5A)%N.
  { destruct (_ =? 0)%N; [|discriminate]. intros [= _ _ _ _ <-]. left. reflexivity. }
  destruct (parse_hh_mm_ss_ff b _ _) as [[[[[th tm] ts] tu] more']|] eqn:Htz; [|discriminate].
  destruct more'; [discriminate|].
  intros [= _ _ _ _ <-].
  destruct (parse_hh_mm_ss_ff_bounds _ _ _ _ _ _ _ _ Htz) as (Hth & Htm & Hts & Htu).
  cbn [tzinfo_of].
  match goal with
  | |- (if (?x =? 0)%Z then _ else _) = _ \/ _ =>
    destruct (Z.eqb_spec x 0) as [He|Hne]; [left; reflexivity|]
  end.
  right. revert Hne. destruct (byte_at b _ =? 0x2D)%N; lia.
Qed.

Lemma fromisoformat_readable (s : str) (d : datetime) :
  fromisoformat s = Some d -> iso_readable d.
Proof.
  assert (Hchk : forall x, checked x = Some d -> fields_ok d = true /\ x = d).
  { intros x. unfold checked. destruct (fields_ok x) eqn:Hok; [|discriminate].
    intros [= <-]. auto. }
  unfold fromisoformat. destruct (_ <? 7)%nat; [discriminate|].
  destruct (existsb _ _); [discriminate|].
  unfold parse_isoformat_datetime.
  destruct (find_isoformat_datetime_separator _) as [sep|]; [|discriminate].
  destruct (parse_isoformat_date _ _) as [[[y m] dd]|]; [|discriminate].
  destruct (_ <? _)%nat.
  - destruct (parse_isoformat_time _ _) as [[[[[hh mm] ss] us] tz]|] eqn:Ht; [|discriminate].
    intros Hd. destruct (Hchk _ Hd) as [Hok <-]. split; [exact Hok|].
    cbn [tzinfo]. eapply parse_isoformat_time_offset, Ht.
  - intros Hd. destruct (Hchk _ Hd) as [Hok <-]. split; [exact Hok | exact I].
Qed.

(** What [_parse_datetime] returns passed the checks of the [datetime]
    constructor, and [isoformat] writes it so that it reads back. *)
Lemma parse_datetime_checked (text : str) (dt : datetime) :
  _parse_datetime text = Returned (Some dt) -> iso_readable dt.
Proof.
  unfold _parse_datetime.
  destruct (is_empty text); [discriminate|].
  destruct (is_empty (strip text)); [discriminate|].
  assert (Hctor : forall g,
             (x ← datetime_of_groups g; mret (Some x)) = Returned (Some dt) ->
             iso_readable dt).
  { intros [[y m] d]. unfold datetime_of_groups, datetime_ymd, make.
    destruct (fields_ok _) eqn:Hok; simpl; [|discriminate].
    intros [= <-]. split; [exact Hok | exact I]. }
  destruct (fromisoformat _) as [x|] eqn:Hiso.
  - intros [= <-]. eapply fromisoformat_readable, Hiso.
  - destruct (search_numeric _); [apply Hctor|].
    destruct (search_chinese _); [apply Hctor | discriminate].
Qed.

(** ** Dates: enrichment and the same-day filter *)

Lemma lstrip_snoc_nonspace (u : str) (c : N) :
  isspace c = false -> lstrip (u ++ [c]) = lstrip u ++ [c].
Proof.
  intros Hc. induction u as [|x u IH]; simpl.
  - rewrite Hc. reflexivity.
  - destruct (isspace x); [exact IH | reflexivity].
Qed.

Lemma lstrip_idempotent (s : str) : lstrip (lstrip s) = lstrip s.
Proof.
  induction s as [|c s IH]; simpl; [reflexivity|].
  destruct (isspace c) eqn:Hc; [exact IH|]. simpl. rewrite Hc. reflexivity.
Qed.

Lemma lstrip_head (s : str) :
  lstrip s = [] \/ exists c r, lstrip s = c :: r /\ isspace c = false.
Proof.
  induction s as [|c s IH]; simpl; [left; reflexivity|].
  destruct (isspace c) eqn:Hc; [exact IH|]. right. eauto.
Qed.

Lemma rstrip_cons_nonspace (c : N) (r : str) :
  isspace c = false -> rstrip (c :: r) = c :: rstrip r.
Proof.
  intros Hc. unfold rstrip. simpl.
  rewrite lstrip_snoc_nonspace by exact Hc. rewrite rev_app_distr. reflexivity.
Qed.

Lemma strip_idempotent (s : str) : strip (strip s) = strip s.
Proof.
  unfold strip.
  assert (Hr : forall t, rstrip (rstrip t) = rstrip t).
  { intros t. unfold rstrip. rewrite rev_involutive, lstrip_idempotent. reflexivity. }
  destruct (lstrip_head s) as [->|(c & r & -> & Hc)].
  - reflexivity.
  - rewrite rstrip_cons_nonspace by exact Hc. simpl. rewrite Hc.
    rewrite rstrip_cons_nonspace by exact Hc. rewrite Hr. reflexivity.
Qed.

Lemma strip_all_space (s : str) : Forall (fun c => isspace c = true) s -> strip s = [].
Proof.
  intros Hs. unfold strip.
  assert (Hl : lstrip s = []).
  { induction Hs as [|c s Hc _ IH]; simpl; [reflexivity|]. rewrite Hc. exact IH. }
  rewrite Hl. reflexivity.
Qed.

(** X1.  White space around a date plays no part: a text is read as the
    text stripped is, and a text of white space only, like the empty text,
    gives no date and no exception. *)
Theorem parse_datetime_ignores_surrounding_space (text : str) :
  _parse_datetime text = _parse_datetime (strip text)
  /\ (Forall (fun c => isspace c = true) text ->
      _parse_datetime text = Returned None).
Proof.
  split.
  - unfold _parse_datetime. rewrite strip_idempotent.
    destruct text as [|c text]; [reflexivity|].
    cbn [is_empty]. destruct (is_empty (strip (c :: text))); reflexivity.
  - intros Hs. unfold _parse_datetime. rewrite (strip_all_space _ Hs).
    destruct (is_empty text); reflexivity.
Qed.

Lemma parse_datetime_ignores_surrounding_space_witness :
  _parse_datetime (py "   ") = Returned None.
Proof.
  exact (proj2 (parse_datetime_ignores_surrounding_space (py "   "))
               ltac:(by_evaluation)).
Defined.

Lemma enrich_shape `{Network} (a a' : NewsArticle) (dt : datetime) :
  _enrich_published_at a = Returned (a', Some dt) ->
  a' = set_published_at (Some (isoformat dt)) a /\ iso_readable dt.
Proof.
  unfold _enrich_published_at. cbv [mret outcome_ret mbind outcome_bind].
  destruct (_parse_datetime (default [] (published_at a))) as [[x|]|e] eqn:Hhint;
    [| |discriminate].
  - intros [= <- <-]. split; [reflexivity|]. eapply parse_datetime_checked, Hhint.
  - destruct (_fetch_page (url a)) as [soup|]; [|discriminate].
    destruct (_parse_datetime (_extract_published_from_soup soup))
      as [[x|]|e] eqn:Hpage; try discriminate.
    intros [= <- <-]. split; [reflexivity|]. eapply parse_datetime_checked, Hpage.
Qed.

(** X2.  Enriching an enriched article changes nothing and needs no page:
    the ISO string written into [published_at] reads back as the timestamp
    it was written from, whatever the network answers. *)
Theorem enrich_published_at_idempotent
    (net net' : Network) (a a' : NewsArticle) (dt : datetime) :
  @_enrich_published_at net a = Returned (a', Some dt) ->
  @_enrich_published_at net' a' = Returned (a', Some dt).
Proof.
  intros Hfirst. destruct (enrich_shape a a' dt Hfirst) as [-> Hok].
  unfold _enrich_published_at.
  change (default [] (published_at (set_published_at (Some (isoformat dt)) a)))
    with (isoformat dt).
  rewrite parse_datetime_isoformat by exact Hok. reflexivity.
Qed.

Lemma enrich_published_at_idempotent_witness :
  @_enrich_published_at offline
     (article "GPT-5 is out" "https://example.com/a"
              (Some (py "2026-02-07T00:00:00")))
  = Returned (article "GPT-5 is out" "https://example.com/a"
                      (Some (py "2026-02-07T00:00:00")),
              Some (Datetime 2026 2 7 0 0 0 0 None)).
Proof.
  exact (enrich_published_at_idempotent dated_site offline
           (article "GPT-5 is out" "https://example.com/a" (Some (py "yesterday")))
           _ _ ltac:(vm_compute; reflexivity)).
Defined.

Section TodayFilter.

Context {net : Network} {clk : Clock}.

Lemma filter_today_cons (a : NewsArticle) (rest : list NewsArticle) :
  _filter_today_articles (a :: rest)
  = match _enrich_published_at a with
    | Raised e => Raised e
    | Returned (a', dt) =>
      match (match dt with Some d => _is_today d | None => Returned false end) with
      | Raised e => Raised e
      | Returned today =>
        match _filter_today_articles rest with
        | Raised e => Raised e
        | Returned kept => Returned (if today then a' :: kept else kept)
        end
      end
    end.
Proof.
  cbn [_filter_today_articles]. cbv [mbind outcome_bind mret outcome_ret].
  destruct (_enrich_published_at a) as [[a' [d|]]|e]; reflexivity.
Qed.

Lemma filter_today_kept (articles kept : list NewsArticle) :
  _filter_today_articles articles = Returned kept ->
  (exists sub, sub `sublist_of` articles /\ Forall2 dated_today sub kept)
  /\ Forall (fun a => forall a' dt,
               _enrich_published_at a = Returned (a', Some dt) ->
               _is_today dt = Returned true -> a' ∈ kept) articles.
Proof.
  revert kept. induction articles as [|a rest IH]; intros kept.
  - intros [= <-]. split; [|constructor]. exists []. split; constructor.
  - rewrite filter_today_cons.
    destruct (_enrich_published_at a) as [[a' dt]|e] eqn:Ha; [|discriminate].
    destruct dt as [d|].
    + destruct (_is_today d) as [today|e] eqn:Htoday; [|discriminate].
      destruct (_filter_today_articles rest) as [kept'|e]; [|discriminate].
      destruct (IH kept' eq_refl) as [(sub & Hsub & Hdated) Hall].
      intros [= <-]. destruct today.
      * split.
        -- exists (a :: sub). split; [by apply sublist_skip|].
           constructor; [|exact Hdated]. exists d.
           destruct (enrich_shape a a' d Ha) as [-> _]. auto.
        -- constructor.
           ++ intros a'' dt' Heq _. rewrite Ha in Heq. injection Heq as <- <-. left.
           ++ eapply Forall_impl; [exact Hall|]. intros x Hx a'' dt' H1 H2.
              right. eapply Hx; eauto.
      * split.
        -- exists sub. split; [by apply sublist_cons | exact Hdated].
        -- constructor; [|exact Hall]. intros a'' dt' Heq Hyes.
           rewrite Ha in Heq. injection Heq as <- <-. congruence.
    + destruct (_filter_today_articles rest) as [kept'|e]; [|discriminate].
      destruct (IH kept' eq_refl) as [(sub & Hsub & Hdated) Hall].
      intros [= <-]. split.
      * exists sub. split; [by apply sublist_cons | exact Hdated].
      * constructor; [|exact Hall]. intros a'' dt' Heq.
        rewrite Ha in Heq. discriminate Heq.
Qed.

Lemma filter_today_raises (articles : list NewsArticle) (e : exn) :
  _filter_today_articles articles = Raised e
  <-> exists before a after,
        articles = before ++ a :: after
        /\ Forall examination_returns before
        /\ examination_raises a e.
Proof.
  induction articles as [|a rest IH].
  - split; [discriminate|]. intros (before & x & after & Heq & _).
    destruct before; discriminate.
  - rewrite filter_today_cons. split.
    + destruct (_enrich_published_at a) as [[a' dt]|e'] eqn:Ha.
      * destruct (match dt with Some d => _is_today d | None => Returned false end)
          as [today|e'] eqn:Htoday.
        -- destruct (_filter_today_articles rest) as [kept|e'']; [discriminate|].
           intros [= ->].
           destruct (proj1 IH eq_refl) as (before & x & after & -> & Hb & Hx).
           exists (a :: before), x, after. split; [reflexivity|].
           split; [|exact Hx]. constructor; [|exact Hb].
           exists a', dt. split; [exact Ha|].
           destruct dt as [d|]; [|exact I]. exists today. exact Htoday.
        -- intros [= ->]. destruct dt as [d|]; [|discriminate].
           exists [], a, rest. split; [reflexivity|].
           split; [constructor|]. right. exists a', d. auto.
      * intros [= ->]. exists [], a, rest. split; [reflexivity|].
        split; [constructor|]. left. exact Ha.
    + intros (before & x & after & Heq & Hb & Hx).
      destruct before as [|b before]; simpl in Heq; injection Heq as <- ->.
      * destruct Hx as [Hx|(a' & d & Hx & Hd)]; rewrite Hx; [reflexivity|].
        rewrite Hd. reflexivity.
      * apply Forall_cons in Hb as [(a' & dt & Hr & Hdt) Hb]. rewrite Hr.
        assert (Hret : exists today,
                   match dt with Some d => _is_today d | None => Returned false end
                   = Returned today).
        { destruct dt as [d|]; [exact Hdt|]. exists false. reflexivity. }
        destruct Hret as (today & ->).
        rewrite (proj2 IH); [reflexivity|]. eauto 6.
Qed.

End TodayFilter.

(** X3.  The same-day filter returns, in the order of its input, the
    articles enrichment dates today, each with [published_at] set to the
    ISO form of that date and nothing else changed; an article it leaves
    out has no date or another day's, and one dated today is never left
    out. *)
Theorem filter_today_keeps_the_dated
    (net : Network) (clk : Clock) (articles kept : list NewsArticle) :
  _filter_today_articles articles = Returned kept ->
  (exists sub, sub `sublist_of` articles /\ Forall2 dated_today sub kept)
  /\ Forall (fun a => forall a' dt,
               _enrich_published_at a = Returned (a', Some dt) ->
               _is_today dt = Returned true -> a' ∈ kept) articles
  /\ length kept <= length articles.
Proof.
  intros Hkept. destruct (filter_today_kept articles kept Hkept) as [Hsub Hall].
  split; [exact Hsub|]. split; [exact Hall|].
  destruct Hsub as (sub & Hsub & Hdated).
  rewrite <- (Forall2_length _ _ _ Hdated). apply sublist_length, Hsub.
Qed.

Lemma filter_today_keeps_the_dated_witness :
  exists sub,
    sub `sublist_of` [article "GPT-5 is out" "https://example.com/a"
                              (Some (py "2025-12-31")); gpt5_claude]
    /\ Forall2 (@dated_today dated_site fixed_clock) sub
               [set_published_at (Some (py "2026-02-07T00:00:00")) gpt5_claude].
Proof.
  exact (proj1 (filter_today_keeps_the_dated dated_site fixed_clock
                  [article "GPT-5 is out" "https://example.com/a"
                           (Some (py "2025-12-31")); gpt5_claude]
                  [set_published_at (Some (py "2026-02-07T00:00:00")) gpt5_claude]
                  ltac:(vm_compute; reflexivity))).
Defined.

(** X4.  The same-day filter raises exactly when it comes to an article
    whose enrichment raises, or whose enrichment gives a date of which the
    day test raises (the conversion of an aware date to local time
    overflows at the edges of the calendar), while every article before it
    is enriched, and tested where it has a date, without an exception.  The
    exception is that of this article; no article after it is looked at. *)
Theorem filter_today_raises_at_first_failure
    (net : Network) (clk : Clock) (articles : list NewsArticle) (e : exn) :
  _filter_today_articles articles = Raised e
  <-> exists before a after,
        articles = before ++ a :: after
        /\ Forall examination_returns before
        /\ examination_raises a e.
Proof. apply filter_today_raises. Qed.

Lemma filter_today_raises_at_first_failure_witness :
  @_enrich_published_at offline first_instant
  = Returned (first_instant, Some (Datetime 1 1 1 0 0 0 0 (Some 28800000000%Z)))
  /\ @_filter_today_articles offline edge_clock [gpt5_claude; first_instant; gpt5_first]
     = Raised OverflowError.
Proof.
  split; [vm_compute; reflexivity|].
  apply (proj2 (filter_today_raises_at_first_failure offline edge_clock
                  [gpt5_claude; first_instant; gpt5_first] OverflowError)).
  exists [gpt5_claude], first_instant, [gpt5_first].
  split; [reflexivity|]. split.
  - constructor; [|constructor]. exists gpt5_claude, None.
    split; [vm_compute; reflexivity | exact I].
  - right. exists first_instant, (Datetime 1 1 1 0 0 0 0 (Some 28800000000%Z)).
    split; vm_compute; reflexivity.
Defined.

(** ** The deduplicator and the entry point: what the result never has *)

(** X5.  No two articles of a deduplicated list have the same [uid], the
    same title key or the same url: two articles at different places of
    the result are never duplicates of each other. *)
Theorem deduplicate_no_two_alike (articles : list NewsArticle) :
  NoDup (uid <$> _deduplicate articles)
  /\ NoDup (title_key <$> _deduplicate articles)
  /\ NoDup (url <$> _deduplicate articles)
  /\ (forall i j a b,
        i <> j ->
        _deduplicate articles !! i = Some a ->
        _deduplicate articles !! j = Some b ->
        ~ duplicates a b).
Proof.
  destruct (deduplicate_distinct articles) as [Hu Ht].
  split; [exact Hu|]. split; [exact Ht|]. split.
  - apply (NoDup_fmap_1 hash12).
    rewrite <- list_fmap_compose. exact Hu.
  - intros i j a b Hij Ha Hb [Hsame|Hsame].
    + apply Hij. eapply NoDup_lookup; [exact Hu| |].
      * rewrite list_lookup_fmap, Ha. reflexivity.
      * rewrite list_lookup_fmap, Hb, Hsame. reflexivity.
    + apply Hij. eapply NoDup_lookup; [exact Ht| |].
      * rewrite list_lookup_fmap, Ha. reflexivity.
      * rewrite list_lookup_fmap, Hb, Hsame. reflexivity.
Qed.

(** X6.  A list in which no two articles have the same [uid] and no two
    the same title key is returned as it is: the deduplicator drops
    nothing it need not drop. *)
Theorem deduplicate_keeps_distinct_list (articles : list NewsArticle) :
  NoDup (uid <$> articles) ->
  NoDup (title_key <$> articles) ->
  _deduplicate articles = articles.
Proof.
  intros Hu Ht. unfold _deduplicate.
  apply (dedup_run_fixed articles dedup_start dedup_inv_start).
  split; assumption.
Qed.

Lemma deduplicate_keeps_distinct_list_witness :
  _deduplicate [gpt5_first; gpt5_claude] = [gpt5_first; gpt5_claude].
Proof.
  exact (deduplicate_keeps_distinct_list [gpt5_first; gpt5_claude]
           ltac:(by_evaluation) ltac:(by_evaluation)).
Defined.

Section CrawlResult.

Context {net : Network} {clk : Clock} {cfg : Config}.

Lemma dated_today_keys (sub kept : list NewsArticle) :
  Forall2 dated_today sub kept ->
  uid <$> kept = uid <$> sub /\ title_key <$> kept = title_key <$> sub.
Proof.
  induction 1 as [|a a' sub kept (dt & _ & -> & _) _ [IHu IHt]]; [split; reflexivity|].
  cbn [fmap list_fmap]. rewrite IHu, IHt. split; reflexivity.
Qed.

Lemma distinct_keys_sublist (l k : list NewsArticle) :
  l `sublist_of` k -> distinct_keys k -> distinct_keys l.
Proof.
  intros Hsub [Hu Ht]. split.
  - apply (sublist_NoDup (uid <$> l) (uid <$> k)); [exact Hu | by apply fmap_sublist].
  - apply (sublist_NoDup (title_key <$> l) (title_key <$> k));
      [exact Ht | by apply fmap_sublist].
Qed.

Lemma slice_to_sublist {A : Type} (n : Z) (l : list A) : slice_to n l `sublist_of` l.
Proof. unfold slice_to. destruct (n <? 0)%Z; apply sublist_take. Qed.

Lemma surviving_articles_distinct (all_articles survivors : list NewsArticle) :
  surviving_articles all_articles = Returned survivors ->
  distinct_keys survivors
  /\ Forall (fun x => category x ∈ category_order) survivors
  /\ Forall (fun x => exists a, a ∈ all_articles
                                /\ title x = title a /\ url x = url a
                                /\ summary x = summary a /\ source x = source a)
            survivors
  /\ (NEWS_TODAY_ONLY = true ->
      Forall (fun x => exists dt, published_at x = Some (isoformat dt)
                                  /\ _is_today dt = Returned true) survivors).
Proof.
  unfold surviving_articles. cbv [mbind outcome_bind mret outcome_ret].
  pose proof (deduplicate_distinct all_articles) as Hd.
  pose proof (deduplicate_sublist all_articles) as Hsub.
  set (label := fun article => set_category (_categorize article) article).
  assert (Hkeys : forall l, uid <$> (map label l) = uid <$> l
                            /\ title_key <$> (map label l) = title_key <$> l).
  { intros l. induction l as [|x l [IHu IHt]]; [split; reflexivity|].
    cbn [map fmap list_fmap]. split; f_equal; assumption. }
  assert (Hcat : forall l, Forall (fun x => category x ∈ category_order) (map label l)).
  { intros l. apply Forall_fmap, Forall_forall. intros x _. apply categorize_label. }
  destruct NEWS_TODAY_ONLY.
  - destruct (_filter_today_articles _) as [kept|e] eqn:Hkept; [|discriminate].
    intros [= <-].
    destruct (filter_today_kept _ _ Hkept) as [(sub & Hsub' & Hdated) _].
    destruct (dated_today_keys _ _ Hdated) as [Hu Ht].
    destruct (distinct_keys_sublist _ _ Hsub' Hd) as [Hdu Hdt].
    destruct (Hkeys kept) as [Hku Hkt].
    split; [split; [rewrite Hku, Hu | rewrite Hkt, Ht]; assumption|].
    split; [apply Hcat|]. split.
    + apply Forall_fmap. eapply Forall2_Forall_r; [exact Hdated|].
      apply Forall_forall. intros a Ha x (dt & _ & -> & _).
      exists a. split; [|auto].
      eapply elem_of_sublist; [|exact Hsub]. eapply elem_of_sublist; eauto.
    + intros _. apply Forall_fmap. eapply Forall2_Forall_r; [exact Hdated|].
      apply Forall_forall. intros a Ha x (dt & _ & -> & Htoday).
      exists dt. auto.
  - intros [= <-]. destruct (Hkeys (_deduplicate all_articles)) as [Hku Hkt].
    destruct Hd as [Hdu Hdt].
    split; [split; [rewrite Hku | rewrite Hkt]; assumption|].
    split; [apply Hcat|]. split; [|discriminate].
    apply Forall_fmap, Forall_forall. intros a Ha. exists a.
    split; [|auto]. eapply elem_of_sublist; eauto.
Qed.

End CrawlResult.

(** X7.  Whatever the candidates, the cap and the configuration, the list
    [crawl_ai_news] returns has no two articles with the same [uid], title
    key or url; every article has one of the six category labels; every
    article is one of the candidates as to title, url, summary and source;
    with the same-day filter on, every article carries the ISO form of a
    date of today; and a cap that is not negative bounds the length. *)
Theorem crawl_result_invariants
    (net : Network) (clk : Clock) (cfg : Config)
    (all_articles result : list NewsArticle) (max_articles : Z) :
  crawl_ai_news all_articles max_articles = Returned result ->
  NoDup (uid <$> result)
  /\ NoDup (title_key <$> result)
  /\ NoDup (url <$> result)
  /\ Forall (fun x => category x ∈ category_order) result
  /\ Forall (fun x => exists a, a ∈ all_articles
                                /\ title x = title a /\ url x = url a
                                /\ summary x = summary a /\ source x = source a)
            result
  /\ (NEWS_TODAY_ONLY = true ->
      Forall (fun x => exists dt, published_at x = Some (isoformat dt)
                                  /\ _is_today dt = Returned true) result)
  /\ ((0 <= effective_cap max_articles)%Z ->
      (len_list result <= effective_cap max_articles)%Z).
Proof.
  rewrite crawl_ai_news_cuts_survivors. cbv [mbind outcome_bind mret outcome_ret].
  destruct (surviving_articles all_articles) as [survivors|e] eqn:Hs; [|discriminate].
  intros [= <-].
  destruct (surviving_articles_distinct _ _ Hs) as (Hd & Hcat & Hfrom & Hdate).
  pose proof (slice_to_sublist (effective_cap max_articles) survivors) as Hsub.
  destruct (distinct_keys_sublist _ _ Hsub Hd) as [Hu Ht].
  assert (Hall : forall P : NewsArticle -> Prop,
             Forall P survivors ->
             Forall P (slice_to (effective_cap max_articles) survivors)).
  { intros P HP. apply Forall_forall. intros x Hx. rewrite Forall_forall in HP.
    apply HP. eapply elem_of_sublist; eauto. }
  split; [exact Hu|]. split; [exact Ht|]. split.
  { apply (NoDup_fmap_1 hash12). rewrite <- list_fmap_compose. exact Hu. }
  split; [apply Hall, Hcat|]. split; [apply Hall, Hfrom|].
  split; [intros Hon; apply Hall, Hdate, Hon|].
  intros Hcap. rewrite slice_to_nonneg by exact Hcap.
  unfold len_list. rewrite length_take. lia.
Qed.

Lemma crawl_result_invariants_witness :
  NoDup (url <$> [set_category (_categorize gpt5_first) gpt5_first]).
Proof.
  exact (proj1 (proj2 (proj2
           (crawl_result_invariants offline fixed_clock (config 15 false)
              [gpt5_first; gpt5_same_url; gpt5_same_title]
              [set_category (_categorize gpt5_first) gpt5_first] 0
              ltac:(vm_compute; reflexivity))))).
Defined.

(** ** Text extraction: bounds *)

(** X8.  What [_extract_text] returns for a maximum that is not negative
    is never longer than the maximum plus the three characters of the
    ellipsis; a missing element gives the empty string, and so does an
    element whose strings are all white space: no bare ellipsis is
    produced. *)
Theorem extract_text_bounded (element : option Tag) (max_len : Z) :
  (0 <= max_len)%Z ->
  (len (_extract_text element max_len) <= max_len + 3)%Z
  /\ _extract_text None max_len = []
  /\ (forall el, Forall (Forall (fun c => isspace c = true)) (strings el) ->
                 _extract_text (Some el) max_len = []).
Proof.
  intros Hmax. split; [|split].
  - destruct element as [el|]; [|unfold len; simpl; lia].
    unfold _extract_text, len.
    destruct (Z.ltb_spec max_len (Z.of_nat (length (get_text_strip el)))).
    + rewrite slice_to_nonneg by exact Hmax.
      rewrite length_app, length_take. change (length ellipsis) with 3%nat. lia.
    + lia.
  - reflexivity.
  - intros el Hblank.
    assert (Htext : get_text_strip el = []).
    { unfold get_text_strip. induction Hblank as [|s ss Hs _ IH]; [reflexivity|].
      cbn [map]. rewrite (strip_all_space s Hs).
      rewrite filter_cons_False by (intros H; apply H; reflexivity). exact IH. }
    unfold _extract_text. rewrite Htext.
    destruct (Z.ltb_spec max_len (len [])); [unfold len in *; simpl in *; lia|].
    reflexivity.
Qed.

Lemma extract_text_bounded_witness :
  (len (_extract_text (Some headline_tag) 12) <= 12 + 3)%Z.
Proof.
  exact (proj1 (extract_text_bounded (Some headline_tag) 12
                  ltac:(vm_compute; discriminate))).
Defined.

(** ** The document *)

Section Blocks.

Lemma link_urls_app (l k : list block) :
  link_urls (l ++ k) = link_urls l ++ link_urls k.
Proof. apply omap_app. Qed.

Lemma link_urls_article (idx : nat) (a : NewsArticle) :
  link_urls (article_blocks idx a) = [url a].
Proof.
  unfold article_blocks. rewrite !link_urls_app.
  destruct (is_empty (summary a)); destruct (published_at a) as [[|c p]|]; reflexivity.
Qed.

Lemma link_urls_articles (l : list NewsArticle) (f : nat -> nat) :
  link_urls (concat (imap (fun i a => article_blocks (f i) a) l)) = url <$> l.
Proof.
  revert f. induction l as [|a l IH]; intros f; [reflexivity|].
  rewrite imap_cons. cbn [concat]. rewrite link_urls_app, link_urls_article.
  cbn [fmap list_fmap app]. f_equal. apply (IH (f ∘ S)).
Qed.

Lemma link_urls_category (articles : list NewsArticle) (cat : str) :
  link_urls (category_blocks articles cat)
  = url <$> filter (fun a => category a = cat) articles.
Proof.
  unfold category_blocks.
  destruct (filter (fun a => category a = cat) articles) as [|a l] eqn:Hf;
    [reflexivity|].
  rewrite !link_urls_app, (link_urls_articles (a :: l) S).
  cbn [link_urls omap]. rewrite app_nil_r. reflexivity.
Qed.

Lemma link_urls_categories (articles : list NewsArticle) (cats : list str) :
  link_urls (concat (map (category_blocks articles) cats))
  = concat (map (fun cat => url <$> filter (fun a => category a = cat) articles) cats).
Proof.
  induction cats as [|cat cats IH]; [reflexivity|].
  cbn [map concat]. rewrite link_urls_app, link_urls_category, IH. reflexivity.
Qed.

(** Grouping by the labels of a duplicate-free list loses exactly the
    articles whose label is not in the list. *)
Lemma group_by_category (cats : list str) (a : NewsArticle) (l : list NewsArticle) :
  NoDup cats ->
  concat (map (fun cat => url <$> filter (fun x => category x = cat) (a :: l)) cats)
  ≡ₚ (if decide (category a ∈ cats) then [url a] else [])
     ++ concat (map (fun cat => url <$> filter (fun x => category x = cat) l) cats).
Proof.
  induction 1 as [|c cs Hc _ IH]; [rewrite decide_False by apply not_elem_of_nil; reflexivity|].
  cbn [map concat]. rewrite IH. rewrite filter_cons.
  destruct (decide (category a = c)) as [Heq|Hne].
  - rewrite (decide_True (P := category a ∈ c :: cs)) by (rewrite Heq; left).
    rewrite (decide_False (P := category a ∈ cs)) by (rewrite Heq; exact Hc).
    cbn [fmap list_fmap app]. reflexivity.
  - destruct (decide (category a ∈ cs)) as [Hin|Hout].
    + rewrite (decide_True (P := category a ∈ c :: cs)) by (right; exact Hin).
      cbn [app]. symmetry. apply Permutation_middle.
    + rewrite (decide_False (P := category a ∈ c :: cs)); [reflexivity|].
      intros Hin. apply elem_of_cons in Hin as [?|?]; tauto.
Qed.

Lemma grouped_all (cats : list str) (l : list NewsArticle) :
  NoDup cats ->
  Forall (fun a => category a ∈ cats) l ->
  concat (map (fun cat => url <$> filter (fun x => category x = cat) l) cats)
  ≡ₚ url <$> l.
Proof.
  intros Hnd. induction 1 as [|a l Ha _ IH].
  - induction cats as [|c cs IHc]; [reflexivity|].
    cbn [map concat]. rewrite filter_nil. cbn [fmap list_fmap app].
    apply IHc. by apply NoDup_cons_1_2 in Hnd.
  - rewrite group_by_category by exact Hnd. rewrite decide_True by exact Ha.
    cbn [app fmap list_fmap]. constructor. exact IH.
Qed.

Lemma grouped_none (cats : list str) (l : list NewsArticle) (u : str) :
  u ∈ concat (map (fun cat => url <$> filter (fun x => category x = cat) l) cats) ->
  exists a, a ∈ l /\ url a = u /\ category a ∈ cats.
Proof.
  induction cats as [|c cs IH]; [intros H; inversion H|].
  cbn [map concat]. rewrite elem_of_app. intros [Hin|Hin].
  - apply list_elem_of_fmap in Hin as (a & -> & Ha).
    apply list_elem_of_filter in Ha as [Hcat Ha].
    exists a. split; [exact Ha|]. split; [reflexivity|]. rewrite Hcat. left.
  - destruct (IH Hin) as (a & Ha & Hu & Hc). exists a. split; [exact Ha|].
    split; [exact Hu|]. right. exact Hc.
Qed.

Lemma category_order_nodup : NoDup category_order.
Proof. by_evaluation. Qed.

End Blocks.

(** X9.  The document has one link block per article whose category is
    one of the six labels, grouped by label in the fixed order and, within
    a label, in the order of the list.  When every article has such a
    category (as after [_categorize]) the link blocks are the articles, each
    once.  An article with any other category gets no link block: it is
    counted in the header and left out of the body. *)
Theorem feishu_blocks_link_every_labelled_article
    (clk : Clock) (articles : list NewsArticle) (date_str : str) :
  link_urls (_build_feishu_blocks articles date_str)
  = concat (map (fun cat => url <$> filter (fun a => category a = cat) articles)
                category_order)
  /\ (Forall (fun a => category a ∈ category_order) articles ->
      link_urls (_build_feishu_blocks articles date_str) ≡ₚ url <$> articles)
  /\ (forall u, u ∈ link_urls (_build_feishu_blocks articles date_str) ->
        exists a, a ∈ articles /\ url a = u /\ category a ∈ category_order).
Proof.
  assert (Heq : link_urls (_build_feishu_blocks articles date_str)
                = concat (map (fun cat => url <$> filter (fun a => category a = cat)
                                                    articles) category_order)).
  { unfold _build_feishu_blocks. rewrite !link_urls_app, link_urls_categories.
    assert (Hbullets : forall l : list NewsArticle,
               link_urls (map (fun a => bullet_block
                                 (title a ++ py " (" ++ source a ++ py ")")) l) = []).
    { induction l as [|x l IH]; [reflexivity | exact IH]. }
    rewrite Hbullets. cbn [link_urls omap app]. rewrite app_nil_r. reflexivity. }
  split; [exact Heq|]. rewrite Heq. split.
  - apply grouped_all, category_order_nodup.
  - intros u. apply grouped_none.
Qed.

Lemma feishu_blocks_link_every_labelled_article_witness :
  link_urls (@_build_feishu_blocks fixed_clock
               [set_category (py "🔬 研究突破") gpt5_claude;
                set_category (py "🔥 重大发布") gpt5_first] (py "2026年02月07日"))
  ≡ₚ url <$> [set_category (py "🔬 研究突破") gpt5_claude;
              set_category (py "🔥 重大发布") gpt5_first].
Proof.
  exact (proj1 (proj2 (feishu_blocks_link_every_labelled_article fixed_clock
                  [set_category (py "🔬 研究突破") gpt5_claude;
                   set_category (py "🔥 重大发布") gpt5_first] (py "2026年02月07日")))
               ltac:(by_evaluation)).
Defined.

(** ** The run: batches and requests *)

Section Batches.

Context {A : Type}.

Lemma batches_prefix (size k : nat) (l : list A) :
  concat (map (fun i => take size (drop (i * size) l)) (seq 0 k)) = take (k * size) l.
Proof.
  induction k as [|k IH]; [reflexivity|].
  rewrite seq_S, map_app, concat_app, IH. cbn [map concat Nat.add].
  rewrite app_nil_r, take_take_drop. f_equal. lia.
Qed.

Lemma batches_count (size : nat) (l : list A) :
  0 < size ->
  let k := (length l + size - 1) / size in
  length l <= k * size /\ (forall i, i < k -> i * size < length l).
Proof.
  intros Hsize k.
  pose proof (Nat.div_mod_eq (length l + size - 1) size) as Hdm.
  pose proof (Nat.mod_upper_bound (length l + size - 1) size ltac:(lia)) as Hr.
  fold k in Hdm. split; [nia|]. intros i Hi.
  assert (i * size <= (k - 1) * size) by (apply Nat.mul_le_mono_r; lia). nia.
Qed.

End Batches.

Lemma batches_cover {A : Type} (size : nat) (l : list A) :
  0 < size ->
  concat (batches size l) = l
  /\ Forall (fun b => 0 < length b <= size) (batches size l).
Proof.
  intros Hsize. destruct (batches_count size l Hsize) as [Hall Hne].
  unfold batches. split.
  - rewrite batches_prefix. apply take_ge. exact Hall.
  - apply Forall_fmap, Forall_forall. intros i Hi.
    apply list_elem_of_In, in_seq in Hi. simpl.
    rewrite length_take, length_drop. specialize (Hne i ltac:(lia)). lia.
Qed.

(** X10.  For a batch size that is not zero, the batches put end to end
    are the list: every element is in exactly one batch, in its order; no
    batch is empty and none has more than the batch size. *)
Theorem batches_cover_in_order {A : Type} (size : nat) (l : list A) :
  0 < size ->
  concat (batches size l) = l
  /\ Forall (fun b => 0 < length b <= size) (batches size l).
Proof. apply batches_cover. Qed.

Lemma batches_cover_in_order_witness :
  concat (batches BATCH_SIZE (repeat divider_block 120)) = repeat divider_block 120.
Proof.
  exact (proj1 (batches_cover_in_order BATCH_SIZE (repeat divider_block 120)
                  ltac:(vm_compute; lia))).
Defined.

Section Run.

Context {net : Network} {clk : Clock} {cfg : Config} {service : Feishu}.

Lemma write_batches_calls (doc_id root : str) (bs : list (list block)) :
  exists n, calls (write_batches doc_id root bs)
            = map (WriteBlocks doc_id root) (take n bs).
Proof.
  induction bs as [|b bs (n & IH)]; [exists 0; reflexivity|].
  cbn [write_batches]. cbv [mbind io_bind request result calls].
  destruct (write_blocks doc_id root b) as [[]|e].
  - exists (S n). cbn [take map app]. rewrite <- IH. reflexivity.
  - exists 1. destruct bs; reflexivity.
Qed.

Lemma write_batches_answered (doc_id root : str) (bs : list (list block)) :
  Forall (fun b => write_blocks doc_id root b = Returned tt) bs ->
  write_batches doc_id root bs
  = {| calls := map (WriteBlocks doc_id root) bs; result := Returned tt |}.
Proof.
  induction 1 as [|b bs Hb _ IH]; [reflexivity|].
  cbn [write_batches]. cbv [mbind io_bind request result calls].
  rewrite Hb, IH. reflexivity.
Qed.

(** The part of a run after the document is written: the chat. *)
Lemma run_pipeline_after_crawl (all_articles : list NewsArticle)
    (x : NewsArticle) (rest : list NewsArticle) (doc_id doc_url : str) :
  crawl_ai_news all_articles 0 = Returned (x :: rest) ->
  client_configured = true ->
  create_document run_doc_title = Returned (doc_id, doc_url) ->
  let blocks := _build_feishu_blocks (x :: rest) run_date_str in
  let writes := write_batches doc_id doc_id (batches BATCH_SIZE blocks) in
  (forall e, result writes = Raised e ->
     run_pipeline all_articles false
     = {| calls := CreateDocument run_doc_title :: calls writes;
          result := Raised e |})
  /\ (result writes = Returned tt ->
      exists group later,
        run_pipeline all_articles false
        = {| calls := CreateDocument run_doc_title :: calls writes ++ later;
             result := Returned (ResultOk doc_url doc_id
                                          (len_list (x :: rest)) group) |}
        /\ Forall is_group_call later /\ length later <= 2).
Proof.
  unfold run_doc_title, run_date_str.
  intros Hcrawl Hconf Hdoc. cbv zeta.
  unfold run_pipeline.
  rewrite Hcrawl. cbv [lift]. rewrite Hconf, Hdoc.
  cbv [mbind io_bind mret io_ret outcome_ret request attempt result calls].
  set (writes := write_batches doc_id doc_id _).
  split.
  - intros e He. destruct writes as [wcalls wres]. cbn [result calls] in *.
    rewrite He. reflexivity.
  - intros Hok. destruct writes as [wcalls wres]. cbn [result calls] in *.
    subst wres.
    destruct (is_empty FEISHU_GROUP_CHAT_ID && negb (is_empty FEISHU_GROUP_NAME));
      [destruct (find_chat_id_by_name FEISHU_GROUP_NAME) as [[[|c cs]|]|e]|];
      try destruct FEISHU_GROUP_CHAT_ID as [|c' cs'];
      try destruct (send_group_message _ _);
      cbn [app]; eexists _, _;
      (split; [reflexivity|]); (split; [repeat constructor | simpl; lia]).
Qed.

End Run.

(** X11.  When the crawl returns articles, the client is configured, the
    document is created and every write is answered, the run asks for the
    document, then writes all its blocks, in order, in requests of at most
    50 blocks, then sends at most two requests about the group chat; and it
    returns status "ok" whatever the chat requests answer: a failure of the
    chat lookup or of the message does not fail the run. *)
Theorem run_pipeline_writes_every_block
    (net : Network) (clk : Clock) (cfg : Config) (service : Feishu)
    (all_articles : list NewsArticle) (x : NewsArticle) (rest : list NewsArticle)
    (doc_id doc_url : str) :
  crawl_ai_news all_articles 0 = Returned (x :: rest) ->
  client_configured = true ->
  create_document run_doc_title = Returned (doc_id, doc_url) ->
  (forall batch, write_blocks doc_id doc_id batch = Returned tt) ->
  let blocks := _build_feishu_blocks (x :: rest) run_date_str in
  exists group later,
    run_pipeline all_articles false
    = {| calls := CreateDocument run_doc_title
                  :: map (WriteBlocks doc_id doc_id) (batches BATCH_SIZE blocks)
                  ++ later;
         result := Returned (ResultOk doc_url doc_id (len_list (x :: rest)) group) |}
    /\ status (ResultOk doc_url doc_id (len_list (x :: rest)) group) = py "ok"
    /\ Forall is_group_call later
    /\ length later <= 2
    /\ concat (batches BATCH_SIZE blocks) = blocks
    /\ Forall (fun b => 0 < length b <= 50) (batches BATCH_SIZE blocks).
Proof.
  intros Hcrawl Hconf Hdoc Hwrite blocks.
  destruct (run_pipeline_after_crawl all_articles x rest doc_id doc_url
              Hcrawl Hconf Hdoc) as [_ Hok].
  cbv zeta in Hok. fold blocks in Hok.
  rewrite write_batches_answered in Hok
    by (apply Forall_forall; intros b _; apply Hwrite).
  destruct (Hok eq_refl) as (group & later & Hrun & Hgroup & Hlen).
  exists group, later. cbn [calls] in Hrun.
  destruct (batches_cover BATCH_SIZE blocks ltac:(unfold BATCH_SIZE; lia)) as [Hcat Hsz].
  repeat split; assumption || reflexivity.
Qed.

Lemma run_pipeline_writes_every_block_witness :
  exists group later,
    @run_pipeline offline fixed_clock (named_group_config false) mute_service
       [gpt5_first; gpt5_claude] false
    = {| calls := CreateDocument (@run_doc_title fixed_clock)
                  :: map (WriteBlocks (py "doc123") (py "doc123"))
                       (batches BATCH_SIZE
                          (@_build_feishu_blocks fixed_clock
                             [set_category (_categorize gpt5_first) gpt5_first;
                              set_category (_categorize gpt5_claude) gpt5_claude]
                             (@run_date_str fixed_clock)))
                  ++ later;
         result := Returned (ResultOk (py "https://feishu.cn/docx/doc123")
                               (py "doc123")
                               (len_list
                                  [set_category (_categorize gpt5_first) gpt5_first;
                                   set_category (_categorize gpt5_claude) gpt5_claude])
                               group) |}.
Proof.
  destruct (run_pipeline_writes_every_block offline fixed_clock
              (named_group_config false) mute_service
              [gpt5_first; gpt5_claude]
              (set_category (_categorize gpt5_first) gpt5_first)
              [set_category (_categorize gpt5_claude) gpt5_claude]
              (py "doc123") (py "https://feishu.cn/docx/doc123")
              ltac:(vm_compute; reflexivity) eq_refl eq_refl
              ltac:(intros; reflexivity))
    as (group & later & Hrun & _).
  exists group, later. exact Hrun.
Defined.

(** X12.  When a write raises, the run raises the same exception; the
    requests it has sent are the creation of the document and writes, the
    failed one last: the remaining blocks are not written and nothing is
    sent to the group chat. *)
Theorem run_pipeline_stops_at_failed_write
    (net : Network) (clk : Clock) (cfg : Config) (service : Feishu)
    (all_articles : list NewsArticle) (x : NewsArticle) (rest : list NewsArticle)
    (doc_id doc_url : str) (e : exn) :
  crawl_ai_news all_articles 0 = Returned (x :: rest) ->
  client_configured = true ->
  create_document run_doc_title = Returned (doc_id, doc_url) ->
  let blocks := _build_feishu_blocks (x :: rest) run_date_str in
  result (write_batches doc_id doc_id (batches BATCH_SIZE blocks)) = Raised e ->
  exists n,
    run_pipeline all_articles false
    = {| calls := CreateDocument run_doc_title
                  :: map (WriteBlocks doc_id doc_id)
                       (take n (batches BATCH_SIZE blocks));
         result := Raised e |}.
Proof.
  intros Hcrawl Hconf Hdoc blocks Hfail.
  destruct (run_pipeline_after_crawl all_articles x rest doc_id doc_url
              Hcrawl Hconf Hdoc) as [Hbad _].
  cbv zeta in Hbad. fold blocks in Hbad.
  destruct (write_batches_calls doc_id doc_id (batches BATCH_SIZE blocks)) as [n Hn].
  exists n. rewrite (Hbad e Hfail), Hn. reflexivity.
Qed.

Lemma run_pipeline_stops_at_failed_write_witness :
  exists n,
    @run_pipeline offline fixed_clock (named_group_config false) readonly_service
       [gpt5_first; gpt5_claude] false
    = {| calls := CreateDocument (@run_doc_title fixed_clock)
                  :: map (WriteBlocks (py "doc123") (py "doc123"))
                       (take n (batches BATCH_SIZE
                          (@_build_feishu_blocks fixed_clock
                             [set_category (_categorize gpt5_first) gpt5_first;
                              set_category (_categorize gpt5_claude) gpt5_claude]
                             (@run_date_str fixed_clock))));
         result := Raised RuntimeError |}.
Proof.
  exact (run_pipeline_stops_at_failed_write offline fixed_clock
           (named_group_config false) readonly_service
           [gpt5_first; gpt5_claude]
           (set_category (_categorize gpt5_first) gpt5_first)
           [set_category (_categorize gpt5_claude) gpt5_claude]
           (py "doc123") (py "https://feishu.cn/docx/doc123") RuntimeError
           ltac:(vm_compute; reflexivity) eq_refl eq_refl
           ltac:(vm_compute; reflexivity)).
Defined.

(** X13.  A dry run sends no request, whatever the crawl gives; when the
    crawl returns articles it returns status "dry_run" with their number
    and, for each, its title, url and category. *)
Theorem run_pipeline_dry_run_sends_nothing
    (net : Network) (clk : Clock) (cfg : Config) (service : Feishu)
    (all_articles : list NewsArticle) :
  calls (run_pipeline all_articles true) = []
  /\ (forall x rest,
        crawl_ai_news all_articles 0 = Returned (x :: rest) ->
        result (run_pipeline all_articles true)
        = Returned (ResultDryRun (len_list (x :: rest))
                      (map (fun a => (title a, url a, category a)) (x :: rest)))).
Proof.
  unfold run_pipeline. cbv [mbind io_bind lift result calls].
  split.
  - destruct (crawl_ai_news all_articles 0) as [[|x rest]|e]; reflexivity.
  - intros x rest ->. reflexivity.
Qed.

(** X14.  An exception of the crawl leaves the run before any request.
    With articles and no dry run, a client that is not configured makes
    the run raise [ValueError] before any request; and when the creation of
    the document raises, the run raises that exception and has sent that
    one request: nothing is written and nothing is sent to the chat. *)
Theorem run_pipeline_failure_before_writing
    (net : Network) (clk : Clock) (cfg : Config) (service : Feishu)
    (all_articles : list NewsArticle) (dry_run : bool) :
  (forall e, crawl_ai_news all_articles 0 = Raised e ->
     run_pipeline all_articles dry_run = {| calls := []; result := Raised e |})
  /\ (forall x rest,
        crawl_ai_news all_articles 0 = Returned (x :: rest) ->
        client_configured = false ->
        run_pipeline all_articles false
        = {| calls := []; result := Raised ValueError |})
  /\ (forall x rest e,
        crawl_ai_news all_articles 0 = Returned (x :: rest) ->
        client_configured = true ->
        create_document run_doc_title = Raised e ->
        run_pipeline all_articles false
        = {| calls := [CreateDocument run_doc_title]; result := Raised e |}).
Proof.
  unfold run_doc_title, run_date_str, run_pipeline.
  split; [|split].
  - intros e ->. reflexivity.
  - intros x rest -> ->. reflexivity.
  - intros x rest e -> -> Hdoc. cbv [mbind io_bind lift request result calls].
    rewrite Hdoc. reflexivity.
Qed.

Lemma run_pipeline_failure_before_writing_witness :
  @run_pipeline offline fixed_clock (config 15 false) unreachable_service
     [gpt5_first] false
  = {| calls := [CreateDocument (@run_doc_title fixed_clock)];
       result := Raised RuntimeError |}.
Proof.
  exact (proj2 (proj2 (run_pipeline_failure_before_writing offline fixed_clock
                         (config 15 false) unreachable_service [gpt5_first] false))
               (set_category (_categorize gpt5_first) gpt5_first) [] RuntimeError
               ltac:(vm_compute; reflexivity) eq_refl eq_refl).
Defined.

(** ** The extractors *)

Lemma extract_text_length (element : option Tag) (max_len : Z) :
  (0 <= max_len)%Z -> (len (_extract_text element max_len) <= max_len + 3)%Z.
Proof.
  intros Hmax. destruct element as [el|]; [|unfold len; simpl; lia].
  unfold _extract_text, len.
  destruct (Z.ltb_spec max_len (Z.of_nat (length (get_text_strip el)))).
  - rewrite slice_to_nonneg by exact Hmax.
    rewrite length_app, length_take. change (length ellipsis) with 3%nat. lia.
  - lia.
Qed.

Lemma nonempty_length (s : str) : is_empty s = false -> s <> [] /\ (1 <= len s)%Z.
Proof. destruct s; [discriminate|]. intros _. split; [discriminate|]. unfold len. simpl. lia. Qed.

(** A loop that appends at most one article a turn. *)
Lemma fold_appends {A : Type} (P : NewsArticle -> Prop)
    (step : list NewsArticle -> A -> list NewsArticle) (l : list A) :
  (forall found x, step found x = found
                   \/ exists a, P a /\ step found x = found ++ [a]) ->
  forall init, exists more,
    fold_left step l init = init ++ more /\ length more <= length l /\ Forall P more.
Proof.
  intros Hstep. induction l as [|x l IH]; intros init.
  - exists []. rewrite app_nil_r. repeat split; [reflexivity|constructor].
  - cbn [fold_left length]. destruct (Hstep init x) as [->|(a & Ha & ->)].
    + destruct (IH init) as (more & -> & Hlen & HP). exists more.
      repeat split; [lia|exact HP].
    + destruct (IH (init ++ [a])) as (more & -> & Hlen & HP). exists (a :: more).
      rewrite <- app_assoc. repeat split; [cbn [length]; lia|by constructor].
Qed.

Section Generic.

Context {lib : Library}.
Variables base_url source_name : str.

Lemma generic_inv_add (st : extraction) (a : NewsArticle) :
  generic_inv base_url source_name st -> url a ∉ seen_urls st ->
  generic_shape base_url source_name a ->
  generic_inv base_url source_name
    {| articles := articles st ++ [a]; seen_urls := {[ url a ]} ∪ seen_urls st |}.
Proof.
  intros (Hnd & Hseen & Hall) Hnew Hshape. split; [|split]; cbn [articles seen_urls].
  - rewrite fmap_app. apply NoDup_app. split; [exact Hnd|]. split.
    + intros u Hu Hu'. apply list_elem_of_singleton in Hu'. subst u.
      apply list_elem_of_fmap in Hu as (b & Hb & Hin). apply Hnew.
      rewrite Hb. apply Hseen, Hin.
    + apply NoDup_singleton.
  - intros b Hb. apply elem_of_app in Hb as [Hb|Hb].
    + apply elem_of_union_r, Hseen, Hb.
    + apply list_elem_of_singleton in Hb. subst b. apply elem_of_union_l.
      apply elem_of_singleton. reflexivity.
  - apply Forall_app. split; [exact Hall|]. apply Forall_singleton, Hshape.
Qed.

Lemma generic_inv_seen (st : extraction) (u : str) :
  generic_inv base_url source_name st ->
  generic_inv base_url source_name
    {| articles := articles st; seen_urls := {[ u ]} ∪ seen_urls st |}.
Proof.
  intros (Hnd & Hseen & Hall). split; [|split]; cbn [articles seen_urls]; auto.
  intros b Hb. apply elem_of_union_r, Hseen, Hb.
Qed.

Lemma generic_inv_start :
  generic_inv base_url source_name {| articles := []; seen_urls := ∅ |}.
Proof.
  split; [|split]; cbn [articles seen_urls fmap list_fmap].
  - apply NoDup_nil_2.
  - intros a Ha. by apply elem_of_nil in Ha.
  - constructor.
Qed.

Lemma str_or_length (a b : str) (n : Z) :
  (len a <= n)%Z -> (len b <= n)%Z -> (len (str_or a b) <= n)%Z.
Proof. unfold str_or. destruct (is_empty a); auto. Qed.

Ltac appended :=
  match goal with
  | |- turn _ _ _ _ {| articles := _ ++ [?a]; seen_urls := _ |} =>
    apply (turn_add _ _ _ _ _ a); [| | |reflexivity]
  end.

Lemma article_step_turn (st : extraction) (el : Soup.node) :
  turn base_url source_name stamped st
       (generic_article_step base_url source_name st el).
Proof.
  unfold generic_article_step.
  destruct (Soup.find_link el) as [link|]; [|by apply turn_skip].
  set (href := urljoin base_url _).
  destruct (bool_decide (href ∈ seen_urls st)) eqn:Hseen; [by apply turn_skip|].
  destruct (_is_valid_article_url href base_url) eqn:Hvalid; [|by apply turn_skip].
  cbn [orb negb]. cbv zeta.
  set (ttl := str_or _ _).
  destruct (is_empty ttl) eqn:He; [by eapply turn_seen|].
  destruct (Z.ltb_spec (len ttl) 5); cbn [orb]; [by eapply turn_seen|].
  appended.
  - cbn [url]. by apply bool_decide_eq_false in Hseen.
  - unfold generic_shape. cbn [url title summary source category tags].
    repeat split; try assumption.
    + apply str_or_length; apply (extract_text_length _ 300); lia.
    + apply (extract_text_length _ 200); lia.
  - unfold stamped. cbn [published_at]. eexists. reflexivity.
Qed.

Lemma heading_step_turn (st : extraction) (h : Soup.node * list Soup.node) :
  turn base_url source_name unstamped st
       (generic_heading_step base_url source_name st h).
Proof.
  unfold generic_heading_step. destruct h as [heading following].
  destruct (Soup.find_link heading) as [link|]; [|by apply turn_skip].
  set (href := urljoin base_url _).
  destruct (bool_decide (href ∈ seen_urls st)) eqn:Hseen; [by apply turn_skip|].
  destruct (_is_valid_article_url href base_url) eqn:Hvalid; [|by apply turn_skip].
  cbn [orb negb]. cbv zeta.
  set (ttl := _extract_text _ 300).
  destruct (is_empty ttl) eqn:He; [by eapply turn_seen|].
  destruct (Z.ltb_spec (len ttl) 5); cbn [orb]; [by eapply turn_seen|].
  appended.
  - cbn [url]. by apply bool_decide_eq_false in Hseen.
  - unfold generic_shape. cbn [url title summary source category tags].
    repeat split; try assumption.
    + apply (extract_text_length _ 300); lia.
    + destruct (head _); [apply (extract_text_length _ 200); lia|].
      unfold len. simpl. lia.
  - reflexivity.
Qed.

Lemma grown_refl (extra : NewsArticle -> Prop) (st : extraction) :
  grown base_url source_name extra st st 0.
Proof.
  split; [auto|]. exists []. rewrite app_nil_r. by repeat split.
Qed.

Lemma grown_turn (extra : NewsArticle -> Prop) (st st' st'' : extraction) (n : nat) :
  turn base_url source_name extra st st' ->
  grown base_url source_name extra st' st'' n ->
  grown base_url source_name extra st st'' (S n).
Proof.
  intros Hturn [Hinv (more & Hmore & Hlen & Hnew)].
  destruct Hturn as [->|u ->|a Ha Hshape Hextra ->].
  - split; [auto|]. exists more. repeat split; auto.
  - cbn [articles seen_urls] in *. split.
    + intros Hst. apply Hinv, generic_inv_seen, Hst.
    + exists more. repeat split; auto.
      eapply Forall_impl; [exact Hnew|]. cbn. intros b [Hb Hb']. split; [|exact Hb'].
      intros Hin. apply Hb. apply elem_of_union_r, Hin.
  - cbn [articles seen_urls] in *. split.
    + intros Hst. by apply Hinv, generic_inv_add.
    + exists (a :: more). rewrite Hmore, <- app_assoc. repeat split.
      * cbn [length]. lia.
      * constructor; [by split|].
        eapply Forall_impl; [exact Hnew|]. cbn. intros b [Hb Hb']. split; [|exact Hb'].
        intros Hin. apply Hb. apply elem_of_union_r, Hin.
Qed.

Lemma fold_grown {A : Type} (extra : NewsArticle -> Prop)
    (step : extraction -> A -> extraction) (l : list A) :
  (forall st x, turn base_url source_name extra st (step st x)) ->
  forall st, grown base_url source_name extra st (fold_left step l st) (length l).
Proof.
  intros Hstep. induction l as [|x l IH]; intros st; [apply grown_refl|].
  cbn [fold_left length]. eapply grown_turn; [apply Hstep|apply IH].
Qed.

Lemma first_pass_grown (soup : Soup.node) :
  grown base_url source_name stamped {| articles := []; seen_urls := ∅ |}
        (generic_first_pass soup base_url source_name) 20.
Proof.
  unfold generic_first_pass.
  pose proof (fold_grown stamped (generic_article_step base_url source_name)
                (Soup.find_all [py "article"] 20 soup) article_step_turn
                {| articles := []; seen_urls := ∅ |}) as [Hinv (more & Hm & Hlen & Hnew)].
  split; [exact Hinv|]. exists more. repeat split; auto.
  unfold Soup.find_all in Hlen. rewrite length_take in Hlen. lia.
Qed.

Lemma second_pass_grown (soup : Soup.node) (st : extraction) :
  grown base_url source_name unstamped st
        (fold_left (generic_heading_step base_url source_name)
                   (positioned_headings soup) st) 30.
Proof.
  pose proof (fold_grown unstamped (generic_heading_step base_url source_name)
                (positioned_headings soup) heading_step_turn st)
    as [Hinv (more & Hm & Hlen & Hnew)].
  split; [exact Hinv|]. exists more. repeat split; auto.
  unfold positioned_headings in Hlen. rewrite length_take in Hlen. lia.
Qed.

Lemma generic_found (soup : Soup.node) :
  let found := _extract_articles_generic soup base_url source_name in
  NoDup (url <$> found)
  /\ length found <= 32
  /\ Forall (generic_shape base_url source_name) found.
Proof.
  cbv zeta. unfold _extract_articles_generic.
  destruct (first_pass_grown soup) as [Hinv1 (more1 & Hm1 & Hlen1 & _)].
  specialize (Hinv1 generic_inv_start). cbn [articles app] in Hm1.
  set (st := generic_first_pass soup base_url source_name) in *.
  destruct (Z.ltb_spec (len_list (articles st)) 3) as [Hfew|Hmany].
  - destruct (second_pass_grown soup st) as [Hinv2 (more2 & Hm2 & Hlen2 & _)].
    destruct (Hinv2 Hinv1) as (Hnd & _ & Hall).
    split; [exact Hnd|]. split; [|exact Hall].
    rewrite Hm2, length_app. unfold len_list in Hfew. lia.
  - destruct Hinv1 as (Hnd & _ & Hall).
    split; [exact Hnd|]. split; [|exact Hall]. rewrite Hm1. lia.
Qed.

End Generic.

(** X15.  Whatever the page, the articles [_extract_articles_generic]
    returns have pairwise different URLs; there are at most 32 of them (20
    from the [<article>] tags, or fewer than 3 of these and 30 from the
    headings); each has a URL that passes [_is_valid_article_url], a title
    of 5 to 303 characters, a summary of at most 203, the name of the
    source as [source], and no category and no tag yet. *)
Theorem generic_extractor_invariants (lib : Library)
    (soup : Soup.node) (base_url source_name : str) :
  let found := _extract_articles_generic soup base_url source_name in
  NoDup (url <$> found)
  /\ length found <= 32
  /\ Forall (fun a =>
       _is_valid_article_url (url a) base_url = true
       /\ (5 <= len (title a) <= 303)%Z
       /\ (len (summary a) <= 203)%Z
       /\ source a = source_name
       /\ category a = [] /\ tags a = []) found.
Proof. apply generic_found. Qed.


Section Sites.

Context {lib : Library}.

Lemma site_item_appends (site : str) (title_names summary_names : list str)
    (label : str) (found : list NewsArticle) (item : Soup.node) :
  site_item site title_names summary_names label found item = found
  \/ exists a, site_shape site label a
               /\ site_item site title_names summary_names label found item
                  = found ++ [a].
Proof.
  unfold site_item.
  destruct (Soup.find_link item) as [link|]; [|by left]. cbv zeta.
  set (t1 := _extract_text (option_map Soup.tag_of (Soup.find title_names item)) 300).
  set (t2 := _extract_text (Some (Soup.tag_of link)) 300).
  assert (Hbound : (len (if is_empty t1 then t2 else t1) <= 303)%Z)
    by (destruct (is_empty t1); apply (extract_text_length _ 300); lia).
  set (ttl := if is_empty t1 then t2 else t1) in *.
  destruct (is_empty ttl) eqn:He; [by left|].
  destruct (Z.ltb_spec 4 (len ttl)); cbn [negb andb]; [|by left].
  right. eexists. split; [|reflexivity].
  unfold site_shape. cbn [url title summary source category published_at tags].
  repeat split; try lia.
  - eexists. reflexivity.
  - apply (extract_text_length _ 200); lia.
Qed.

Lemma search_result_appends (found : list NewsArticle) (result : Soup.node) :
  search_result_step found result = found
  \/ exists a, search_shape a /\ search_result_step found result = found ++ [a].
Proof.
  unfold search_result_step.
  destruct (match Soup.find_first _ result with Some _ => _ | None => _ end)
    as [link|]; [|by left].
  cbv zeta. set (href := if contains _ _ then _ else _).
  set (ttl := _extract_text _ 300).
  destruct (is_empty ttl) eqn:He; [by left|].
  destruct (startswith href (py "http")) eqn:Hhttp; cbn [negb andb]; [|by left].
  right. eexists. split; [|reflexivity].
  unfold search_shape. cbn [url title summary source category published_at tags].
  repeat split; try assumption.
  - apply nonempty_length, He.
  - apply (extract_text_length _ 300); lia.
  - destruct (Soup.find_first _ result); [apply (extract_text_length _ 200); lia|].
    unfold len. simpl. lia.
Qed.

End Sites.

Lemma site_extractors_found {lib : Library} (soup : Soup.node) :
  (length (_extract_jiqizhixin soup) <= 15
   /\ Forall (site_shape (py "https://www.jiqizhixin.com") (py "机器之心"))
             (_extract_jiqizhixin soup))
  /\ (length (_extract_qbitai soup) <= 15
      /\ Forall (site_shape (py "https://www.qbitai.com") (py "量子位"))
                (_extract_qbitai soup)).
Proof.
  split; [unfold _extract_jiqizhixin|unfold _extract_qbitai].
  all: match goal with
       | |- context [fold_left (site_item ?s ?t ?m ?l) (select ?sel 15 ?root) []] =>
         destruct (fold_appends (site_shape s l) (site_item s t m l)
                     (select sel 15 root) (site_item_appends s t m l) [])
           as (more & -> & Hlen & Hall);
         pose proof (select_limit sel 15 root)
       end.
  all: cbn [app]; split; [lia|exact Hall].
Qed.

(** X17.  Whatever the page and whatever the selector engine finds in it,
    each of the two site extractors returns at most 15 articles; each has
    a title of 5 to 303 characters, a summary of at most 203, the label of
    the site as [source], no [published_at], no category and no tag, and a
    URL that is a link resolved against the root of the site. *)
Theorem site_extractors_invariants (lib : Library) (soup : Soup.node) :
  (length (_extract_jiqizhixin soup) <= 15
   /\ Forall (site_shape (py "https://www.jiqizhixin.com") (py "机器之心"))
             (_extract_jiqizhixin soup))
  /\ (length (_extract_qbitai soup) <= 15
      /\ Forall (site_shape (py "https://www.qbitai.com") (py "量子位"))
                (_extract_qbitai soup)).
Proof. apply site_extractors_found. Qed.

Lemma search_found (lib : Library) (web : Web) (query : str) :
  length (_search_web_news query) <= 10
  /\ Forall search_shape (_search_web_news query).
Proof.
  unfold _search_web_news. destruct (search_tree query) as [soup|].
  - destruct (fold_appends search_shape search_result_step
                (select (py ".result, .web-result") 10 soup)
                search_result_appends [])
      as (more & -> & Hlen & Hall).
    cbn [app]. split; [|exact Hall].
    pose proof (select_limit (py ".result, .web-result") 10 soup). lia.
  - split; [cbn; lia|constructor].
Qed.

(** X18.  Whatever the web answers to a search, [_search_web_news] returns
    at most 10 articles; each has a title that is not empty and at most 303
    characters long, a URL that starts with "http", a summary of at most
    203 characters, "Web Search" as [source], and no [published_at],
    category or tag; and a search that fails gives no article. *)
Theorem search_web_news_invariants (lib : Library) (web : Web) (query : str) :
  length (_search_web_news query) <= 10
  /\ Forall (fun a =>
       title a <> []
       /\ (len (title a) <= 303)%Z
       /\ startswith (url a) (py "http") = true
       /\ (len (summary a) <= 203)%Z
       /\ source a = py "Web Search"
       /\ category a = [] /\ published_at a = None /\ tags a = [])
       (_search_web_news query)
  /\ (search_tree query = None -> _search_web_news query = []).
Proof.
  destruct (search_found lib web query) as [Hlen Hall].
  split; [exact Hlen|]. split; [exact Hall|].
  unfold _search_web_news. intros ->. reflexivity.
Qed.

(** ** The candidates of a crawl *)

Section Candidates.

Context {lib : Library} {web : Web}.

Lemma generic_candidate (base_url source_name : str) (a : NewsArticle) :
  generic_shape base_url source_name a -> candidate_shape a.
Proof.
  intros (_ & Ht & Hs & _ & Hc & Hg). unfold candidate_shape.
  repeat split; try assumption || lia.
  intros Hempty. rewrite Hempty in Ht. unfold len in Ht. simpl in Ht. lia.
Qed.

Lemma site_candidate (site label : str) (a : NewsArticle) :
  site_shape site label a -> candidate_shape a.
Proof.
  intros (_ & Ht & Hs & _ & Hc & _ & Hg). unfold candidate_shape.
  repeat split; try assumption || lia.
  intros Hempty. rewrite Hempty in Ht. unfold len in Ht. simpl in Ht. lia.
Qed.

Lemma search_candidate (a : NewsArticle) : search_shape a -> candidate_shape a.
Proof.
  intros (Hne & Ht & _ & Hs & _ & Hc & _ & Hg). unfold candidate_shape. auto.
Qed.

Lemma source_articles_found (source : str * str) :
  length (source_articles source) <= source_bound source
  /\ Forall candidate_shape (source_articles source).
Proof.
  destruct source as [name url]. unfold source_articles, source_bound. cbn [snd].
  destruct (fetch_tree url) as [soup|].
  - destruct (site_extractors_found soup) as [[Hj Hjs] [Hq Hqs]].
    destruct (contains (py "jiqizhixin") url); cbn [orb].
    + split; [exact Hj|]. eapply Forall_impl; [exact Hjs|]. apply site_candidate.
    + destruct (contains (py "qbitai") url).
      * split; [exact Hq|]. eapply Forall_impl; [exact Hqs|]. apply site_candidate.
      * destruct (generic_found url name soup) as (_ & Hlen & Hall).
        split; [exact Hlen|]. eapply Forall_impl; [exact Hall|]. apply generic_candidate.
  - split; [|constructor]. cbn [length]. destruct (_ || _); lia.
Qed.

Lemma flat_map_found {A : Type} (f : A -> list NewsArticle) (bound : A -> nat)
    (l : list A) :
  (forall x, length (f x) <= bound x /\ Forall candidate_shape (f x)) ->
  length (flat_map f l) <= sum_list (map bound l)
  /\ Forall candidate_shape (flat_map f l).
Proof.
  intros Hf. induction l as [|x l [IHlen IHall]]; [split; [reflexivity|constructor]|].
  destruct (Hf x) as [Hlen Hall]. cbn [flat_map map].
  change (sum_list (bound x :: map bound l)) with (bound x + sum_list (map bound l)).
  rewrite length_app. split; [lia|]. apply Forall_app. by split.
Qed.

Lemma collect_candidates_found :
  length collect_candidates <= 220 /\ Forall candidate_shape collect_candidates.
Proof.
  unfold collect_candidates.
  destruct (flat_map_found source_articles source_bound NEWS_SOURCES
              source_articles_found) as [Hlen1 Hall1].
  destruct (flat_map_found _search_web_news (fun _ => 10) (slice_to 3 SEARCH_QUERIES))
    as [Hlen2 Hall2].
  { intros q. destruct (search_found lib web q) as [Hlen Hall]. split; [exact Hlen|].
    eapply Forall_impl; [exact Hall|]. apply search_candidate. }
  change (sum_list (map source_bound NEWS_SOURCES)) with 190 in Hlen1.
  change (sum_list (map (fun _ => 10) (slice_to 3 SEARCH_QUERIES))) with 30 in Hlen2.
  rewrite length_app. split; [lia|]. apply Forall_app. by split.
Qed.

Lemma collect_candidates_offline :
  (forall u, fetch_tree u = None) -> (forall q, search_tree q = None) ->
  collect_candidates = [].
Proof.
  intros Hfetch Hsearch. unfold collect_candidates.
  assert (Hsources : forall l, flat_map source_articles l = []).
  { induction l as [|[name u] l IH]; [reflexivity|]. cbn [flat_map].
    rewrite IH. unfold source_articles. rewrite Hfetch. reflexivity. }
  assert (Hqueries : forall l, flat_map _search_web_news l = []).
  { induction l as [|q l IH]; [reflexivity|]. cbn [flat_map].
    rewrite IH. unfold _search_web_news. rewrite Hsearch. reflexivity. }
  rewrite Hsources, Hqueries. reflexivity.
Qed.

End Candidates.

(** X19.  Whatever the web answers and however the run is configured, a
    list [crawl_ai_news] returns has at most 220 articles (32 from each of
    the five sources read by the generic extractor, 15 from each of the two
    site extractors, 10 from each of the three searches); every one of
    them has a title that is not empty and at most 303 characters long, a
    summary of at most 203 characters and one of the six category labels;
    no two have the same URL. *)
Theorem crawl_web_result_well_formed
    (lib : Library) (web : Web) (clk : Clock) (cfg : Config)
    (max_articles : Z) (result : list NewsArticle) :
  crawl_ai_news_web max_articles = Returned result ->
  length result <= 220
  /\ NoDup (url <$> result)
  /\ Forall (fun x =>
       title x <> []
       /\ (len (title x) <= 303)%Z
       /\ (len (summary x) <= 203)%Z
       /\ category x ∈ category_order) result.
Proof.
  unfold crawl_ai_news_web. rewrite crawl_ai_news_cuts_survivors.
  cbv [mbind outcome_bind mret outcome_ret].
  destruct (surviving_articles collect_candidates) as [survivors|e] eqn:Hs; [|discriminate].
  intros [= <-].
  destruct (surviving_articles_distinct _ _ Hs) as (Hd & Hcat & Hfrom & _).
  destruct (@collect_candidates_found lib web) as [Hlen Hshape].
  pose proof (slice_to_sublist (effective_cap max_articles) survivors) as Hsub.
  destruct (distinct_keys_sublist _ _ Hsub Hd) as [Hu _].
  assert (Hurls : NoDup (url <$> slice_to (effective_cap max_articles) survivors)).
  { apply (NoDup_fmap_1 hash12). rewrite <- list_fmap_compose. exact Hu. }
  assert (Hin : forall x, x ∈ slice_to (effective_cap max_articles) survivors ->
                exists a, a ∈ collect_candidates
                          /\ title x = title a /\ url x = url a
                          /\ summary x = summary a /\ category x ∈ category_order).
  { intros x Hx. apply (elem_of_sublist _ _ _ Hx) in Hsub.
    rewrite Forall_forall in Hfrom, Hcat.
    destruct (Hfrom x Hsub) as (a & Ha & Ht & Hurl & Hsum & _).
    exists a. repeat split; auto. }
  split; [|split; [exact Hurls|]].
  - etrans; [|exact Hlen].
    rewrite <- (length_fmap url (slice_to _ _)), <- (length_fmap url collect_candidates).
    apply submseteq_length, NoDup_submseteq; [exact Hurls|].
    intros u Hu'. apply list_elem_of_fmap in Hu' as (x & -> & Hx).
    destruct (Hin x Hx) as (a & Ha & _ & -> & _).
    apply list_elem_of_fmap_2, Ha.
  - apply Forall_forall. intros x Hx.
    destruct (Hin x Hx) as (a & Ha & -> & _ & -> & Hc).
    rewrite Forall_forall in Hshape. destruct (Hshape a Ha) as (Hne & Ht & Hsm & _).
    repeat split; assumption.
Qed.

Lemma crawl_web_result_well_formed_witness :
  length [ {| title := py "OpenAI releases GPT-5";
              url := py "https://example.com/news/gpt5";
              summary := py "The new model ships today.";
              source := py "VentureBeat AI";
              category := py "🔥 重大发布";
              published_at := Some []; tags := [] |};
           {| title := py "Claude passes a new benchmark";
              url := py "https://example.com/news/claude";
              summary := py "Scores are up.";
              source := py "VentureBeat AI";
              category := py "🔬 研究突破";
              published_at := Some []; tags := [] |} ] <= 220.
Proof.
  exact (proj1 (crawl_web_result_well_formed plain_library one_site_web fixed_clock
                  (config 15 false) 0 _ ltac:(vm_compute; reflexivity))).
Defined.

(** X20.  When no request to a source and no search is answered, the crawl
    returns the empty list, it does not raise; and the run returns the
    "empty" outcome without a request to the document service, dry run or
    not, whatever the configuration. *)
Theorem run_pipeline_web_offline
    (lib : Library) (web : Web) (clk : Clock) (cfg : Config) (service : Feishu)
    (max_articles : Z) (dry_run : bool) :
  (forall u, fetch_tree u = None) ->
  (forall q, search_tree q = None) ->
  crawl_ai_news_web max_articles = Returned []
  /\ run_pipeline_web dry_run = {| calls := []; result := Returned ResultEmpty |}.
Proof.
  intros Hfetch Hsearch.
  assert (Hcrawl : forall m, crawl_ai_news_web m = Returned []).
  { intros m. unfold crawl_ai_news_web.
    rewrite (collect_candidates_offline Hfetch Hsearch).
    unfold crawl_ai_news. destruct NEWS_TODAY_ONLY; cbn.
    all: unfold slice_to; destruct (_ <? 0)%Z; rewrite take_nil; reflexivity. }
  split; [apply Hcrawl|].
  unfold run_pipeline_web, run_pipeline. fold (crawl_ai_news_web 0).
  rewrite Hcrawl. reflexivity.
Qed.

Lemma run_pipeline_web_offline_witness :
  @run_pipeline_web plain_library offline_web fixed_clock (config 15 true)
     unreachable_service false
  = {| calls := []; result := Returned ResultEmpty |}.
Proof.
  exact (proj2 (run_pipeline_web_offline plain_library offline_web fixed_clock
                  (config 15 true) unreachable_service 0 false
                  ltac:(intros; reflexivity) ltac:(intros; reflexivity))).
Defined.

(** ** The date of a page *)

Lemma scan_metas_first_usable (before after : list Tag) (meta : Tag) :
  Forall (fun m => ~ usable_meta m) before -> usable_meta meta ->
  scan_metas (before ++ meta :: after)
  = Some (strip (default [] (get meta (py "content")))).
Proof.
  intros Hbefore [(k & Hkey & Hk) Hcontent].
  induction Hbefore as [|m before Hm _ IH]; cbn [app scan_metas].
  - rewrite Hkey. rewrite bool_decide_eq_true_2 by exact Hk.
    destruct (strip _); [contradiction|reflexivity].
  - destruct (py_or (get m (py "property")) (get m (py "name"))) as [k'|] eqn:Hk';
      [|exact IH].
    destruct (bool_decide (k' ∈ meta_keys)) eqn:Hlisted; [|exact IH].
    destruct (strip (default [] (get m (py "content")))) eqn:Hc; [exact IH|].
    exfalso. apply Hm. split.
    + exists k'. split; [exact Hk'|]. by apply bool_decide_eq_true in Hlisted.
    + rewrite Hc. discriminate.
Qed.

Lemma scan_metas_none_usable (metas : list Tag) :
  Forall (fun m => ~ usable_meta m) metas -> scan_metas metas = None.
Proof.
  induction 1 as [|m metas Hm _ IH]; [reflexivity|]. cbn [scan_metas].
  destruct (py_or (get m (py "property")) (get m (py "name"))) as [k'|] eqn:Hk';
    [|exact IH].
  destruct (bool_decide (k' ∈ meta_keys)) eqn:Hlisted; [|exact IH].
  destruct (strip (default [] (get m (py "content")))) eqn:Hc; [exact IH|].
  exfalso. apply Hm. split.
  - exists k'. split; [exact Hk'|]. by apply bool_decide_eq_true in Hlisted.
  - rewrite Hc. discriminate.
Qed.

(** X21.  [_extract_published_from_soup] takes the date from the first
    [<meta>] tag of the page, in document order, whose [property] (or, if
    that is missing or empty, [name]) is one of the seven keys and whose
    [content] is not blank: the order of the tags decides, not the order
    of the keys.  What it returns then is that content stripped, which is
    not empty and has no white space around it.  The [<time>] tag is read
    only when no [<meta>] tag is usable; without it the result is the
    empty string. *)
Theorem published_from_first_usable_meta
    (soup : BeautifulSoup) (before after : list Tag) (meta : Tag) :
  find_all_meta soup = before ++ meta :: after ->
  Forall (fun m => ~ usable_meta m) before ->
  usable_meta meta ->
  let content := strip (default [] (get meta (py "content"))) in
  _extract_published_from_soup soup = content
  /\ content <> [] /\ strip content = content
  /\ forall other,
       Forall (fun m => ~ usable_meta m) (find_all_meta other) ->
       find_time other = None ->
       _extract_published_from_soup other = [].
Proof.
  intros Hmetas Hbefore Husable content. split; [|split; [|split]].
  - unfold _extract_published_from_soup.
    rewrite Hmetas, (scan_metas_first_usable before after meta Hbefore Husable).
    reflexivity.
  - exact (proj2 Husable).
  - apply strip_idempotent.
  - intros other Hnone Htime. unfold _extract_published_from_soup.
    rewrite (scan_metas_none_usable _ Hnone), Htime. reflexivity.
Qed.

Lemma published_from_first_usable_meta_witness :
  _extract_published_from_soup modified_first_page = py "2026-02-09".
Proof.
  exact (eq_trans
           (proj1 (published_from_first_usable_meta modified_first_page
                     [viewport_meta] [published_meta] modified_meta
                     eq_refl
                     ltac:(constructor; [|constructor];
                           intros [(k & Hk & Hin) _]; vm_compute in Hk;
                           injection Hk as <-; revert Hin;
                           apply (bool_decide_eq_false_1 _); vm_compute; reflexivity)
                     ltac:(split; [eexists; split; [vm_compute; reflexivity|by_evaluation]
                                  | vm_compute; discriminate])))
           ltac:(vm_compute; reflexivity)).
Defined.

(** ** The group chat *)

(** X22.  Where the message of a run goes, once its blocks are written.
    With [FEISHU_GROUP_CHAT_ID] set, the message is sent to that chat and
    the chat is not looked up by name; with neither the id nor
    [FEISHU_GROUP_NAME] set, nothing is asked of the chat service and the
    group status is "skipped"; with the name only, the chat is looked up
    by it, and the message goes to the chat found, or, when the lookup
    fails or finds no chat, is not sent.  In every case the run returns
    status "ok"; a message the service refuses shows as the group status
    "error". *)
Theorem run_pipeline_chat_resolution
    (net : Network) (clk : Clock) (cfg : Config) (service : Feishu)
    (all_articles : list NewsArticle) (x : NewsArticle) (rest : list NewsArticle)
    (doc_id doc_url : str) :
  crawl_ai_news all_articles 0 = Returned (x :: rest) ->
  client_configured = true ->
  create_document run_doc_title = Returned (doc_id, doc_url) ->
  (forall batch, write_blocks doc_id doc_id batch = Returned tt) ->
  let text := _build_group_text (x :: rest) doc_url run_date_str in
  let written :=
    CreateDocument run_doc_title
    :: map (WriteBlocks doc_id doc_id)
           (batches BATCH_SIZE (_build_feishu_blocks (x :: rest) run_date_str)) in
  let sent chat_id :=
    match send_group_message chat_id text with
    | Returned _ => GroupOk chat_id
    | Raised _ => GroupError
    end in
  let run_is later group :=
    run_pipeline all_articles false
    = {| calls := written ++ later;
         result := Returned (ResultOk doc_url doc_id (len_list (x :: rest)) group) |} in
  (forall c cs, FEISHU_GROUP_CHAT_ID = c :: cs ->
     run_is [SendGroupMessage (c :: cs) text] (sent (c :: cs)))
  /\ (FEISHU_GROUP_CHAT_ID = [] -> FEISHU_GROUP_NAME = [] -> run_is [] GroupSkipped)
  /\ (forall n ns, FEISHU_GROUP_CHAT_ID = [] -> FEISHU_GROUP_NAME = n :: ns ->
        match find_chat_id_by_name (n :: ns) with
        | Returned (Some (c :: cs)) =>
          run_is [FindChatIdByName (n :: ns); SendGroupMessage (c :: cs) text]
                 (sent (c :: cs))
        | _ => run_is [FindChatIdByName (n :: ns)] GroupSkipped
        end).
Proof.
  unfold run_doc_title, run_date_str.
  intros Hcrawl Hconf Hdoc Hwrite. cbv zeta.
  unfold run_pipeline. rewrite Hcrawl. cbv [lift]. rewrite Hconf, Hdoc.
  cbv [mbind io_bind mret io_ret outcome_ret request attempt result calls].
  rewrite write_batches_answered by (apply Forall_forall; intros b _; apply Hwrite).
  split; [|split].
  - intros c cs ->. cbn [is_empty andb].
    destruct (send_group_message _ _); cbn [app]; rewrite ?app_nil_r; reflexivity.
  - intros -> ->. cbn [is_empty andb negb app]. rewrite ?app_nil_r. reflexivity.
  - intros n ns -> ->. cbn [is_empty andb negb].
    destruct (find_chat_id_by_name (n :: ns)) as [[[|c cs]|]|e];
      try destruct (send_group_message _ _);
      cbn [app]; rewrite ?app_nil_r; reflexivity.
Qed.

Lemma run_pipeline_chat_resolution_witness :
  @run_pipeline offline fixed_clock chat_id_config helpful_service
     [gpt5_first] false
  = {| calls :=
         (CreateDocument (@run_doc_title fixed_clock)
          :: map (WriteBlocks (py "doc123") (py "doc123"))
                 (batches BATCH_SIZE
                    (@_build_feishu_blocks fixed_clock
                       [set_category (_categorize gpt5_first) gpt5_first]
                       (@run_date_str fixed_clock))))
         ++ [SendGroupMessage (py "oc_daily")
               (_build_group_text [set_category (_categorize gpt5_first) gpt5_first]
                  (py "https://feishu.cn/docx/doc123") (@run_date_str fixed_clock))];
       result :=
         Returned (ResultOk (py "https://feishu.cn/docx/doc123") (py "doc123")
                     (len_list [set_category (_categorize gpt5_first) gpt5_first])
                     (GroupOk (py "oc_daily"))) |}.
Proof.
  exact (proj1 (run_pipeline_chat_resolution offline fixed_clock chat_id_config
                  helpful_service [gpt5_first]
                  (set_category (_categorize gpt5_first) gpt5_first) []
                  (py "doc123") (py "https://feishu.cn/docx/doc123")
                  ltac:(vm_compute; reflexivity) eq_refl eq_refl
                  ltac:(intros; reflexivity))
               111%N (py "c_daily") ltac:(vm_compute; reflexivity)).
Defined.
